(** * GraphwalkerBenchmarkAnalysis: run loader, chart renderer, report factory

    A shallow embedding of
      - [models/benchmark_run.py]      (class [BenchmarkRun]),
      - [plotters/benchmark_plotter.py] (class [BenchmarkPlotter]),
      - [report/report_factory.py]     (class [ReportFactory]),
    followed by the properties of the specification that concern them.

    Conventions of the embedding.
      - A Python [dict] is the list of its items in insertion order (keys are
        unique); [plots[k] = v] replaces in place or appends.
      - Python numbers ([int | float]) are exact rationals [Q]; integers that
        are printed or used as tick positions are [Z].  True division raises
        [ZeroDivisionError] on a zero divisor, as Python's [/] does; rounding
        of binary floating point is not represented.
      - A [str] is a [string] of bytes; [str.lower] acts on ASCII letters.
      - A raised exception is the [Raise] branch of [result]; code that
        touches the file system, the terminal or the class attribute
        [BenchmarkPlotter.benchmark] threads a [world].
      - matplotlib is driven through recorded calls: an axes object is the
        record of what was drawn on it, and the saved PNG is determined by
        that record.  Library calls raise where they check their arguments:
        [np.polyfit] on an empty vector, [ax.hist] on zero bins,
        [Path.mkdir] and [open(p, 'w')] on a path the operating system
        refuses. *)

From Stdlib Require Import ZArith QArith String Ascii List Bool Lia.
From Stdlib Require Import Sorting.Sorted Permutation.
From Stdlib Require Import DecimalString DecimalZ DecimalPos.
From Stdlib Require Import Lqa.
From stdpp Require Import gmap strings.
Import ListNotations.

Local Open Scope string_scope.
Local Open Scope list_scope.

(* ================================================================== *)
(** * Part I: definitions                                              *)
(* ================================================================== *)

(** ** Python prelude *)

(** A path is the list of its components below the root;
    [output / 'images'] appends one component. *)
Abbreviation path := (list string).

Definition path_join (p : path) (child : string) : path := p ++ [child].

Inductive exn : Type :=
| TypeError (msg : string)
| ValueError (msg : string)
| AttributeError (msg : string)
| ZeroDivisionError
| StopIteration
| JSONDecodeError
| FileNotFoundError (p : path)
| FileExistsError (p : path)
| IsADirectoryError (p : path)
| NotADirectoryError (p : path)
| EOFError
| OSError (errno : Z) (p : path).

Inductive result (A : Type) : Type :=
| Ok (a : A)
| Raise (e : exn).
Arguments Ok {A} a.
Arguments Raise {A} e.

Definition bind {A B : Type} (c : result A) (k : A -> result B) : result B :=
  match c with
  | Ok a => k a
  | Raise e => Raise e
  end.

Notation "'let!' x ':=' c 'in' k" := (bind c (fun x => k))
  (at level 10, x name, c at level 100, k at level 200).

(** [[f(x) for x in l]] where [f] may raise: left to right, first
    exception wins. *)
Fixpoint comprehension {A B : Type} (f : A -> result B) (l : list A)
  : result (list B) :=
  match l with
  | [] => Ok []
  | x :: l' =>
      let! y := f x in
      let! ys := comprehension f l' in
      Ok (y :: ys)
  end.

(** [a / b] on Python numbers. *)
Definition py_truediv (a b : Q) : result Q :=
  if Qeq_bool b 0 then Raise ZeroDivisionError else Ok (a / b)%Q.

(** [int(x)]: truncation towards zero. *)
Definition py_int (x : Q) : Z := Z.quot (Qnum x) (Z.pos (Qden x)).

(** [str(n)] for an [int]. *)
Definition py_str (n : Z) : string := NilZero.string_of_int (Z.to_int n).

Definition lower_ascii (c : ascii) : ascii :=
  let n := nat_of_ascii c in
  if (65 <=? n)%nat && (n <=? 90)%nat then ascii_of_nat (n + 32) else c.

(** [s.lower()]. *)
Fixpoint lower (s : string) : string :=
  match s with
  | EmptyString => EmptyString
  | String c s' => String (lower_ascii c) (lower s')
  end.

Definition newline : string := String (ascii_of_nat 10) EmptyString.

Definition dquote : string := String (ascii_of_nat 34) EmptyString.

(** *** Ordered dictionaries *)

Section Dict.
Context {V : Type}.

Definition dict_keys (d : list (string * V)) : list string := map fst d.

(** [k in d] *)
Definition dict_mem (k : string) (d : list (string * V)) : bool :=
  existsb (String.eqb k) (dict_keys d).

Fixpoint dict_get (k : string) (d : list (string * V)) : option V :=
  match d with
  | [] => None
  | (k', v) :: d' => if String.eqb k k' then Some v else dict_get k d'
  end.

(** [d[k] = v] *)
Fixpoint dict_set (k : string) (v : V) (d : list (string * V))
  : list (string * V) :=
  match d with
  | [] => [(k, v)]
  | (k', v') :: d' =>
      if String.eqb k k' then (k, v) :: d' else (k', v') :: dict_set k v d'
  end.

(** [next(iter(d))], then [d[...]]: the value under the first key. *)
Definition dict_first (d : list (string * V)) : result V :=
  match d with
  | [] => Raise StopIteration
  | (_, v) :: _ => Ok v
  end.
End Dict.

(** [x in l] for a list of names. *)
Definition name_in (x : string) (l : list string) : bool :=
  existsb (String.eqb x) l.

(** *** JSON documents *)

#[local] Set Warnings "-register-all".

Inductive json : Type :=
| JNull
| JBool (b : bool)
| JNum (q : Q)
| JStr (s : string)
| JArr (items : list json)
| JObj (members : list (string * json)).

(** *** File system, terminal and class state *)

Inductive node : Type :=
| File (content : string)
| Dir.

(* ------------------------------------------------------------------ *)
(** ** The data model read by the plotter

    The classes [Benchmark], [BenchmarkGenerator], [RunGroup] and the report
    objects are declared outside the three files embedded here; they appear
    as records holding exactly the attributes those files read. *)

Record BenchmarkGenerator : Type := {
  stop_coverage : Z;
  total_generation_time : Q;
  average_generation_time : Q;
  min_generation_time : Q;
  max_generation_time : Q;
  total_test_suite_size : Q;
  average_test_suite_size : Q;
  min_test_suite_size : Q;
  max_test_suite_size : Q;
  total_vertex_visits_individual : list (string * Q);
  total_edge_visits_individual : list (string * Q);
  average_vertex_visits_individual : list (string * Q);
  average_edge_visits_individual : list (string * Q)
}.

(** [dict[str, list[BenchmarkGenerator]]] *)
Abbreviation grouped := (list (string * list BenchmarkGenerator)).

Record RunGroup : Type := {
  algorithm : string;
  run_stop_coverage : Z;
  average_test_duration : Q;
  minimum_test_duration : Q;
  maximum_test_duration : Q;
  successful_runs : bool
}.

Record Model : Type := {
  vertices : Z;
  edges : Z
}.

Record Report : Type := {
  model : Model;
  generators_grouped : grouped
}.

Record Benchmark : Type := {
  name : string;
  report : Report;
  run_groups : list RunGroup;
  run_groups_sorted : list RunGroup
}.

(** The mutable surroundings of a report run. *)
Record world : Type := {
  plotter_benchmark : option Benchmark;     (* BenchmarkPlotter.benchmark *)
  files : gmap path node;
  stdout : list string;
  stdin : list string
}.

Definition set_plotter_benchmark (b : Benchmark) (w : world) : world :=
  {| plotter_benchmark := Some b; files := files w;
     stdout := stdout w; stdin := stdin w |}.

Definition set_files (fs : gmap path node) (w : world) : world :=
  {| plotter_benchmark := plotter_benchmark w; files := fs;
     stdout := stdout w; stdin := stdin w |}.

(** Computations that may change the world and may raise. *)
Definition io (A : Type) : Type := world -> world * result A.

Definition io_ret {A : Type} (a : A) : io A := fun w => (w, Ok a).

Definition io_raise {A : Type} (e : exn) : io A := fun w => (w, Raise e).

Definition io_bind {A B : Type} (c : io A) (k : A -> io B) : io B :=
  fun w =>
    match c w with
    | (w', Ok a) => k a w'
    | (w', Raise e) => (w', Raise e)
    end.

Notation "'do!' x ':=' c 'in' k" := (io_bind c (fun x => k))
  (at level 10, x name, c at level 100, k at level 200).

(* ------------------------------------------------------------------ *)
(** ** [models/benchmark_run.py] *)

Module BenchmarkRun.

Record t : Type := {
  path : json;
  report : json;
  test_results : json
}.

(** [Path.read_text()] *)
Definition read_text (fs : gmap (list string) node) (p : list string)
  : result string :=
  match fs !! p with
  | Some (File content) => Ok content
  | Some Dir => Raise (IsADirectoryError p)
  | None => Raise (FileNotFoundError p)
  end.

(** [Path.exists()] *)
Definition exists_ (fs : gmap (list string) node) (p : list string) : bool :=
  match fs !! p with
  | Some _ => true
  | None => false
  end.

Section Loader.
(** [json.loads] is the standard library's parser. *)
Variable json_parse : string -> option json.

Definition json_loads (s : string) : result json :=
  match json_parse s with
  | Some j => Ok j
  | None => Raise JSONDecodeError
  end.

Definition from_files (fs : gmap (list string) node)
  (path_file report_file test_results_file : list string) : result t :=
  let! path := (let! s := read_text fs path_file in json_loads s) in
  let! report := (let! s := read_text fs report_file in json_loads s) in
  let! test_results :=
    (if exists_ fs test_results_file
     then let! s := read_text fs test_results_file in json_loads s
     else Ok (JObj [])) in
  Ok {| path := path; report := report; test_results := test_results |}.
End Loader.

End BenchmarkRun.

(* ------------------------------------------------------------------ *)
(** ** matplotlib, as far as the plotter drives it *)

(** What has been drawn on an axes object. *)
Inductive artist : Type :=
| Bar (x height : list Q) (label : string) (width : Q)
    (* ax.bar(x, height, label=label, width=width, align='center') *)
| TrendLine (x y : list Q) (deg : nat)
    (* ax.plot(x, np.poly1d(np.polyfit(x, y, deg))(x),
               linestyle='--', linewidth=1, alpha=0.7) *)
| Line (x y : list Q) (label : string)
    (* ax.plot(x, y, label=label) *)
| Hist (x : list string) (weights : list Z) (bins : nat) (label : string).
    (* ax.hist(x, weights=weights, bins=bins, label=label, alpha=0.5) *)

Record axes : Type := {
  title : string;
  xlabel : string;
  ylabel : string;
  artists : list artist;
  xticks : option (list Z);
  ygrid : bool;
  legend : bool;
  xtick_rotation : option Z;
  tight_layout : bool
}.

(** [fig, ax = plt.subplots()] *)
Definition subplots : axes :=
  {| title := EmptyString; xlabel := EmptyString; ylabel := EmptyString;
     artists := [];
     xticks := None; ygrid := false; legend := false;
     xtick_rotation := None; tight_layout := false |}.

Definition set_title (s : string) (ax : axes) : axes :=
  {| title := s; xlabel := xlabel ax; ylabel := ylabel ax;
     artists := artists ax; xticks := xticks ax; ygrid := ygrid ax;
     legend := legend ax; xtick_rotation := xtick_rotation ax;
     tight_layout := tight_layout ax |}.

Definition set_xlabel (s : string) (ax : axes) : axes :=
  {| title := title ax; xlabel := s; ylabel := ylabel ax;
     artists := artists ax; xticks := xticks ax; ygrid := ygrid ax;
     legend := legend ax; xtick_rotation := xtick_rotation ax;
     tight_layout := tight_layout ax |}.

Definition set_ylabel (s : string) (ax : axes) : axes :=
  {| title := title ax; xlabel := xlabel ax; ylabel := s;
     artists := artists ax; xticks := xticks ax; ygrid := ygrid ax;
     legend := legend ax; xtick_rotation := xtick_rotation ax;
     tight_layout := tight_layout ax |}.

(** Any of [ax.bar], [ax.plot], [ax.hist]. *)
Definition draw (a : artist) (ax : axes) : axes :=
  {| title := title ax; xlabel := xlabel ax; ylabel := ylabel ax;
     artists := artists ax ++ [a]; xticks := xticks ax; ygrid := ygrid ax;
     legend := legend ax; xtick_rotation := xtick_rotation ax;
     tight_layout := tight_layout ax |}.

Definition set_xticks (ticks : list Z) (ax : axes) : axes :=
  {| title := title ax; xlabel := xlabel ax; ylabel := ylabel ax;
     artists := artists ax; xticks := Some ticks; ygrid := ygrid ax;
     legend := legend ax; xtick_rotation := xtick_rotation ax;
     tight_layout := tight_layout ax |}.

(** [ax.yaxis.grid(True)] *)
Definition yaxis_grid (ax : axes) : axes :=
  {| title := title ax; xlabel := xlabel ax; ylabel := ylabel ax;
     artists := artists ax; xticks := xticks ax; ygrid := true;
     legend := legend ax; xtick_rotation := xtick_rotation ax;
     tight_layout := tight_layout ax |}.

(** The encoded picture: [plt.savefig(bytesio, format='png', dpi=300)]
    of the current figure. *)
Record image : Type := {
  figure : axes;
  format : string;
  dpi : Z
}.

(** *** Reading a figure back *)

(** The heights of the bar series of an axes object, in drawing order. *)
Definition bar_heights (ax : axes) : list (list Q) :=
  flat_map (fun a => match a with
                     | Bar _ height _ _ => [height]
                     | _ => []
                     end) (artists ax).

(** The arguments [(x, y, deg)] of the [np.polyfit] calls behind the trend
    lines of an axes object, in drawing order. *)
Definition trend_fits (ax : axes) : list (list Q * list Q * nat) :=
  flat_map (fun a => match a with
                     | TrendLine x y deg => [(x, y, deg)]
                     | _ => []
                     end) (artists ax).

(** The bar series of an axes object in drawing order: positions, heights,
    legend label and bar width of each [ax.bar] call. *)
Definition bar_series (ax : axes) : list (list Q * list Q * string * Q) :=
  flat_map (fun a => match a with
                     | Bar x height label width => [(x, height, label, width)]
                     | _ => []
                     end) (artists ax).

(** The histograms of an axes object in drawing order: items, weights,
    number of bins and legend label of each [ax.hist] call. *)
Definition histograms (ax : axes)
  : list (list string * list Z * nat * string) :=
  flat_map (fun a => match a with
                     | Hist x weights bins label => [(x, weights, bins, label)]
                     | _ => []
                     end) (artists ax).

(** The line series of an axes object in drawing order: x values, y values
    and legend label of each labelled [ax.plot] call. *)
Definition line_series (ax : axes) : list (list Q * list Q * string) :=
  flat_map (fun a => match a with
                     | Line x y label => [(x, y, label)]
                     | _ => []
                     end) (artists ax).

(** What [_post_process_plot] leaves on an axes object. *)
Definition post_processed (ax : axes) : Prop :=
  legend ax = true /\ xtick_rotation ax = Some 45%Z /\ tight_layout ax = true.

(** Where the bars of the series drawn [i]-th sit when bars are
    [bar_width] wide: each stop-coverage shifted by [i] bar widths. *)
Definition bar_positions (bar_width : Q) (i : nat)
  (generators : list BenchmarkGenerator) : list Q :=
  map (fun generator =>
         (inject_Z (stop_coverage generator)
          + inject_Z (Z.of_nat i) * bar_width)%Q) generators.

(** [np.polyfit(x, y, deg)] followed by the [ax.plot] of the fitted line:
    [np.polyfit] refuses an empty [x] with [TypeError].  The fit is a
    collaborator: its arguments are recorded, the least-squares solve is
    not carried out. *)
Definition plot_trend_line (x y : list Q) (deg : nat) (ax : axes)
  : result axes :=
  match x with
  | [] => Raise (TypeError "expected non-empty vector for x")
  | _ :: _ => Ok (draw (TrendLine x y deg) ax)
  end.

(** [ax.hist(x, weights=weights, bins=bins, label=label, alpha=0.5)]:
    a number of bins of 0 is refused with [ValueError]. *)
Definition plot_hist (x : list string) (weights : list Z) (bins : nat)
  (label : string) (ax : axes) : result axes :=
  match bins with
  | O => Raise (ValueError "`bins` must be positive, when an integer")
  | S _ => Ok (draw (Hist x weights bins label) ax)
  end.

(** [sorted(d.items(), key=lambda x: x[1], reverse=True)]: stable, largest
    value first. *)
Fixpoint insert_by_value_desc (x : string * Q) (l : list (string * Q))
  : list (string * Q) :=
  match l with
  | [] => [x]
  | y :: l' =>
      if Qle_bool (snd y) (snd x) then x :: y :: l'
      else y :: insert_by_value_desc x l'
  end.

Definition sorted_by_value_desc (items : list (string * Q))
  : list (string * Q) :=
  fold_right insert_by_value_desc [] items.

(** [list.sort()] on integers. *)
Fixpoint insert_sorted (x : Z) (l : list Z) : list Z :=
  match l with
  | [] => [x]
  | y :: l' => if (x <=? y)%Z then x :: y :: l' else y :: insert_sorted x l'
  end.

Definition list_sort (l : list Z) : list Z := fold_right insert_sorted [] l.

(** What one histogram of a bucket is made of: its identifiers by
    descending visit count, the counts as integer weights, one bin per
    identifier, the generator name as label. *)
Definition histogram_of
  (property_lambda : BenchmarkGenerator -> list (string * Q))
  (generator_group : string) (generator : BenchmarkGenerator)
  : list string * list Z * nat * string :=
  (map fst (sorted_by_value_desc (property_lambda generator)),
   map (fun item => py_int (snd item))
     (sorted_by_value_desc (property_lambda generator)),
   length (property_lambda generator),
   generator_group).

(* ------------------------------------------------------------------ *)
(** ** [plotters/benchmark_plotter.py] *)

Module BenchmarkPlotter.

Abbreviation plot_dict := (list (string * image)).

(** Reading the class attribute [BenchmarkPlotter.benchmark]; the class
    body only annotates it, so it is absent until [create_plots] has
    stored one. *)
Definition benchmark (cls : option Benchmark) : result Benchmark :=
  match cls with
  | Some b => Ok b
  | None =>
      Raise (AttributeError
               "type object 'BenchmarkPlotter' has no attribute 'benchmark'")
  end.

Definition _post_process_plot (ax : axes) : axes :=
  {| title := title ax; xlabel := xlabel ax; ylabel := ylabel ax;
     artists := artists ax; xticks := xticks ax; ygrid := ygrid ax;
     legend := true; xtick_rotation := Some 45%Z; tight_layout := true |}.

(** The body of the [for i, generator_group in enumerate(...)] loop of
    [_plot_bars], from index [i] on. *)
Fixpoint _plot_bars_loop (value_lambda : BenchmarkGenerator -> result Q)
  (add_trend_line : bool) (bar_width : Q) (i : nat)
  (groups : grouped) (ax : axes) : result axes :=
  match groups with
  | [] => Ok ax
  | (generator_group, generators) :: rest =>
      let coverage_values :=
        map (fun generator =>
               (inject_Z (stop_coverage generator)
                + inject_Z (Z.of_nat i) * bar_width)%Q) generators in
      let! property_values := comprehension value_lambda generators in
      let ax :=
        draw (Bar coverage_values property_values generator_group bar_width)
          ax in
      let! ax :=
        if add_trend_line
        then plot_trend_line coverage_values property_values 3 ax
        else Ok ax in
      _plot_bars_loop value_lambda add_trend_line bar_width (S i) rest ax
  end.

Definition _plot_bars (ax : axes) (grouped_generators : grouped)
  (value_lambda : BenchmarkGenerator -> result Q) (add_trend_line : bool)
  : result axes :=
  let group_count := length grouped_generators in
  let! bar_width := py_truediv 6 (inject_Z (Z.of_nat group_count)) in
  let! ax :=
    _plot_bars_loop value_lambda add_trend_line bar_width 0
      grouped_generators ax in
  let! first := dict_first grouped_generators in
  let ax := set_xticks (map stop_coverage first) ax in
  let ax := yaxis_grid ax in
  Ok (_post_process_plot ax).

(** [grouped_run_groups[k].append(x)] *)
Definition dict_append (k : string) (x : RunGroup)
  (d : list (string * list RunGroup)) : list (string * list RunGroup) :=
  match dict_get k d with
  | Some l => dict_set k (l ++ [x]) d
  | None => d
  end.

(** The run groups of the algorithms present in [grouped_generators],
    bucketed by algorithm. *)
Definition group_run_groups (benchmark : Benchmark)
  (grouped_generators : grouped) : list (string * list RunGroup) :=
  fold_left
    (fun grouped_run_groups run_group =>
       if negb (dict_mem (algorithm run_group) grouped_generators)
       then grouped_run_groups
       else
         let grouped_run_groups :=
           if negb (dict_mem (algorithm run_group) grouped_run_groups)
           then dict_set (algorithm run_group) [] grouped_run_groups
           else grouped_run_groups in
         dict_append (algorithm run_group) run_group grouped_run_groups)
    (run_groups_sorted benchmark) [].

Fixpoint _plot_bars_tests_loop (value_lambda : RunGroup -> result Q)
  (add_trend_line : bool) (bar_width : Q) (i : nat)
  (groups : list (string * list RunGroup)) (ax : axes) : result axes :=
  match groups with
  | [] => Ok ax
  | (algorithm, run_groups) :: rest =>
      let coverage_values :=
        map (fun run_group =>
               (inject_Z (run_stop_coverage run_group)
                + inject_Z (Z.of_nat i) * bar_width)%Q) run_groups in
      let! property_values := comprehension value_lambda run_groups in
      let ax :=
        draw (Bar coverage_values property_values algorithm bar_width) ax in
      let! ax :=
        if add_trend_line
        then plot_trend_line coverage_values property_values 3 ax
        else Ok ax in
      _plot_bars_tests_loop value_lambda add_trend_line bar_width (S i)
        rest ax
  end.

Definition _plot_bars_tests (ax : axes) (benchmark : Benchmark)
  (grouped_generators : grouped)
  (value_lambda : RunGroup -> result Q) (add_trend_line : bool)
  : result axes :=
  let group_count := length grouped_generators in
  let! bar_width := py_truediv 6 (inject_Z (Z.of_nat group_count)) in
  let grouped_run_groups := group_run_groups benchmark grouped_generators in
  let! ax :=
    _plot_bars_tests_loop value_lambda add_trend_line bar_width 0
      grouped_run_groups ax in
  let! first := dict_first grouped_run_groups in
  let ax := set_xticks (map run_stop_coverage first) ax in
  let ax := yaxis_grid ax in
  Ok (_post_process_plot ax).

Fixpoint _plot_lines_loop (value_lambda : BenchmarkGenerator -> result Q)
  (groups : grouped) (ax : axes) : result axes :=
  match groups with
  | [] => Ok ax
  | (generator_group, generators) :: rest =>
      let coverage_values :=
        map (fun generator => inject_Z (stop_coverage generator))
          generators in
      let! property_values := comprehension value_lambda generators in
      let ax := draw (Line coverage_values property_values generator_group)
                  ax in
      _plot_lines_loop value_lambda rest ax
  end.

Definition _plot_lines (ax : axes) (grouped_generators : grouped)
  (value_lambda : BenchmarkGenerator -> result Q) : result axes :=
  let! ax := _plot_lines_loop value_lambda grouped_generators ax in
  let! first := dict_first grouped_generators in
  let ax := set_xticks (map stop_coverage first) ax in
  let ax := yaxis_grid ax in
  Ok (_post_process_plot ax).

(** One generator of the inner loop of [_plot_histogram]. *)
Definition _plot_histogram_generator
  (property_lambda : BenchmarkGenerator -> list (string * Q))
  (coverage_value : Z) (generator_group : string)
  (ax : axes) (generator : BenchmarkGenerator) : result axes :=
  if negb (stop_coverage generator =? coverage_value)%Z then Ok ax
  else
    let items :=
      map fst (sorted_by_value_desc (property_lambda generator)) in
    let item_visits :=
      map (fun item => py_int (snd item))
        (sorted_by_value_desc (property_lambda generator)) in
    plot_hist items item_visits (length items) generator_group ax.

(** The inner loop of [_plot_histogram], over the buckets of one
    generator name. *)
Fixpoint _plot_histogram_generators
  (property_lambda : BenchmarkGenerator -> list (string * Q))
  (coverage_value : Z) (generator_group : string)
  (generators : list BenchmarkGenerator) (ax : axes) : result axes :=
  match generators with
  | [] => Ok ax
  | generator :: rest =>
      let! ax :=
        _plot_histogram_generator property_lambda coverage_value
          generator_group ax generator in
      _plot_histogram_generators property_lambda coverage_value
        generator_group rest ax
  end.

(** The outer loop of [_plot_histogram], over the generator names. *)
Fixpoint _plot_histogram_groups
  (property_lambda : BenchmarkGenerator -> list (string * Q))
  (coverage_value : Z) (groups : grouped) (ax : axes) : result axes :=
  match groups with
  | [] => Ok ax
  | (generator_group, generators) :: rest =>
      let! ax :=
        _plot_histogram_generators property_lambda coverage_value
          generator_group generators ax in
      _plot_histogram_groups property_lambda coverage_value rest ax
  end.

Definition _plot_histogram (ax : axes) (grouped_generators : grouped)
  (property_lambda : BenchmarkGenerator -> list (string * Q))
  (coverage_value : Z) : result axes :=
  let! ax :=
    _plot_histogram_groups property_lambda coverage_value grouped_generators
      ax in
  let ax := set_xticks [] ax in
  Ok (_post_process_plot ax).

(** *** The general charts

    Every chart function receives the class state [cls] it runs under,
    whether or not its body reads [BenchmarkPlotter.benchmark]. *)

Definition plot_total_time (cls : option Benchmark)
  (grouped_generators : grouped) : result axes :=
  let ax := subplots in
  let ax :=
    set_title "Total generation time per generator by coverage value"
      ax in
  let ax := set_xlabel "Coverage (%)" ax in
  let ax := set_ylabel "Total Time (μs)" ax in
  _plot_bars ax grouped_generators
    (fun generator => Ok (total_generation_time generator)) true.

Definition plot_total_size (cls : option Benchmark)
  (grouped_generators : grouped) : result axes :=
  let ax := subplots in
  let ax :=
    set_title "Total test suite size per generator by coverage value"
      ax in
  let ax := set_xlabel "Coverage (%)" ax in
  let ax := set_ylabel "Total Size (element count)" ax in
  _plot_bars ax grouped_generators
    (fun generator => Ok (total_test_suite_size generator)) true.

Definition plot_average_time (cls : option Benchmark)
  (grouped_generators : grouped) : result axes :=
  let ax := subplots in
  let ax :=
    set_title "Average generation time per generator by coverage value"
      ax in
  let ax := set_xlabel "Coverage (%)" ax in
  let ax := set_ylabel "Average Time (μs)" ax in
  _plot_bars ax grouped_generators
    (fun generator => Ok (average_generation_time generator)) true.

Definition plot_average_size (cls : option Benchmark)
  (grouped_generators : grouped) : result axes :=
  let ax := subplots in
  let ax :=
    set_title "Average test suite size per generator by coverage value"
      ax in
  let ax := set_xlabel "Coverage (%)" ax in
  let ax := set_ylabel "Average Size (element count)" ax in
  _plot_bars ax grouped_generators
    (fun generator => Ok (average_test_suite_size generator)) true.

Definition plot_minimum_time (cls : option Benchmark)
  (grouped_generators : grouped) : result axes :=
  let ax := subplots in
  let ax :=
    set_title "Minimum generation time per generator by coverage value"
      ax in
  let ax := set_xlabel "Coverage (%)" ax in
  let ax := set_ylabel "Minimum Time (μs)" ax in
  _plot_bars ax grouped_generators
    (fun generator => Ok (min_generation_time generator)) true.

Definition plot_maximum_time (cls : option Benchmark)
  (grouped_generators : grouped) : result axes :=
  let ax := subplots in
  let ax :=
    set_title "Maximum generation time per generator by coverage value"
      ax in
  let ax := set_xlabel "Coverage (%)" ax in
  let ax := set_ylabel "Maximum Time (μs)" ax in
  _plot_bars ax grouped_generators
    (fun generator => Ok (max_generation_time generator)) true.

Definition plot_minimum_size (cls : option Benchmark)
  (grouped_generators : grouped) : result axes :=
  let ax := subplots in
  let ax :=
    set_title "Minimum test suite size per generator by coverage value"
      ax in
  let ax := set_xlabel "Coverage (%)" ax in
  let ax := set_ylabel "Minimum Size (element count)" ax in
  _plot_bars ax grouped_generators
    (fun generator => Ok (min_test_suite_size generator)) true.

Definition plot_maximum_size (cls : option Benchmark)
  (grouped_generators : grouped) : result axes :=
  let ax := subplots in
  let ax :=
    set_title "Maximum test suite size per generator by coverage value"
      ax in
  let ax := set_xlabel "Coverage (%)" ax in
  let ax := set_ylabel "Maximum Size (element count)" ax in
  _plot_bars ax grouped_generators
    (fun generator => Ok (max_test_suite_size generator)) true.

Definition plot_max_minus_min_size (cls : option Benchmark)
  (grouped_generators : grouped) : result axes :=
  let ax := subplots in
  let ax :=
    set_title
      ("Difference between maximum and minimum test suite size" +:+ newline
       +:+ "per generator by coverage value")
      ax in
  let ax := set_xlabel "Coverage (%)" ax in
  let ax := set_ylabel "Difference (element count)" ax in
  _plot_bars ax grouped_generators
    (fun generator =>
       Ok (max_test_suite_size generator
           - min_test_suite_size generator)%Q)
    true.

Definition plot_max_minus_min_time (cls : option Benchmark)
  (grouped_generators : grouped) : result axes :=
  let ax := subplots in
  let ax :=
    set_title
      ("Difference between maximum and minimum generation time" +:+ newline
       +:+ "per generator by coverage value")
      ax in
  let ax := set_xlabel "Coverage (%)" ax in
  let ax := set_ylabel "Difference (μs)" ax in
  _plot_bars ax grouped_generators
    (fun generator =>
       Ok (max_generation_time generator
           - min_generation_time generator)%Q)
    true.

Definition plot_coverage_vs_time (cls : option Benchmark)
  (grouped_generators : grouped) : result axes :=
  let ax := subplots in
  let ax := set_title "Coverage vs Generation time per generator" ax in
  let ax := set_xlabel "Coverage (%)" ax in
  let ax := set_ylabel "Time (μs)" ax in
  _plot_lines ax grouped_generators
    (fun generator => Ok (total_generation_time generator)).

Definition plot_average_size_divided_by_average_time (cls : option Benchmark)
  (grouped_generators : grouped) : result axes :=
  let ax := subplots in
  let ax :=
    set_title
      ("Average test suite size divided by" +:+ newline
       +:+ "average generation time per generator by coverage value")
      ax in
  let ax := set_xlabel "Coverage (%)" ax in
  let ax := set_ylabel "Size/Time (element count/μs)" ax in
  _plot_bars ax grouped_generators
    (fun generator =>
       py_truediv (average_test_suite_size generator)
         (average_generation_time generator)) true.

(** *** The per-coverage histograms *)

Definition plot_histogram_total_visited_vertices (cls : option Benchmark)
  (grouped_generators : grouped) (coverage_value : Z) : result axes :=
  let ax := subplots in
  let ax :=
    set_title ("Vertex total visit count histogram for" +:+ newline
               +:+ "coverage value " +:+ py_str coverage_value +:+ "%")
      ax in
  let ax := set_xlabel "Vertex" ax in
  let ax := set_ylabel "Visit Count" ax in
  _plot_histogram ax grouped_generators
    (fun generator => total_vertex_visits_individual generator)
    coverage_value.

Definition plot_histogram_total_visited_edges (cls : option Benchmark)
  (grouped_generators : grouped) (coverage_value : Z) : result axes :=
  let ax := subplots in
  let ax :=
    set_title ("Edge total visit count histogram for" +:+ newline
               +:+ "coverage value " +:+ py_str coverage_value +:+ "%")
      ax in
  let ax := set_xlabel "Edge" ax in
  let ax := set_ylabel "Visit Count" ax in
  _plot_histogram ax grouped_generators
    (fun generator => total_edge_visits_individual generator)
    coverage_value.

Definition plot_histogram_average_visited_vertices (cls : option Benchmark)
  (grouped_generators : grouped) (coverage_value : Z) : result axes :=
  let ax := subplots in
  let ax :=
    set_title ("Vertex average visit count histogram for" +:+ newline
               +:+ "coverage value " +:+ py_str coverage_value +:+ "%")
      ax in
  let ax := set_xlabel "Vertex" ax in
  let ax := set_ylabel "Visit Count" ax in
  _plot_histogram ax grouped_generators
    (fun generator => average_vertex_visits_individual generator)
    coverage_value.

Definition plot_histogram_average_visited_edges (cls : option Benchmark)
  (grouped_generators : grouped) (coverage_value : Z) : result axes :=
  let ax := subplots in
  let ax :=
    set_title ("Edge average visit count histogram for" +:+ newline
               +:+ "coverage value " +:+ py_str coverage_value +:+ "%")
      ax in
  let ax := set_xlabel "Edge" ax in
  let ax := set_ylabel "Visit Count" ax in
  _plot_histogram ax grouped_generators
    (fun generator => average_edge_visits_individual generator)
    coverage_value.

(** *** The two coverage-percentage charts *)

(** [[1 for v in visits.values() if v != 0].count(1)] *)
Definition count_nonzero (visits : list (string * Q)) : Z :=
  Z.of_nat
    (length (List.filter (fun v => negb (Qeq_bool v 0)) (map snd visits))).

Definition plot_average_vertex_percentage_total_visits (cls : option Benchmark)
  (grouped_generators : grouped) : result axes :=
  let ax := subplots in
  let ax :=
    set_title ("Percentage of unique vertices visited" +:+ newline
               +:+ "in an average traversal") ax in
  let ax := set_xlabel "Coverage (%)" ax in
  let ax := set_ylabel "Average Percentage (%)" ax in
  _plot_bars ax grouped_generators
    (fun generator =>
       let visited :=
         count_nonzero (average_vertex_visits_individual generator) in
       let! stored := benchmark cls in
       let! ratio :=
         py_truediv (inject_Z visited)
           (inject_Z (vertices (model (report stored)))) in
       Ok (ratio * 100)%Q) true.

Definition plot_average_edge_percentage_total_visits (cls : option Benchmark)
  (grouped_generators : grouped) : result axes :=
  let ax := subplots in
  let ax :=
    set_title ("Percentage of unique edges visited" +:+ newline
               +:+ "in an average traversal") ax in
  let ax := set_xlabel "Coverage (%)" ax in
  let ax := set_ylabel "Average Percentage (%)" ax in
  _plot_bars ax grouped_generators
    (fun generator =>
       let visited :=
         count_nonzero (average_edge_visits_individual generator) in
       let! stored := benchmark cls in
       let! ratio :=
         py_truediv (inject_Z visited)
           (inject_Z (edges (model (report stored)))) in
       Ok (ratio * 100)%Q) true.

Definition plot_average_vs_minimum_time (cls : option Benchmark)
  (grouped_generators : grouped) : result axes :=
  let ax := subplots in
  let ax :=
    set_title ("Average generation time compared to minimum generation time"
               +:+ newline +:+ "per generator by coverage value") ax in
  let ax := set_xlabel "Coverage (%)" ax in
  let ax := set_ylabel "Time (μs)" ax in
  _plot_bars ax grouped_generators
    (fun generator =>
       Ok (average_generation_time generator
           - min_generation_time generator)%Q) true.

Definition plot_average_vs_minimum_size (cls : option Benchmark)
  (grouped_generators : grouped) : result axes :=
  let ax := subplots in
  let ax :=
    set_title ("Average test suite size compared to minimum test suite size"
               +:+ newline +:+ "per generator by coverage value") ax in
  let ax := set_xlabel "Coverage (%)" ax in
  let ax := set_ylabel "Size (element count)" ax in
  _plot_bars ax grouped_generators
    (fun generator =>
       Ok (average_test_suite_size generator
           - min_test_suite_size generator)%Q) true.

(** *** The test-execution charts *)

Definition plot_average_test_execution_time (cls : option Benchmark)
  (benchmark : Benchmark) (grouped_generators : grouped) : result axes :=
  let ax := subplots in
  let ax :=
    set_title "Average test execution time per generator by coverage value"
      ax in
  let ax := set_xlabel "Coverage (%)" ax in
  let ax := set_ylabel "Average Time (μs)" ax in
  _plot_bars_tests ax benchmark grouped_generators
    (fun run_group => Ok (average_test_duration run_group)) true.

Definition plot_minimum_test_execution_time (cls : option Benchmark)
  (benchmark : Benchmark) (grouped_generators : grouped) : result axes :=
  let ax := subplots in
  let ax :=
    set_title "Minimum test execution time per generator by coverage value"
      ax in
  let ax := set_xlabel "Coverage (%)" ax in
  let ax := set_ylabel "Minimum Time (μs)" ax in
  _plot_bars_tests ax benchmark grouped_generators
    (fun run_group => Ok (minimum_test_duration run_group)) true.

Definition plot_maximum_test_execution_time (cls : option Benchmark)
  (benchmark : Benchmark) (grouped_generators : grouped) : result axes :=
  let ax := subplots in
  let ax :=
    set_title "Maximum test execution time per generator by coverage value"
      ax in
  let ax := set_xlabel "Coverage (%)" ax in
  let ax := set_ylabel "Maximum Time (μs)" ax in
  _plot_bars_tests ax benchmark grouped_generators
    (fun run_group => Ok (maximum_test_duration run_group)) true.

(** *** The chart catalogue *)

Definition get_plot_functions
  : list (string * (option Benchmark -> grouped -> result axes)) :=
  [ ("Total Time", plot_total_time);
    ("Total Size", plot_total_size);
    ("Average Time", plot_average_time);
    ("Average Size", plot_average_size);
    ("Minimum Time", plot_minimum_time);
    ("Maximum Time", plot_maximum_time);
    ("Minimum Size", plot_minimum_size);
    ("Maximum Size", plot_maximum_size);
    ("Max-Min Size", plot_max_minus_min_size);
    ("Max-Min Time", plot_max_minus_min_time);
    ("Coverage vs Time", plot_coverage_vs_time);
    ("Size over Time", plot_average_size_divided_by_average_time);
    ("Average Vertex Visits %", plot_average_vertex_percentage_total_visits);
    ("Average Edge Visits %", plot_average_edge_percentage_total_visits);
    ("Average vs Minimum Time", plot_average_vs_minimum_time);
    ("Average vs Minimum Size", plot_average_vs_minimum_size) ].

Definition get_per_coverage_plot_functions
  : list (string * (option Benchmark -> grouped -> Z -> result axes)) :=
  [ ("Histogram Total Visited Vertices",
      plot_histogram_total_visited_vertices);
    ("Histogram Total Visited Edges", plot_histogram_total_visited_edges);
    ("Histogram Average Visited Vertices",
      plot_histogram_average_visited_vertices);
    ("Histogram Average Visited Edges",
      plot_histogram_average_visited_edges) ].

Definition get_test_execution_plot_functions
  : list (string
          * (option Benchmark -> Benchmark -> grouped -> result axes)) :=
  [ ("Average Test Execution Time", plot_average_test_execution_time);
    ("Minimum Test Execution Time", plot_minimum_test_execution_time);
    ("Maximum Test Execution Time", plot_maximum_test_execution_time) ].

Definition save_plot_bytesio (current : axes) : image :=
  {| figure := current; format := "png"; dpi := 300 |}.

(** *** [create_plots]

    [plt.close()] drops the previous figure and every chart function
    starts from [plt.subplots()]; [plt.show()] displays the current figure
    and leaves it as it is. *)

(** "General bar plots" *)
Fixpoint general_plots (cls : option Benchmark)
  (grouped_generators : grouped)
  (functions : list (string * (option Benchmark -> grouped -> result axes)))
  (plots : plot_dict) : result plot_dict :=
  match functions with
  | [] => Ok plots
  | (plot_function_name, plot_function) :: rest =>
      let! current := plot_function cls grouped_generators in
      general_plots cls grouped_generators rest
        (dict_set plot_function_name (save_plot_bytesio current) plots)
  end.

(** "Test execution bar plots" *)
Fixpoint test_execution_plots (cls : option Benchmark)
  (benchmark : Benchmark) (grouped_generators : grouped)
  (functions :
     list (string
           * (option Benchmark -> Benchmark -> grouped -> result axes)))
  (plots : plot_dict) : result plot_dict :=
  match functions with
  | [] => Ok plots
  | (plot_function_name, plot_function) :: rest =>
      let! current := plot_function cls benchmark grouped_generators in
      test_execution_plots cls benchmark grouped_generators rest
        (dict_set plot_function_name (save_plot_bytesio current) plots)
  end.

(** "Prepare coverage values", before the sort. *)
Definition collect_coverage_values (grouped_generators : grouped) : list Z :=
  fold_left
    (fun coverage_values '(_, generators) =>
       fold_left
         (fun coverage_values generator =>
            if negb (existsb (Z.eqb (stop_coverage generator))
                       coverage_values)
            then coverage_values ++ [stop_coverage generator]
            else coverage_values)
         generators coverage_values)
    grouped_generators [].

(** [f'{plot_function_name} - {coverage_value}%'] *)
Definition per_coverage_key (plot_function_name : string)
  (coverage_value : Z) : string :=
  plot_function_name +:+ " - " +:+ py_str coverage_value +:+ "%".

(** "Per coverage plots": the inner loop, over the coverage values. *)
Fixpoint per_coverage_plots_of (cls : option Benchmark)
  (grouped_generators : grouped) (plot_function_name : string)
  (plot_function : option Benchmark -> grouped -> Z -> result axes)
  (coverage_values : list Z) (plots : plot_dict) : result plot_dict :=
  match coverage_values with
  | [] => Ok plots
  | coverage_value :: rest =>
      let! current := plot_function cls grouped_generators coverage_value in
      per_coverage_plots_of cls grouped_generators plot_function_name
        plot_function rest
        (dict_set (per_coverage_key plot_function_name coverage_value)
           (save_plot_bytesio current) plots)
  end.

(** "Per coverage plots": the outer loop, over the chart functions. *)
Fixpoint per_coverage_plots (cls : option Benchmark)
  (grouped_generators : grouped)
  (functions :
     list (string * (option Benchmark -> grouped -> Z -> result axes)))
  (coverage_values : list Z) (plots : plot_dict) : result plot_dict :=
  match functions with
  | [] => Ok plots
  | (plot_function_name, plot_function) :: rest =>
      let! plots :=
        per_coverage_plots_of cls grouped_generators plot_function_name
          plot_function coverage_values plots in
      per_coverage_plots cls grouped_generators rest coverage_values plots
  end.

Definition create_plots (benchmark : Benchmark)
  (grouped_generators : grouped) (show : bool) : io plot_dict :=
  fun w =>
    (* BenchmarkPlotter.benchmark = benchmark *)
    let w := set_plotter_benchmark benchmark w in
    let cls := plotter_benchmark w in
    (w,
     let plots := [] in
     let! plots :=
       general_plots cls grouped_generators get_plot_functions plots in
     let! plots :=
       if forallb successful_runs (run_groups benchmark)
       then test_execution_plots cls benchmark grouped_generators
              get_test_execution_plot_functions plots
       else Ok plots in
     let coverage_values :=
       list_sort (collect_coverage_values grouped_generators) in
     per_coverage_plots cls grouped_generators
       get_per_coverage_plot_functions coverage_values plots).

(** *** Calling [create_plots]

    The signature is
    [create_plots(benchmark, grouped_generators, show=False)]: the
    interpreter binds the positional arguments of a call before the body
    runs, and a call that leaves a required parameter unbound raises
    [TypeError] there.  The body is embedded for arguments of the
    annotated classes; objects of another class fail inside it at an
    attribute access, which is reported here without tracing how far the
    body got. *)

Inductive argument : Type :=
| ABenchmark (b : Benchmark)
| AGrouped (g : grouped)
| ABool (b : bool).

Definition missing_grouped_generators : exn :=
  TypeError
    ("BenchmarkPlotter.create_plots() missing 1 required positional"
     +:+ " argument: 'grouped_generators'").

Definition call_create_plots (args : list argument) : io plot_dict :=
  match args with
  | [] =>
      io_raise
        (TypeError
           ("BenchmarkPlotter.create_plots() missing 2 required positional"
            +:+ " arguments: 'benchmark' and 'grouped_generators'"))
  | [_] => io_raise missing_grouped_generators
  | [ABenchmark benchmark; AGrouped grouped_generators] =>
      create_plots benchmark grouped_generators false
  | [ABenchmark benchmark; AGrouped grouped_generators; ABool show] =>
      create_plots benchmark grouped_generators show
  | [_; _] | [_; _; _] =>
      io_raise (AttributeError "object has no such attribute")
  | _ =>
      io_raise
        (TypeError
           ("BenchmarkPlotter.create_plots() takes from 2 to 3 positional"
            +:+ " arguments but " +:+ py_str (Z.of_nat (length args))
            +:+ " were given"))
  end.

End BenchmarkPlotter.

(** Inputs on which every chart of [create_plots] can be drawn: at least
    one generator name, at least one bucket under every generator name, no
    bucket with a zero average generation time or with an empty visit
    mapping, a model with vertices and edges, and, when every run group
    succeeded, at least one run group of an algorithm that is among the
    generator names. *)
Definition renderable (benchmark : Benchmark) (grouped_generators : grouped)
  : Prop :=
  grouped_generators <> []
  /\ (forall name gens, In (name, gens) grouped_generators -> gens <> [])
  /\ (forall name gens gen,
        In (name, gens) grouped_generators -> In gen gens ->
        ~ (average_generation_time gen == 0)%Q)
  /\ (forall name gens gen,
        In (name, gens) grouped_generators -> In gen gens ->
        total_vertex_visits_individual gen <> []
        /\ total_edge_visits_individual gen <> []
        /\ average_vertex_visits_individual gen <> []
        /\ average_edge_visits_individual gen <> [])
  /\ vertices (model (report benchmark)) <> 0%Z
  /\ edges (model (report benchmark)) <> 0%Z
  /\ (forallb successful_runs (run_groups benchmark) = true ->
      exists run_group,
        In run_group (run_groups_sorted benchmark)
        /\ In (algorithm run_group) (dict_keys grouped_generators)).

(* ------------------------------------------------------------------ *)
(** ** [utils/benchmark_filter.py] *)

(** Modelled from the spec: [filter_grouped_generators] lives in
    [utils/benchmark_filter.py], which is not among the embedded sources.
    The specification's contract (Grouping/Filter Utility): if the whitelist
    is non-empty, only generator names present in it are retained; if the
    blacklist is non-empty, names present in it are removed from the
    (possibly already whitelisted) result; whitelist first, blacklist
    second; names matching nothing have no effect and raise nothing.  An
    absent list ([None]) filters nothing. *)
Definition apply_whitelist (whitelist : option (list string))
  (grouped_generators : grouped) : grouped :=
  match whitelist with
  | None | Some [] => grouped_generators
  | Some names =>
      List.filter (fun entry => name_in (fst entry) names) grouped_generators
  end.

Definition apply_blacklist (blacklist : option (list string))
  (grouped_generators : grouped) : grouped :=
  match blacklist with
  | None | Some [] => grouped_generators
  | Some names =>
      List.filter (fun entry => negb (name_in (fst entry) names))
        grouped_generators
  end.

Definition filter_grouped_generators (grouped_generators : grouped)
  (whitelist blacklist : option (list string)) : grouped :=
  apply_blacklist blacklist (apply_whitelist whitelist grouped_generators).

(* ------------------------------------------------------------------ *)
(** ** File and terminal operations used by the report factory *)

Definition is_dir (fs : gmap path node) (p : path) : bool :=
  match p with
  | [] => true
  | _ => match fs !! p with
         | Some Dir => true
         | _ => false
         end
  end.

Definition has_nul (component : string) : bool :=
  existsb (Ascii.eqb zero) (list_ascii_of_string component).

(** What is refused before the file system is looked at: a path with an
    embedded NUL byte ([ValueError]) and a component longer than the 255
    bytes of [NAME_MAX] ([OSError], [ENAMETOOLONG] = 36). *)
Definition refused (p : path) : option exn :=
  if existsb has_nul p then Some (ValueError "embedded null byte")
  else if existsb (fun component => (255 <? String.length component)%nat) p
       then Some (OSError 36 p)
       else None.

(** [with open(p, 'w') as f: f.write(content)] (also mode ['wb']). *)
Definition write_file (p : path) (content : string) : io unit :=
  fun w =>
    match refused p with
    | Some e => (w, Raise e)
    | None =>
        let fs := files w in
        let parent := removelast p in
        if is_dir fs parent then
          match fs !! p with
          | Some Dir => (w, Raise (IsADirectoryError p))
          | _ => (set_files (<[p := File content]> fs) w, Ok tt)
          end
        else
          match fs !! parent with
          | Some (File _) => (w, Raise (NotADirectoryError p))
          | _ => (w, Raise (FileNotFoundError p))
          end
    end.

(** The directories from [done] down to [done ++ todo], created where
    missing: the [parents=True] part of [Path.mkdir]. *)
Fixpoint make_parents (target done : path) (todo : list string)
  (fs : gmap path node) : result (gmap path node) :=
  match todo with
  | [] => Ok fs
  | component :: rest =>
      let here := done ++ [component] in
      match fs !! here with
      | Some Dir => make_parents target here rest fs
      | Some (File _) => Raise (NotADirectoryError target)
      | None => make_parents target here rest (<[here := Dir]> fs)
      end
  end.

(** [p.mkdir(parents=True, exist_ok=exist_ok)] for a path the operating
    system accepts. *)
Definition make_directory (p : path) (exist_ok : bool) : io unit :=
  fun w =>
    match make_parents p [] (removelast p) (files w) with
    | Raise e => (w, Raise e)
    | Ok fs =>
        match p with
        | [] => if exist_ok then (w, Ok tt) else (w, Raise (FileExistsError p))
        | _ =>
            match fs !! p with
            | None => (set_files (<[p := Dir]> fs) w, Ok tt)
            | Some Dir =>
                if exist_ok then (set_files fs w, Ok tt)
                else (w, Raise (FileExistsError p))
            | Some (File _) => (w, Raise (FileExistsError p))
            end
        end
    end.

(** [p.mkdir(parents=True, exist_ok=exist_ok)] *)
Definition mkdir (p : path) (exist_ok : bool) : io unit :=
  fun w =>
    match refused p with
    | Some e => (w, Raise e)
    | None => make_directory p exist_ok w
    end.

Fixpoint is_prefix (p q : path) : bool :=
  match p, q with
  | [], _ => true
  | a :: p', b :: q' => String.eqb a b && is_prefix p' q'
  | _ :: _, [] => false
  end.

(** [shutil.rmtree(p)] *)
Definition rmtree (p : path) : io unit :=
  fun w =>
    match files w !! p with
    | Some Dir =>
        (set_files
           (base.filter (fun entry => is_prefix p (fst entry) = false)
              (files w)) w,
         Ok tt)
    | Some (File _) => (w, Raise (NotADirectoryError p))
    | None => (w, Raise (FileNotFoundError p))
    end.

(** [print(line)] *)
Definition print (line : string) : io unit :=
  fun w =>
    ({| plotter_benchmark := plotter_benchmark w; files := files w;
        stdout := stdout w ++ [line]; stdin := stdin w |}, Ok tt).

(** [input()] *)
Definition input : io string :=
  fun w =>
    match stdin w with
    | [] => (w, Raise EOFError)
    | line :: rest =>
        ({| plotter_benchmark := plotter_benchmark w; files := files w;
            stdout := stdout w; stdin := rest |}, Ok line)
    end.

(** [str(p)] for a path. *)
Definition path_str (p : path) : string :=
  fold_left (fun acc component => acc +:+ "/" +:+ component) p EmptyString.

(* ------------------------------------------------------------------ *)
(** ** [report/report_factory.py] *)

Module ReportFactory.

Record t : Type := { report_type : string }.

(** [ValueError(f'Unknown report type "{self.report_type}"')] *)
Definition unknown_report_type (self : t) : exn :=
  ValueError
    ("Unknown report type " +:+ dquote +:+ report_type self +:+ dquote).

Section Collaborators.
(** What the factory calls without defining it. *)
Variable statistics : Type.
(** [BenchmarkStatistics.create_statistics] *)
Variable create_statistics : grouped -> statistics.
(** [json.dumps(_, indent=4)] on the report and on the statistics *)
Variable dumps_report : Report -> result string.
Variable dumps_statistics : statistics -> result string.
(** [BytesIO.getvalue()] of a saved figure *)
Variable getvalue : image -> string.
(** chromium printing [file://<temp_dir>/index.html] to PDF *)
Variable page_pdf : gmap path node -> path -> string.
(** the listing [seedir] prints for a directory *)
Variable seedir : gmap path node -> path -> string.

Definition lift {A : Type} (r : result A) : io A := fun w => (w, r).

(** [for name, bytesIO in plots.items(): ... f.write(bytesIO.getvalue())] *)
Fixpoint write_images (images_dir : path)
  (items : BenchmarkPlotter.plot_dict) : io unit :=
  match items with
  | [] => io_ret tt
  | (name, bytesIO) :: rest =>
      do! _ := write_file (path_join images_dir (name +:+ ".png"))
                 (getvalue bytesIO) in
      write_images images_dir rest
  end.

Definition create_raw_report (benchmark : Benchmark) (output : path)
  (whitelist blacklist : option (list string)) : io unit :=
  let grouped_generators :=
    filter_grouped_generators (generators_grouped (report benchmark))
      whitelist blacklist in
  let statistics := create_statistics grouped_generators in
  do! plots :=
    BenchmarkPlotter.call_create_plots
      [BenchmarkPlotter.AGrouped grouped_generators] in
  do! _ := write_file (path_join output "benchmarks.json") EmptyString in
  do! text := lift (dumps_report (report benchmark)) in
  do! _ := write_file (path_join output "benchmarks.json") text in
  do! _ := write_file (path_join output "statistics.json") EmptyString in
  do! text := lift (dumps_statistics statistics) in
  do! _ := write_file (path_join output "statistics.json") text in
  let images_dir := path_join output "images" in
  do! _ := mkdir images_dir true in
  write_images images_dir plots.

(** Everything written to [index.html]. *)
Definition html_document (benchmark_name : string)
  (plot_names : list string) : string :=
  "<html>" +:+ newline
  +:+ "<head>" +:+ newline
  +:+ "<title>GraphWalker Benchmark Report</title>" +:+ newline
  +:+ "</head>" +:+ newline
  +:+ "<body>" +:+ newline
  +:+ "<h1>GraphWalker Benchmark Report: " +:+ benchmark_name
  +:+ "</h1>" +:+ newline
  +:+ "<h2>Statistics</h2>" +:+ newline
  +:+ "<table>" +:+ newline
  +:+ "<tr><th>Statistic</th><th>Value</th></tr>" +:+ newline
  +:+ "</table>" +:+ newline
  +:+ "<h2>Plots</h2>" +:+ newline
  +:+ fold_left
        (fun text name =>
           text +:+ "<img src=" +:+ dquote +:+ "images/" +:+ name
           +:+ ".png" +:+ dquote +:+ " alt=" +:+ dquote +:+ name
           +:+ dquote +:+ ">" +:+ newline)
        plot_names EmptyString
  +:+ "</body>" +:+ newline
  +:+ "</html>" +:+ newline.

Definition create_html_report (self : t) (benchmark : Benchmark)
  (output : path) (whitelist blacklist : option (list string)) : io unit :=
  let grouped_generators :=
    filter_grouped_generators (generators_grouped (report benchmark))
      whitelist blacklist in
  do! plots :=
    BenchmarkPlotter.call_create_plots
      [BenchmarkPlotter.AGrouped grouped_generators] in
  let statistics := create_statistics grouped_generators in
  let html_file := path_join output "index.html" in
  let images_dir := path_join output "images" in
  do! _ := mkdir images_dir true in
  do! _ := write_images images_dir plots in
  write_file html_file (html_document (name benchmark) (dict_keys plots)).

Definition create_pdf_report (self : t) (benchmark : Benchmark)
  (output : path) (whitelist blacklist : option (list string)) : io unit :=
  let temp_dir := path_join output "temp" in
  do! _ := mkdir temp_dir false in
  do! _ := create_html_report self benchmark temp_dir whitelist blacklist in
  do! _ := (fun w =>
              write_file (path_join output "report.pdf")
                (page_pdf (files w) temp_dir) w) in
  do! _ := print ("PDF report created at " +:+ dquote
                  +:+ path_str (path_join output "report.pdf")
                  +:+ dquote) in
  do! _ := print ("Temporary files are located at " +:+ dquote
                  +:+ path_str temp_dir +:+ dquote +:+ ":") in
  do! _ := (fun w => print (seedir (files w) temp_dir) w) in
  do! _ := print "Delete temporary files? (y/n)" in
  do! delete_temp := input in
  if String.eqb (lower delete_temp) "y"
  then rmtree temp_dir
  else print ("Files not deleted. Temporary files are located at "
              +:+ dquote +:+ path_str temp_dir +:+ dquote).

Definition create_report (self : t) (benchmark : Benchmark)
  (output : path) (whitelist blacklist : option (list string)) : io unit :=
  if String.eqb (lower (report_type self)) "html" then
    create_html_report self benchmark output whitelist blacklist
  else if String.eqb (lower (report_type self)) "pdf" then
    create_pdf_report self benchmark output whitelist blacklist
  else if String.eqb (lower (report_type self)) "raw_data" then
    create_raw_report benchmark output whitelist blacklist
  else
    io_raise (unknown_report_type self).
End Collaborators.

End ReportFactory.

(* ------------------------------------------------------------------ *)
(** ** Sample data *)

Module Samples.

(** A generator bucket at stop-coverage [cov] whose runs took [time] on
    average and produced [size] elements on average, visiting vertex
    "v1" and edge "e1" only. *)
Definition bucket (cov : Z) (time size : Q) : BenchmarkGenerator :=
  {| stop_coverage := cov;
     total_generation_time := (2 * time)%Q;
     average_generation_time := time;
     min_generation_time := time;
     max_generation_time := time;
     total_test_suite_size := (2 * size)%Q;
     average_test_suite_size := size;
     min_test_suite_size := size;
     max_test_suite_size := size;
     total_vertex_visits_individual := [("v1", 4%Q); ("v2", 0%Q)];
     total_edge_visits_individual := [("e1", 2%Q); ("e2", 0%Q)];
     average_vertex_visits_individual := [("v1", 2%Q); ("v2", 0%Q)];
     average_edge_visits_individual := [("e1", 1%Q); ("e2", 0%Q)] |}.

(** The specification's scenario: "Random" and "Weighted", each with
    buckets at stop-coverage 50 and 100. *)
Definition two_generators : grouped :=
  [ ("Random", [bucket 50 15 30; bucket 100 20 40]);
    ("Weighted", [bucket 50 10 30; bucket 100 25 40]) ].

Definition run_group (alg : string) (cov : Z) (ok : bool) : RunGroup :=
  {| algorithm := alg; run_stop_coverage := cov;
     average_test_duration := 7; minimum_test_duration := 5;
     maximum_test_duration := 9; successful_runs := ok |}.

Definition benchmark_with (vertex_count edge_count : Z) (ok : bool)
  : Benchmark :=
  {| name := "sample";
     report := {| model := {| vertices := vertex_count;
                              edges := edge_count |};
                  generators_grouped := two_generators |};
     run_groups := [run_group "Random" 50 true; run_group "Weighted" 50 ok];
     run_groups_sorted :=
       [run_group "Random" 50 true; run_group "Weighted" 50 ok] |}.

Definition sample_benchmark : Benchmark := benchmark_with 2 2 true.


(** A bucket like [bucket cov time size] for which no visit was
    recorded: its four visit mappings are empty. *)
Definition bucket_without_visits (cov : Z) (time size : Q)
  : BenchmarkGenerator :=
  {| stop_coverage := cov;
     total_generation_time := (2 * time)%Q;
     average_generation_time := time;
     min_generation_time := time;
     max_generation_time := time;
     total_test_suite_size := (2 * size)%Q;
     average_test_suite_size := size;
     min_test_suite_size := size;
     max_test_suite_size := size;
     total_vertex_visits_individual := [];
     total_edge_visits_individual := [];
     average_vertex_visits_individual := [];
     average_edge_visits_individual := [] |}.

Definition empty_world : world :=
  {| plotter_benchmark := None; files := ∅; stdout := []; stdin := [] |}.

(** Stand-ins for the collaborators of the report factory. *)
Definition dumps_anything {A : Type} (_ : A) : result string := Ok "{}".

Definition no_bytes (_ : image) : string := EmptyString.

Definition no_listing (_ : gmap path node) (_ : path) : string := EmptyString.

(** A stand-in for [json.loads] that knows two documents. *)
Definition parse_literal (s : string) : option json :=
  if String.eqb s "{}" then Some (JObj [])
  else if String.eqb s "[]" then Some (JArr [])
  else None.

(** A run directory holding [path.json] and [report.json] only. *)
Definition run_directory : gmap path node :=
  <[ ["run"; "report.json"] := File "{}" ]>
    (<[ ["run"; "path.json"] := File "[]" ]>
       (<[ ["run"] := Dir ]> ∅)).

End Samples.

(* ================================================================== *)
(** * Part II: properties                                              *)
(* ================================================================== *)

(** ** The result monad *)

Lemma bind_Ok_inv {A B : Type} (c : result A) (k : A -> result B) (b : B) :
  bind c k = Ok b -> exists a, c = Ok a /\ k a = Ok b.
Proof. destruct c as [a | e]; simpl; [eauto | discriminate]. Qed.

Lemma bind_Raise_inv {A B : Type} (c : result A) (k : A -> result B) e :
  bind c k = Raise e -> c = Raise e \/ exists a, c = Ok a /\ k a = Raise e.
Proof. destruct c as [a | e']; simpl; [eauto | intros [= ->]; auto]. Qed.

(** ** The run loader *)

Ltac unfold_loader :=
  unfold BenchmarkRun.from_files, BenchmarkRun.read_text,
    BenchmarkRun.exists_, BenchmarkRun.json_loads.

(** C9.  The run loader reads and parses the path file and the report file
    unconditionally and the test-results file only when it exists:
    - when both required files hold parseable JSON and the test-results file
      does not exist, the run is built with the empty mapping as its
      [test_results] and nothing is raised;
    - a missing path file raises [FileNotFoundError], an unparseable one
      raises the decoder's error; once the path file is loaded the same
      holds for the report file;
    - conversely, whenever a run is returned, both required files existed
      and parsed to the run's [path] and [report]. *)
Theorem from_files_required_and_optional
  (json_parse : string -> option json) (fs : gmap path node)
  (path_file report_file test_results_file : path) :
  let from_files :=
    BenchmarkRun.from_files json_parse fs path_file report_file
      test_results_file in
  (forall sp sr jp jr,
      fs !! path_file = Some (File sp) -> json_parse sp = Some jp ->
      fs !! report_file = Some (File sr) -> json_parse sr = Some jr ->
      fs !! test_results_file = None ->
      from_files =
        Ok {| BenchmarkRun.path := jp; BenchmarkRun.report := jr;
              BenchmarkRun.test_results := JObj [] |})
  /\ (fs !! path_file = None ->
      from_files = Raise (FileNotFoundError path_file))
  /\ (forall sp,
        fs !! path_file = Some (File sp) -> json_parse sp = None ->
        from_files = Raise JSONDecodeError)
  /\ (forall sp jp,
        fs !! path_file = Some (File sp) -> json_parse sp = Some jp ->
        fs !! report_file = None ->
        from_files = Raise (FileNotFoundError report_file))
  /\ (forall sp jp sr,
        fs !! path_file = Some (File sp) -> json_parse sp = Some jp ->
        fs !! report_file = Some (File sr) -> json_parse sr = None ->
        from_files = Raise JSONDecodeError)
  /\ (forall run,
        from_files = Ok run ->
        exists sp sr,
          fs !! path_file = Some (File sp)
          /\ json_parse sp = Some (BenchmarkRun.path run)
          /\ fs !! report_file = Some (File sr)
          /\ json_parse sr = Some (BenchmarkRun.report run)).
Proof.
  cbv zeta. repeat split.
  - intros sp sr jp jr Hp Hjp Hr Hjr Ht. unfold_loader.
    rewrite Hp; simpl; rewrite Hjp; simpl.
    rewrite Hr; simpl; rewrite Hjr; simpl.
    rewrite Ht; reflexivity.
  - intros Hp. unfold_loader. rewrite Hp; reflexivity.
  - intros sp Hp Hjp. unfold_loader.
    rewrite Hp; simpl; rewrite Hjp; reflexivity.
  - intros sp jp Hp Hjp Hr. unfold_loader.
    rewrite Hp; simpl; rewrite Hjp; simpl. rewrite Hr; reflexivity.
  - intros sp jp sr Hp Hjp Hr Hjr. unfold_loader.
    rewrite Hp; simpl; rewrite Hjp; simpl.
    rewrite Hr; simpl; rewrite Hjr; reflexivity.
  - intros run. unfold_loader.
    destruct (fs !! path_file) as [[sp |] |]; simpl; try discriminate.
    destruct (json_parse sp) as [jp |] eqn:Hjp; simpl; try discriminate.
    destruct (fs !! report_file) as [[sr |] |]; simpl; try discriminate.
    destruct (json_parse sr) as [jr |] eqn:Hjr; simpl; try discriminate.
    intros H. exists sp, sr.
    destruct (fs !! test_results_file) as [[st |] |]; simpl in H;
      try discriminate;
      try (destruct (json_parse st); simpl in H; try discriminate);
      injection H as <-; simpl; auto.
Qed.

(** The sample run directory has no [test_results.json]: the loader
    returns a run whose test results are the empty mapping. *)
Lemma from_files_required_and_optional_witness :
  BenchmarkRun.from_files Samples.parse_literal Samples.run_directory
    ["run"; "path.json"] ["run"; "report.json"] ["run"; "test_results.json"]
  = Ok {| BenchmarkRun.path := JArr []; BenchmarkRun.report := JObj [];
          BenchmarkRun.test_results := JObj [] |}.
Proof.
  apply (proj1 (from_files_required_and_optional Samples.parse_literal
                  Samples.run_directory ["run"; "path.json"]
                  ["run"; "report.json"] ["run"; "test_results.json"])
           "[]" "{}" (JArr []) (JObj []));
    vm_compute; reflexivity.
Defined.

(** ** The generator filter *)

Lemma name_in_In (x : string) (l : list string) :
  name_in x l = true <-> In x l.
Proof.
  unfold name_in. rewrite existsb_exists. split.
  - intros (y & Hy & E). apply String.eqb_eq in E. now subst.
  - intros H. exists x. split; [assumption | apply String.eqb_refl].
Qed.

Lemma name_in_false (x : string) (l : list string) :
  name_in x l = false <-> ~ In x l.
Proof.
  rewrite <- name_in_In. destruct (name_in x l); intuition congruence.
Qed.

Lemma filter_all {A : Type} (f : A -> bool) (l : list A) :
  (forall x, In x l -> f x = true) -> List.filter f l = l.
Proof.
  induction l as [| a l IH]; simpl; intros H; [reflexivity |].
  rewrite (H a) by auto. f_equal. apply IH. auto.
Qed.

Lemma filter_twice {A : Type} (f h : A -> bool) (l : list A) :
  List.filter f (List.filter h l) = List.filter (fun x => h x && f x) l.
Proof.
  induction l as [| a l IH]; simpl; [reflexivity |].
  destruct (h a); simpl; [destruct (f a) |]; now rewrite IH.
Qed.

Lemma apply_whitelist_filter (names : list string) (g : grouped) :
  names <> [] ->
  apply_whitelist (Some names) g
  = List.filter (fun entry => name_in (fst entry) names) g.
Proof. destruct names; [congruence | reflexivity]. Qed.

Lemma apply_blacklist_filter (blacklist : option (list string)) (g : grouped) :
  apply_blacklist blacklist g
  = List.filter (fun entry => negb (name_in (fst entry) (default [] blacklist)))
      g.
Proof.
  destruct blacklist as [[| b names] |]; simpl; try reflexivity;
    symmetry; apply filter_all; reflexivity.
Qed.

Lemma In_dict_keys {V : Type} (k : string) (v : V) (d : list (string * V)) :
  In (k, v) d -> In k (dict_keys d).
Proof. intros H. apply (in_map fst) in H. exact H. Qed.

(** C7.  For the filter as the specification describes it: an entry
    survives exactly when it is in the mapping, its name is in the whitelist
    (if that is non-empty) and not in the blacklist; whitelist {A, B} with
    blacklist {B} leaves exactly the mapping restricted to A; an empty
    whitelist with blacklist {X} removes exactly X; and a name that is no
    key of the mapping can be added to a non-empty whitelist, or to any
    blacklist, without changing the result. *)
Theorem filter_whitelist_then_blacklist (g : grouped) :
  (forall whitelist blacklist entry,
      In entry (filter_grouped_generators g whitelist blacklist) <->
      In entry g
      /\ (default [] whitelist <> [] -> In (fst entry) (default [] whitelist))
      /\ ~ In (fst entry) (default [] blacklist))
  /\ (forall A B,
        A <> B ->
        filter_grouped_generators g (Some [A; B]) (Some [B])
        = List.filter (fun entry => String.eqb (fst entry) A) g)
  /\ (forall X,
        filter_grouped_generators g (Some []) (Some [X])
        = List.filter (fun entry => negb (String.eqb (fst entry) X)) g)
  /\ (forall u names1 names2 blacklist,
        ~ In u (dict_keys g) -> names1 ++ names2 <> [] ->
        filter_grouped_generators g (Some (names1 ++ u :: names2)) blacklist
        = filter_grouped_generators g (Some (names1 ++ names2)) blacklist)
  /\ (forall u whitelist names1 names2,
        ~ In u (dict_keys g) ->
        filter_grouped_generators g whitelist (Some (names1 ++ u :: names2))
        = filter_grouped_generators g whitelist (Some (names1 ++ names2))).
Proof.
  split; [| split; [| split; [| split]]].
  - intros whitelist blacklist entry. unfold filter_grouped_generators.
    rewrite apply_blacklist_filter, filter_In, negb_true_iff, name_in_false.
    destruct whitelist as [[| w names] |]; simpl;
      try (intuition congruence).
    rewrite filter_In. rewrite (name_in_In (fst entry) (w :: names)). simpl.
    intuition congruence.
  - intros A B HAB. unfold filter_grouped_generators.
    rewrite apply_blacklist_filter, apply_whitelist_filter by discriminate.
    rewrite filter_twice. apply filter_ext. intros [k v]; simpl.
    destruct (String.eqb_spec k A) as [-> | HkA]; simpl.
    + destruct (String.eqb_spec A B); [contradiction | reflexivity].
    + destruct (String.eqb_spec k B); reflexivity.
  - intros X. unfold filter_grouped_generators.
    rewrite apply_blacklist_filter. simpl.
    apply filter_ext. intros [k v]; simpl. now rewrite orb_false_r.
  - intros u names1 names2 blacklist Hu Hne.
    unfold filter_grouped_generators. f_equal.
    rewrite !apply_whitelist_filter;
      [| assumption | destruct names1; discriminate].
    apply filter_ext_in. intros [k v] Hin; simpl.
    apply In_dict_keys in Hin.
    apply eq_true_iff_eq. rewrite !name_in_In, !in_app_iff. simpl.
    intuition congruence.
  - intros u whitelist names1 names2 Hu.
    unfold filter_grouped_generators. rewrite !apply_blacklist_filter.
    apply filter_ext_in. intros [k v] Hin; simpl.
    assert (Hk : In k (dict_keys g)).
    { destruct whitelist as [[| w names] |]; simpl in Hin;
        try apply filter_In in Hin; try destruct Hin as [Hin _];
        now apply In_dict_keys in Hin. }
    f_equal. apply eq_true_iff_eq. rewrite !name_in_In, !in_app_iff. simpl.
    intuition congruence.
Qed.

(** On the two sample generators, whitelist {Random, Weighted} with
    blacklist {Weighted} keeps the "Random" entry with both buckets. *)
Lemma filter_whitelist_then_blacklist_witness :
  filter_grouped_generators Samples.two_generators
    (Some ["Random"; "Weighted"]) (Some ["Weighted"])
  = [("Random", [Samples.bucket 50 15 30; Samples.bucket 100 20 40])].
Proof.
  rewrite (proj1 (proj2 (filter_whitelist_then_blacklist
                           Samples.two_generators))
             "Random" "Weighted");
    [reflexivity | discriminate].
Defined.

(** ** The report factory *)

Section Factory.
Variable statistics : Type.
Variable create_statistics : grouped -> statistics.
Variable dumps_report : Report -> result string.
Variable dumps_statistics : statistics -> result string.
Variable getvalue : image -> string.
Variable page_pdf : gmap path node -> path -> string.
Variable seedir : gmap path node -> path -> string.

Local Abbreviation create_report :=
  (ReportFactory.create_report statistics create_statistics dumps_report
    dumps_statistics getvalue page_pdf seedir).
Local Abbreviation create_html_report :=
  (ReportFactory.create_html_report statistics create_statistics getvalue).
Local Abbreviation create_pdf_report :=
  (ReportFactory.create_pdf_report statistics create_statistics getvalue
    page_pdf seedir).
Local Abbreviation create_raw_report :=
  (ReportFactory.create_raw_report statistics create_statistics dumps_report
    dumps_statistics getvalue).

(** A call that passes one positional argument stops at the binding of
    the parameters. *)
Lemma call_create_plots_one_argument (a : BenchmarkPlotter.argument)
  (w : world) :
  BenchmarkPlotter.call_create_plots [a] w
  = (w, Raise BenchmarkPlotter.missing_grouped_generators).
Proof. destruct a; reflexivity. Qed.

Lemma raw_report_outcome benchmark output whitelist blacklist w :
  create_raw_report benchmark output whitelist blacklist w
  = (w, Raise BenchmarkPlotter.missing_grouped_generators).
Proof. reflexivity. Qed.

Lemma html_report_outcome self benchmark output whitelist blacklist w :
  create_html_report self benchmark output whitelist blacklist w
  = (w, Raise BenchmarkPlotter.missing_grouped_generators).
Proof. reflexivity. Qed.

Lemma make_parents_raises target done todo fs e :
  make_parents target done todo fs = Raise e ->
  e = NotADirectoryError target.
Proof.
  revert done fs. induction todo as [| c todo IH]; simpl; intros done fs H.
  - discriminate.
  - destruct (fs !! (done ++ [c])) as [[content |] |]; eauto.
    now injection H as <-.
Qed.

Lemma refused_cases p e :
  refused p = Some e ->
  e = ValueError "embedded null byte" \/ e = OSError 36 p.
Proof.
  unfold refused. destruct (existsb has_nul p); [intros [= <-]; auto |].
  destruct (existsb _ p); [intros [= <-]; auto | discriminate].
Qed.

Lemma make_directory_raises p exist_ok w w' e :
  make_directory p exist_ok w = (w', Raise e) ->
  e = NotADirectoryError p \/ e = FileExistsError p.
Proof.
  unfold make_directory.
  destruct (make_parents p [] (removelast p) (files w)) as [fs | e'] eqn:E.
  - destruct p as [| c p'].
    + destruct exist_ok; intros [= _ <-]; auto.
    + destruct (fs !! (c :: p')) as [[content |] |];
        try destruct exist_ok; intros [=]; subst; auto.
  - intros [= _ <-]. left. eapply make_parents_raises; eauto.
Qed.

Lemma mkdir_raises p exist_ok w w' e :
  mkdir p exist_ok w = (w', Raise e) ->
  e = ValueError "embedded null byte" \/ e = OSError 36 p
  \/ e = NotADirectoryError p \/ e = FileExistsError p.
Proof.
  unfold mkdir. destruct (refused p) as [e' |] eqn:R.
  - intros [= _ <-]. apply refused_cases in R. tauto.
  - intros H. apply make_directory_raises in H. tauto.
Qed.

Lemma pdf_report_outcome self benchmark output whitelist blacklist w :
  exists e,
    snd (create_pdf_report self benchmark output whitelist blacklist w)
    = Raise e
    /\ e <> ReportFactory.unknown_report_type self.
Proof.
  unfold ReportFactory.create_pdf_report.
  unfold io_bind at 1.
  destruct (mkdir (path_join output "temp") false w) as [w' [[] | e]] eqn:E.
  - unfold io_bind at 1.
    rewrite html_report_outcome. simpl. eexists; split; [reflexivity |].
    discriminate.
  - simpl. exists e. split; [reflexivity |].
    apply mkdir_raises in E.
    destruct E as [-> | [-> | [-> | ->]]]; discriminate.
Qed.

(** C1 (as the code behaves).  Creating a report in raw_data mode never
    completes: for every benchmark, output directory, filter lists and
    starting world, [create_raw_report] raises the [TypeError] of the
    one-argument call to [create_plots] and leaves the world, hence the
    output directory, exactly as it found it. *)
Theorem create_raw_report_raises_type_error
  (benchmark : Benchmark) (output : path)
  (whitelist blacklist : option (list string)) (w : world) :
  create_raw_report benchmark output whitelist blacklist w
  = (w, Raise BenchmarkPlotter.missing_grouped_generators)
  /\ files (fst (create_raw_report benchmark output whitelist blacklist w))
       !! path_join output "benchmarks.json"
     = files w !! path_join output "benchmarks.json".
Proof. split; reflexivity. Qed.

(** C3.  When the lower-cased report type is none of "html", "pdf" and
    "raw_data", [create_report] raises [ValueError] with the message naming
    the type, and the world it returns is the world it was given: no file,
    directory or terminal operation has taken place. *)
Theorem create_report_unknown_type_raises
  (self : ReportFactory.t) (benchmark : Benchmark) (output : path)
  (whitelist blacklist : option (list string)) (w : world) :
  lower (ReportFactory.report_type self) <> "html" ->
  lower (ReportFactory.report_type self) <> "pdf" ->
  lower (ReportFactory.report_type self) <> "raw_data" ->
  create_report self benchmark output whitelist blacklist w
  = (w, Raise (ReportFactory.unknown_report_type self)).
Proof.
  intros Hhtml Hpdf Hraw. unfold ReportFactory.create_report.
  apply String.eqb_neq in Hhtml, Hpdf, Hraw.
  rewrite Hhtml, Hpdf, Hraw. reflexivity.
Qed.

(** C10.  Matching is on the lower-cased report type: a type whose lower
    case is "html", "pdf" or "raw_data" runs the HTML, PDF or raw-data
    report respectively, and [create_report] ends in its own [ValueError],
    the one naming the unknown report type, exactly when the lower-cased
    type is none of the three. *)
Theorem create_report_case_insensitive
  (self : ReportFactory.t) (benchmark : Benchmark) (output : path)
  (whitelist blacklist : option (list string)) :
  (lower (ReportFactory.report_type self) = "html" ->
   create_report self benchmark output whitelist blacklist
   = create_html_report self benchmark output whitelist blacklist)
  /\ (lower (ReportFactory.report_type self) = "pdf" ->
      create_report self benchmark output whitelist blacklist
      = create_pdf_report self benchmark output whitelist blacklist)
  /\ (lower (ReportFactory.report_type self) = "raw_data" ->
      create_report self benchmark output whitelist blacklist
      = create_raw_report benchmark output whitelist blacklist)
  /\ (forall w,
        snd (create_report self benchmark output whitelist blacklist w)
        = Raise (ReportFactory.unknown_report_type self)
        <-> lower (ReportFactory.report_type self) <> "html"
            /\ lower (ReportFactory.report_type self) <> "pdf"
            /\ lower (ReportFactory.report_type self) <> "raw_data").
Proof.
  split; [| split; [| split]].
  - intros H. unfold ReportFactory.create_report. now rewrite H.
  - intros H. unfold ReportFactory.create_report. now rewrite H.
  - intros H. unfold ReportFactory.create_report. now rewrite H.
  - intros w. unfold ReportFactory.create_report.
    destruct (String.eqb_spec (lower (ReportFactory.report_type self)) "html")
      as [Hhtml | Hhtml].
    { rewrite html_report_outcome. simpl. split.
      - discriminate.
      - tauto. }
    destruct (String.eqb_spec (lower (ReportFactory.report_type self)) "pdf")
      as [Hpdf | Hpdf].
    { destruct (pdf_report_outcome self benchmark output whitelist blacklist w)
        as (e & -> & He).
      split.
      - intros [= ->]. contradiction.
      - tauto. }
    destruct (String.eqb_spec (lower (ReportFactory.report_type self))
                "raw_data") as [Hraw | Hraw].
    { rewrite raw_report_outcome. simpl. split.
      - discriminate.
      - tauto. }
    split; [tauto |]. intros _. reflexivity.
Qed.

End Factory.

(** The specification's scenario: report type "xml" fails before anything
    is written. *)
Lemma create_report_unknown_type_raises_witness :
  ReportFactory.create_report unit (fun _ => tt) Samples.dumps_anything
    Samples.dumps_anything Samples.no_bytes Samples.no_listing
    Samples.no_listing {| ReportFactory.report_type := "xml" |}
    Samples.sample_benchmark ["output"] None None Samples.empty_world
  = (Samples.empty_world,
     Raise (ReportFactory.unknown_report_type
              {| ReportFactory.report_type := "xml" |})).
Proof.
  apply create_report_unknown_type_raises; simpl; discriminate.
Defined.

(** "HTML" runs the HTML report and "Pdf" the PDF report. *)
Lemma create_report_case_insensitive_witness :
  ReportFactory.create_report unit (fun _ => tt) Samples.dumps_anything
    Samples.dumps_anything Samples.no_bytes Samples.no_listing
    Samples.no_listing {| ReportFactory.report_type := "HTML" |}
    Samples.sample_benchmark ["output"] None None
  = ReportFactory.create_html_report unit (fun _ => tt) Samples.no_bytes
      {| ReportFactory.report_type := "HTML" |}
      Samples.sample_benchmark ["output"] None None
  /\ ReportFactory.create_report unit (fun _ => tt) Samples.dumps_anything
       Samples.dumps_anything Samples.no_bytes Samples.no_listing
       Samples.no_listing {| ReportFactory.report_type := "Pdf" |}
       Samples.sample_benchmark ["output"] None None
     = ReportFactory.create_pdf_report unit (fun _ => tt) Samples.no_bytes
         Samples.no_listing Samples.no_listing
         {| ReportFactory.report_type := "Pdf" |}
         Samples.sample_benchmark ["output"] None None.
Proof.
  split.
  - apply (proj1 (create_report_case_insensitive unit (fun _ => tt)
                    Samples.dumps_anything Samples.dumps_anything
                    Samples.no_bytes Samples.no_listing Samples.no_listing
                    {| ReportFactory.report_type := "HTML" |}
                    Samples.sample_benchmark ["output"] None None)).
    reflexivity.
  - apply (proj1 (proj2 (create_report_case_insensitive unit (fun _ => tt)
                    Samples.dumps_anything Samples.dumps_anything
                    Samples.no_bytes Samples.no_listing Samples.no_listing
                    {| ReportFactory.report_type := "Pdf" |}
                    Samples.sample_benchmark ["output"] None None))).
    reflexivity.
Defined.

(** ** Comprehensions *)

Lemma comprehension_Ok {A B : Type} (f : A -> result B) (l : list A) ys :
  comprehension f l = Ok ys -> Forall2 (fun x y => f x = Ok y) l ys.
Proof.
  revert ys. induction l as [| x l IH]; simpl; intros ys H.
  - injection H as <-. constructor.
  - apply bind_Ok_inv in H as (y & Hy & H).
    apply bind_Ok_inv in H as (ys' & Hys & H).
    injection H as <-. constructor; auto.
Qed.

Lemma comprehension_Raise {A B : Type} (f : A -> result B) (l : list A) e :
  comprehension f l = Raise e -> exists x, In x l /\ f x = Raise e.
Proof.
  induction l as [| x l IH]; simpl; intros H; [discriminate |].
  apply bind_Raise_inv in H as [H | (y & Hy & H)]; [eauto |].
  apply bind_Raise_inv in H as [H | (ys & Hys & H)]; [| discriminate].
  destruct (IH H) as (x' & Hin & Hx'). eauto.
Qed.

Lemma comprehension_total {A B : Type} (f : A -> result B) (l : list A) :
  (forall x, In x l -> exists y, f x = Ok y) ->
  exists ys, comprehension f l = Ok ys.
Proof.
  induction l as [| x l IH]; simpl; intros H; [eauto |].
  destruct (H x) as (y & ->); [auto |].
  destruct IH as (ys & ->); [auto |]. simpl. eauto.
Qed.

Lemma comprehension_map {A B : Type} (f : A -> result B) (h : A -> B) l :
  (forall x, In x l -> f x = Ok (h x)) -> comprehension f l = Ok (map h l).
Proof.
  induction l as [| x l IH]; simpl; intros H; [reflexivity |].
  rewrite H by auto. simpl. rewrite IH by auto. reflexivity.
Qed.

Lemma py_truediv_Raise a b e :
  py_truediv a b = Raise e -> e = ZeroDivisionError /\ (b == 0)%Q.
Proof.
  unfold py_truediv. destruct (Qeq_bool b 0) eqn:E; [| discriminate].
  intros [= <-]. split; [reflexivity | now apply Qeq_bool_iff].
Qed.

Lemma py_truediv_nonzero a b :
  ~ (b == 0)%Q -> py_truediv a b = Ok (a / b)%Q.
Proof.
  intros H. unfold py_truediv. destruct (Qeq_bool b 0) eqn:E; [| reflexivity].
  apply Qeq_bool_iff in E. contradiction.
Qed.

Lemma py_truediv_zero a b :
  (b == 0)%Q -> py_truediv a b = Raise ZeroDivisionError.
Proof.
  intros H. unfold py_truediv. apply Qeq_bool_iff in H. now rewrite H.
Qed.

Lemma group_count_nonzero {V : Type} (g : list (string * V)) :
  g <> [] -> ~ (inject_Z (Z.of_nat (length g)) == 0)%Q.
Proof.
  intros Hg H. destruct g as [| x g]; [congruence |].
  unfold Qeq in H. simpl in H. lia.
Qed.

(** ** Bar charts *)

Lemma bar_heights_draw a ax :
  bar_heights (draw a ax)
  = bar_heights ax ++ match a with Bar _ h _ _ => [h] | _ => [] end.
Proof.
  unfold bar_heights, draw. simpl. rewrite flat_map_app. simpl.
  now rewrite app_nil_r.
Qed.

Lemma trend_fits_draw a ax :
  trend_fits (draw a ax)
  = trend_fits ax ++ match a with TrendLine x y d => [(x, y, d)] | _ => [] end.
Proof.
  unfold trend_fits, draw. simpl. rewrite flat_map_app. simpl.
  now rewrite app_nil_r.
Qed.

Lemma plot_trend_line_Ok x y deg ax ax1 :
  plot_trend_line x y deg ax = Ok ax1 ->
  x <> [] /\ ax1 = draw (TrendLine x y deg) ax.
Proof.
  destruct x; simpl; [discriminate |]. intros [= <-]. now split.
Qed.

Lemma plot_trend_line_nonempty x y deg ax :
  x <> [] -> plot_trend_line x y deg ax = Ok (draw (TrendLine x y deg) ax).
Proof. destruct x; [congruence | reflexivity]. Qed.

Lemma bar_positions_nil bar_width i gens :
  bar_positions bar_width i gens = [] <-> gens = [].
Proof. destruct gens; simpl; split; congruence. Qed.

Section BarLoop.
Variable value_lambda : BenchmarkGenerator -> result Q.
Variable add_trend_line : bool.
Variable bar_width : Q.

Local Abbreviation loop :=
  (BenchmarkPlotter._plot_bars_loop value_lambda add_trend_line bar_width).

Lemma plot_bars_loop_step i name gens (rest : grouped) ax ax' :
  loop i ((name, gens) :: rest) ax = Ok ax' ->
  exists ys,
    comprehension value_lambda gens = Ok ys
    /\ (add_trend_line = true -> gens <> [])
    /\ loop (S i) rest
         (if add_trend_line
          then draw (TrendLine (bar_positions bar_width i gens) ys 3)
                 (draw (Bar (bar_positions bar_width i gens) ys name
                          bar_width) ax)
          else draw (Bar (bar_positions bar_width i gens) ys name bar_width)
                 ax)
       = Ok ax'.
Proof.
  simpl. intros H. apply bind_Ok_inv in H as (ys & Hys & H).
  apply bind_Ok_inv in H as (ax1 & H1 & H).
  exists ys. split; [exact Hys |]. destruct add_trend_line.
  - apply plot_trend_line_Ok in H1 as [Hne ->]. split; [| exact H].
    intros _ ->. now apply Hne.
  - injection H1 as <-. split; [discriminate | exact H].
Qed.

Lemma plot_bars_loop_Ok i (groups : grouped) ax ax' :
  loop i groups ax = Ok ax' ->
  exists hs fits,
    bar_heights ax' = bar_heights ax ++ hs
    /\ trend_fits ax' = trend_fits ax ++ fits
    /\ Forall2 (fun group ys => comprehension value_lambda (snd group) = Ok ys)
         groups hs
    /\ (add_trend_line = true ->
        length fits = length groups
        /\ forall j name gens,
            nth_error groups j = Some (name, gens) ->
            exists ys,
              nth_error hs j = Some ys
              /\ nth_error fits j
                 = Some (bar_positions bar_width (i + j) gens, ys, 3%nat)).
Proof.
  revert i ax. induction groups as [| [name gens] rest IH]; intros i ax H.
  - simpl in H. injection H as <-. exists [], [].
    rewrite !app_nil_r. repeat split; [constructor |].
    intros [| j] ? ? [=].
  - apply plot_bars_loop_step in H as (ys & Hys & _ & H).
    apply IH in H as (hs & fits & Hh & Hf & Hall & Hnth).
    destruct add_trend_line.
    + rewrite !bar_heights_draw in Hh. rewrite !trend_fits_draw in Hf.
      simpl in Hh, Hf. rewrite app_nil_r in Hh, Hf.
      rewrite <- app_assoc in Hh, Hf.
      destruct (Hnth eq_refl) as [Hlen Hnth'].
      eexists _, _. split; [exact Hh |]. split; [exact Hf |].
      split; [constructor; assumption |].
      intros _. split; [simpl; now rewrite Hlen |].
      intros [| j] name' gens' Hj; simpl in Hj.
      * injection Hj as <- <-. exists ys. rewrite Nat.add_0_r. auto.
      * destruct (Hnth' j name' gens' Hj) as (ys' & H1 & H2).
        exists ys'. simpl. rewrite H1, H2.
        replace (i + S j)%nat with (S i + j)%nat by lia. auto.
    + rewrite !bar_heights_draw in Hh. rewrite !trend_fits_draw in Hf.
      simpl in Hh, Hf. rewrite app_nil_r in Hf. rewrite <- app_assoc in Hh.
      eexists _, _. split; [exact Hh |]. split; [exact Hf |].
      split; [constructor; assumption | discriminate].
Qed.

Lemma plot_bars_loop_Raise i (groups : grouped) ax e :
  loop i groups ax = Raise e ->
  (exists name gens gen,
      In (name, gens) groups /\ In gen gens /\ value_lambda gen = Raise e)
  \/ (add_trend_line = true
      /\ (exists name, In (name, []) groups)
      /\ e = TypeError "expected non-empty vector for x").
Proof.
  revert i ax. induction groups as [| [name gens] rest IH]; intros i ax H.
  - discriminate.
  - simpl in H. apply bind_Raise_inv in H as [H | (ys & Hys & H)].
    + apply comprehension_Raise in H as (gen & Hin & Hgen).
      left. exists name, gens, gen. simpl; auto.
    + apply bind_Raise_inv in H as [H | (ax1 & _ & H)].
      * right. destruct add_trend_line; [| discriminate].
        destruct gens as [| gen gens]; [| discriminate].
        simpl in H. injection H as <-.
        split; [reflexivity |]. split; [| reflexivity].
        exists name. simpl; auto.
      * apply IH in H
          as [(name' & gens' & gen & H1 & H2 & H3) | (Ht & (n & Hn) & He)].
        -- left. exists name', gens', gen. simpl; auto.
        -- right. split; [exact Ht |]. split; [| exact He].
           exists n. simpl; auto.
Qed.

Lemma plot_bars_loop_total i (groups : grouped) ax :
  (forall name gens, In (name, gens) groups -> gens <> []) ->
  (forall name gens gen,
      In (name, gens) groups -> In gen gens ->
      exists v, value_lambda gen = Ok v) ->
  exists ax', loop i groups ax = Ok ax'.
Proof.
  revert i ax. induction groups as [| [name gens] rest IH];
    intros i ax Hne H.
  - simpl. eauto.
  - simpl. destruct (comprehension_total value_lambda gens) as (ys & ->).
    { intros gen Hgen. apply (H name gens gen); simpl; auto. }
    simpl.
    assert (Hgens : gens <> []) by (apply (Hne name); simpl; auto).
    assert (Htrend :
              exists ax1,
                (if add_trend_line
                 then plot_trend_line
                        (map (fun generator =>
                                (inject_Z (stop_coverage generator)
                                 + inject_Z (Z.of_nat i) * bar_width)%Q) gens)
                        ys 3
                        (draw (Bar
                                 (map (fun generator =>
                                         (inject_Z (stop_coverage generator)
                                          + inject_Z (Z.of_nat i)
                                            * bar_width)%Q) gens)
                                 ys name bar_width) ax)
                 else Ok (draw (Bar
                                  (map (fun generator =>
                                          (inject_Z (stop_coverage generator)
                                           + inject_Z (Z.of_nat i)
                                             * bar_width)%Q) gens)
                                  ys name bar_width) ax))
                = Ok ax1).
    { destruct add_trend_line; [| eauto].
      rewrite plot_trend_line_nonempty; [eauto |].
      now destruct gens. }
    destruct Htrend as (ax1 & ->). simpl. apply IH.
    + intros name' gens' H1. apply (Hne name'). simpl; auto.
    + intros name' gens' gen H1 H2. apply (H name' gens' gen); simpl; auto.
Qed.
End BarLoop.

Lemma py_truediv_Ok a b v :
  py_truediv a b = Ok v -> v = (a / b)%Q /\ ~ (b == 0)%Q.
Proof.
  unfold py_truediv. destruct (Qeq_bool b 0) eqn:E; [discriminate |].
  intros [= <-]. split; [reflexivity |].
  intros H. apply Qeq_bool_iff in H. congruence.
Qed.

Lemma Forall2_In_l {A B : Type} (P : A -> B -> Prop) l l' x :
  Forall2 P l l' -> In x l -> exists y, In y l' /\ P x y.
Proof.
  induction 1 as [| a b l l' Hab H IH]; simpl; [tauto |].
  intros [-> | Hin]; [eauto |].
  destruct (IH Hin) as (y & ? & ?). eauto.
Qed.

Lemma Forall2_eq_map {A B : Type} (f : A -> B) l l' :
  Forall2 (fun x y => y = f x) l l' -> l' = map f l.
Proof. induction 1; simpl; congruence. Qed.

Lemma plot_bars_Ok ax (g : grouped) value_lambda add_trend_line ax' :
  BenchmarkPlotter._plot_bars ax g value_lambda add_trend_line = Ok ax' ->
  g <> []
  /\ exists hs fits,
      bar_heights ax' = bar_heights ax ++ hs
      /\ trend_fits ax' = trend_fits ax ++ fits
      /\ Forall2
           (fun group ys => comprehension value_lambda (snd group) = Ok ys)
           g hs
      /\ (add_trend_line = true ->
          length fits = length g
          /\ forall j name gens,
              nth_error g j = Some (name, gens) ->
              exists ys,
                nth_error hs j = Some ys
                /\ nth_error fits j
                   = Some (bar_positions (6 / inject_Z (Z.of_nat (length g)))
                             j gens, ys, 3%nat)).
Proof.
  unfold BenchmarkPlotter._plot_bars. intros H.
  apply bind_Ok_inv in H as (bw & Hbw & H).
  apply py_truediv_Ok in Hbw as [-> Hcount].
  apply bind_Ok_inv in H as (ax1 & Hloop & H).
  apply bind_Ok_inv in H as (first & Hfirst & H).
  injection H as <-. split.
  - intros ->. apply Hcount. reflexivity.
  - apply plot_bars_loop_Ok in Hloop as (hs & fits & Hh & Hf & Hall & Hnth).
    exists hs, fits. split; [exact Hh |]. split; [exact Hf |].
    split; [exact Hall | exact Hnth].
Qed.

Lemma plot_bars_Raise ax (g : grouped) value_lambda add_trend_line e :
  BenchmarkPlotter._plot_bars ax g value_lambda add_trend_line = Raise e ->
  (g = [] /\ e = ZeroDivisionError)
  \/ (exists name gens gen,
         In (name, gens) g /\ In gen gens /\ value_lambda gen = Raise e)
  \/ (add_trend_line = true
      /\ (exists name, In (name, []) g)
      /\ e = TypeError "expected non-empty vector for x").
Proof.
  unfold BenchmarkPlotter._plot_bars. intros H.
  apply bind_Raise_inv in H as [H | (bw & Hbw & H)].
  - apply py_truediv_Raise in H as [-> H]. left. split; [| reflexivity].
    destruct g; [reflexivity |]. unfold Qeq in H. simpl in H. lia.
  - apply bind_Raise_inv in H as [H | (ax1 & Hloop & H)].
    + right. eapply plot_bars_loop_Raise; eauto.
    + apply py_truediv_Ok in Hbw as [_ Hcount].
      destruct g as [| [name gens] g]; [| discriminate].
      exfalso. apply Hcount. reflexivity.
Qed.

Lemma plot_bars_total ax (g : grouped) value_lambda add_trend_line :
  g <> [] ->
  (forall name gens, In (name, gens) g -> gens <> []) ->
  (forall name gens gen,
      In (name, gens) g -> In gen gens -> exists v, value_lambda gen = Ok v) ->
  exists ax', BenchmarkPlotter._plot_bars ax g value_lambda add_trend_line
              = Ok ax'.
Proof.
  intros Hg Hne Hall. unfold BenchmarkPlotter._plot_bars.
  rewrite py_truediv_nonzero by now apply group_count_nonzero. simpl.
  destruct (plot_bars_loop_total value_lambda add_trend_line
              (6 / inject_Z (Z.of_nat (length g))) 0 g ax Hne Hall)
    as (ax1 & ->).
  simpl. destruct g as [| [name gens] g]; [congruence |]. simpl. eauto.
Qed.

Lemma series_heights_map (value_lambda : BenchmarkGenerator -> result Q)
  (h : BenchmarkGenerator -> Q) (g : grouped) (hs : list (list Q)) :
  (forall name gens gen,
      In (name, gens) g -> In gen gens -> value_lambda gen = Ok (h gen)) ->
  Forall2 (fun group ys => comprehension value_lambda (snd group) = Ok ys)
    g hs ->
  hs = map (fun group => map h (snd group)) g.
Proof.
  intros Hv Hall. induction Hall as [| [name gens] ys g hs Hys Hall IH].
  - reflexivity.
  - simpl in *. f_equal.
    + rewrite (comprehension_map value_lambda h gens) in Hys.
      * congruence.
      * intros gen Hgen. apply (Hv name gens gen); auto.
    + apply IH. intros name' gens' gen H1 H2.
      apply (Hv name' gens' gen); auto.
Qed.

(** C8.  The "Size over Time" chart divides each bucket's average
    test-suite size by its average generation time, unguarded.  On a
    mapping in which every generator name has at least one bucket:
    - when the mapping is non-empty and no bucket has a zero average
      generation time, the chart is drawn and the bar heights are exactly
      those quotients, series by series;
    - when some bucket has a zero average generation time, the chart
      function raises [ZeroDivisionError]. *)
Theorem size_over_time_division (cls : option Benchmark) (g : grouped) :
  (forall name gens, In (name, gens) g -> gens <> []) ->
  (g <> [] ->
   (forall name gens gen,
       In (name, gens) g -> In gen gens ->
       ~ (average_generation_time gen == 0)%Q) ->
   exists ax,
     BenchmarkPlotter.plot_average_size_divided_by_average_time cls g = Ok ax
     /\ bar_heights ax
        = map (fun group =>
                 map (fun gen => (average_test_suite_size gen
                                  / average_generation_time gen)%Q)
                   (snd group)) g)
  /\ (forall name gens gen,
         In (name, gens) g -> In gen gens ->
         (average_generation_time gen == 0)%Q ->
         BenchmarkPlotter.plot_average_size_divided_by_average_time cls g
         = Raise ZeroDivisionError).
Proof.
  intros Hbuckets.
  unfold BenchmarkPlotter.plot_average_size_divided_by_average_time. split.
  - intros Hg Hnz.
    match goal with
    | |- exists ax, BenchmarkPlotter._plot_bars ?a g ?f true = _ /\ _ =>
        destruct (plot_bars_total a g f true Hg Hbuckets) as (ax & Hax)
    end.
    { intros name gens gen H1 H2. eexists.
      apply py_truediv_nonzero. eauto. }
    exists ax. split; [exact Hax |].
    apply plot_bars_Ok in Hax as (_ & hs & fits & Hh & _ & Hall & _).
    rewrite Hh. simpl.
    eapply series_heights_map; [| exact Hall].
    intros name gens gen H1 H2. apply py_truediv_nonzero. eauto.
  - intros name gens gen H1 H2 Hzero.
    match goal with
    | |- ?c = _ => destruct c as [ax | e] eqn:Hc
    end.
    + exfalso.
      apply plot_bars_Ok in Hc as (_ & hs & fits & _ & _ & Hall & _).
      destruct (Forall2_In_l _ _ _ _ Hall H1) as (ys & _ & Hys).
      apply comprehension_Ok in Hys. simpl in Hys.
      destruct (Forall2_In_l _ _ _ _ Hys H2) as (y & _ & Hy).
      rewrite py_truediv_zero in Hy by assumption. discriminate.
    + f_equal.
      apply plot_bars_Raise in Hc
        as [[-> _] | [(name' & gens' & gen' & _ & _ & Hraise)
                     | (_ & (n & Hn) & _)]].
      * destruct H1.
      * now apply py_truediv_Raise in Hraise as [-> _].
      * exfalso. now apply (Hbuckets n []).
Qed.

Lemma sample_buckets_nonempty name gens :
  In (name, gens) Samples.two_generators -> gens <> [].
Proof.
  simpl. intros [[= <- <-] | [[= <- <-] | []]]; discriminate.
Qed.

(** On the two sample generators every average generation time is
    non-zero: the chart is drawn with the quotients as bar heights.  A
    single bucket with average generation time 0 raises instead. *)
Lemma size_over_time_division_witness :
  (exists ax,
      BenchmarkPlotter.plot_average_size_divided_by_average_time None
        Samples.two_generators = Ok ax
      /\ bar_heights ax
         = map (fun group =>
                  map (fun gen => (average_test_suite_size gen
                                   / average_generation_time gen)%Q)
                    (snd group)) Samples.two_generators)
  /\ BenchmarkPlotter.plot_average_size_divided_by_average_time None
       [("Random", [Samples.bucket 50 0 30])]
     = Raise ZeroDivisionError.
Proof.
  split.
  - apply (proj1 (size_over_time_division None Samples.two_generators
                    sample_buckets_nonempty)).
    + discriminate.
    + intros name gens gen H1 H2. simpl in H1.
      destruct H1 as [[= <- <-] | [[= <- <-] | []]];
        simpl in H2; destruct H2 as [<- | [<- | []]]; vm_compute;
        discriminate.
  - refine (proj2 (size_over_time_division None
                     [("Random", [Samples.bucket 50 0 30])] _)
              "Random" [Samples.bucket 50 0 30] (Samples.bucket 50 0 30)
              _ _ _).
    + simpl. intros name gens [[= <- <-] | []]. discriminate.
    + simpl. auto.
    + simpl. auto.
    + reflexivity.
Defined.

(** ** Trend lines *)

Lemma Forall2_nth_error {A B : Type} (P : A -> B -> Prop) l l' i x y :
  Forall2 P l l' -> nth_error l i = Some x -> nth_error l' i = Some y ->
  P x y.
Proof.
  intros H. revert i. induction H as [| a b l l' Hab H IH]; intros [| i];
    simpl; try discriminate.
  - now intros [= <-] [= <-].
  - apply IH.
Qed.

Lemma bar_positions_first bar_width gens :
  Forall2 Qeq (bar_positions bar_width 0 gens)
    (map (fun gen => inject_Z (stop_coverage gen)) gens).
Proof.
  induction gens as [| gen gens IH]; simpl; constructor; [| exact IH].
  simpl. ring.
Qed.

(** C6 (as the code behaves).  In a bar chart with trend lines there is one
    trend line per generator series, in series order, and the trend line of
    the series drawn [i]-th (counting from 0) is the degree-3 fit over that
    series' own (bar position, value) pairs, where the bar position of a
    bucket is its stop-coverage plus [i] times the bar width and the bar
    width is 6 divided by the number of series.  For the first series the
    bar positions are the stop-coverage values themselves. *)
Theorem trend_line_fits_bar_positions
  (ax : axes) (g : grouped) (value_lambda : BenchmarkGenerator -> result Q)
  (ax' : axes) :
  BenchmarkPlotter._plot_bars ax g value_lambda true = Ok ax' ->
  exists fits,
    trend_fits ax' = trend_fits ax ++ fits
    /\ length fits = length g
    /\ (forall i name gens,
           nth_error g i = Some (name, gens) ->
           exists ys,
             comprehension value_lambda gens = Ok ys
             /\ nth_error fits i
                = Some (bar_positions (6 / inject_Z (Z.of_nat (length g))) i
                          gens, ys, 3%nat))
    /\ (forall name gens,
           nth_error g 0 = Some (name, gens) ->
           Forall2 Qeq
             (bar_positions (6 / inject_Z (Z.of_nat (length g))) 0 gens)
             (map (fun gen => inject_Z (stop_coverage gen)) gens)).
Proof.
  intros H.
  apply plot_bars_Ok in H as (_ & hs & fits & _ & Hf & Hall & Hnth).
  destruct (Hnth eq_refl) as [Hlen Hnth'].
  exists fits. repeat split; try assumption.
  - intros i name gens Hi.
    destruct (Hnth' i name gens Hi) as (ys & Hys & Hfit).
    exists ys. split; [| exact Hfit].
    apply (Forall2_nth_error _ _ _ _ _ _ Hall Hi Hys).
  - intros name gens _. apply bar_positions_first.
Qed.

(** The "Total Time" chart of the two sample generators: two trend lines,
    the second fitted at the positions 53 and 103. *)
Lemma trend_line_fits_bar_positions_witness :
  exists ax' fits,
    BenchmarkPlotter.plot_total_time None Samples.two_generators = Ok ax'
    /\ trend_fits ax' = fits
    /\ length fits = 2%nat
    /\ exists ys,
        nth_error fits 1
        = Some (bar_positions (6 / 2) 1
                  [Samples.bucket 50 10 30; Samples.bucket 100 25 40],
                ys, 3%nat).
Proof.
  destruct (BenchmarkPlotter.plot_total_time None Samples.two_generators)
    as [ax' | e] eqn:E; [| vm_compute in E; discriminate].
  destruct (trend_line_fits_bar_positions _ _ _ _ E)
    as (fits & Hf & Hlen & Hnth & _).
  exists ax', fits. repeat split; try assumption.
  destruct (Hnth 1%nat "Weighted"
              [Samples.bucket 50 10 30; Samples.bucket 100 25 40] eq_refl)
    as (ys & _ & Hfit).
  exists ys. exact Hfit.
Defined.

(** C6 as stated fails: in the "Total Time" chart of the two sample
    generators, the trend line of the second series ("Weighted") is fitted
    at x = 53 and x = 103, not at its coverage values 50 and 100. *)
Lemma trend_line_not_fitted_over_coverage_values :
  exists ax' fit,
    BenchmarkPlotter.plot_total_time None Samples.two_generators = Ok ax'
    /\ nth_error Samples.two_generators 1
       = Some ("Weighted",
               [Samples.bucket 50 10 30; Samples.bucket 100 25 40])
    /\ nth_error (trend_fits ax') 1 = Some fit
    /\ snd fit = 3%nat
    /\ Forall2 Qeq (fst (fst fit)) [53%Q; 103%Q]
    /\ ~ Forall2 Qeq (fst (fst fit))
           (map (fun gen => inject_Z (stop_coverage gen))
              [Samples.bucket 50 10 30; Samples.bucket 100 25 40]).
Proof.
  eexists. eexists. split; [vm_compute; reflexivity |].
  split; [reflexivity |]. split; [vm_compute; reflexivity |].
  split; [reflexivity |]. split.
  - repeat constructor.
  - simpl. intros H. inversion H as [| ? ? ? ? Hq _]; subst.
    unfold Qeq in Hq. simpl in Hq. lia.
Qed.

(** ** What the chart functions depend on *)

Lemma vertex_percentage_same_count (b1 b2 : Benchmark) (g : grouped) :
  vertices (model (report b1)) = vertices (model (report b2)) ->
  BenchmarkPlotter.plot_average_vertex_percentage_total_visits (Some b1) g
  = BenchmarkPlotter.plot_average_vertex_percentage_total_visits (Some b2) g.
Proof.
  intros H.
  unfold BenchmarkPlotter.plot_average_vertex_percentage_total_visits.
  simpl. now rewrite H.
Qed.

Lemma edge_percentage_same_count (b1 b2 : Benchmark) (g : grouped) :
  edges (model (report b1)) = edges (model (report b2)) ->
  BenchmarkPlotter.plot_average_edge_percentage_total_visits (Some b1) g
  = BenchmarkPlotter.plot_average_edge_percentage_total_visits (Some b2) g.
Proof.
  intros H.
  unfold BenchmarkPlotter.plot_average_edge_percentage_total_visits.
  simpl. now rewrite H.
Qed.

(** C2 (as the code behaves).  A chart function's figure is determined by
    its explicit arguments together with the class attribute
    [BenchmarkPlotter.benchmark]:
    - every general chart other than "Average Vertex Visits %" and "Average
      Edge Visits %", every per-coverage histogram and every test-execution
      chart yields the same outcome for the same explicit arguments,
      whatever the class attribute holds;
    - "Average Vertex Visits %" (resp. "Average Edge Visits %") yields the
      same outcome for the same mapping whenever the stored benchmarks have
      the same model vertex (resp. edge) count;
    - [create_plots] stores its benchmark argument in the class attribute
      before any chart is drawn, so two runs with the same arguments return
      the same images from any two starting worlds. *)
Theorem chart_functions_inputs :
  (forall name f,
      In (name, f) BenchmarkPlotter.get_plot_functions ->
      name <> "Average Vertex Visits %" ->
      name <> "Average Edge Visits %" ->
      forall cls1 cls2 g, f cls1 g = f cls2 g)
  /\ (forall name f,
        In (name, f) BenchmarkPlotter.get_per_coverage_plot_functions ->
        forall cls1 cls2 g coverage_value,
          f cls1 g coverage_value = f cls2 g coverage_value)
  /\ (forall name f,
        In (name, f) BenchmarkPlotter.get_test_execution_plot_functions ->
        forall cls1 cls2 benchmark g, f cls1 benchmark g = f cls2 benchmark g)
  /\ (forall b1 b2 g,
        vertices (model (report b1)) = vertices (model (report b2)) ->
        BenchmarkPlotter.plot_average_vertex_percentage_total_visits
          (Some b1) g
        = BenchmarkPlotter.plot_average_vertex_percentage_total_visits
            (Some b2) g)
  /\ (forall b1 b2 g,
        edges (model (report b1)) = edges (model (report b2)) ->
        BenchmarkPlotter.plot_average_edge_percentage_total_visits (Some b1) g
        = BenchmarkPlotter.plot_average_edge_percentage_total_visits
            (Some b2) g)
  /\ (forall benchmark g show w1 w2,
        plotter_benchmark
          (fst (BenchmarkPlotter.create_plots benchmark g show w1))
        = Some benchmark
        /\ snd (BenchmarkPlotter.create_plots benchmark g show w1)
           = snd (BenchmarkPlotter.create_plots benchmark g show w2)).
Proof.
  split; [| split; [| split; [| split; [| split]]]].
  - intros name f Hin Hv He cls1 cls2 g. simpl in Hin.
    repeat (destruct Hin as [Hin | Hin];
            [injection Hin as <- <-; first [reflexivity | congruence] |]).
    destruct Hin.
  - intros name f Hin cls1 cls2 g c. simpl in Hin.
    repeat (destruct Hin as [Hin | Hin];
            [injection Hin as <- <-; reflexivity |]).
    destruct Hin.
  - intros name f Hin cls1 cls2 b g. simpl in Hin.
    repeat (destruct Hin as [Hin | Hin];
            [injection Hin as <- <-; reflexivity |]).
    destruct Hin.
  - apply vertex_percentage_same_count.
  - apply edge_percentage_same_count.
  - intros benchmark g show w1 w2. split; reflexivity.
Qed.

(** "Total Time" draws the same figure with the class attribute unset or
    holding the sample benchmark. *)
Lemma chart_functions_inputs_witness :
  BenchmarkPlotter.plot_total_time None Samples.two_generators
  = BenchmarkPlotter.plot_total_time (Some Samples.sample_benchmark)
      Samples.two_generators
  /\ BenchmarkPlotter.plot_average_vertex_percentage_total_visits
       (Some (Samples.benchmark_with 2 5 true)) Samples.two_generators
     = BenchmarkPlotter.plot_average_vertex_percentage_total_visits
         (Some (Samples.benchmark_with 2 7 false)) Samples.two_generators.
Proof.
  split.
  - apply (proj1 chart_functions_inputs "Total Time"
             BenchmarkPlotter.plot_total_time).
    + simpl. auto.
    + discriminate.
    + discriminate.
  - apply (proj1 (proj2 (proj2 (proj2 chart_functions_inputs)))).
    reflexivity.
Defined.

(** C2 as stated fails: with the same grouped mapping, "Average Vertex
    Visits %" draws bars of height 100 when the stored benchmark's model
    has one vertex and bars of height 50 when it has two. *)
Lemma vertex_percentage_reads_class_attribute :
  exists ax1 ax2,
    BenchmarkPlotter.plot_average_vertex_percentage_total_visits
      (Some (Samples.benchmark_with 1 1 true)) Samples.two_generators = Ok ax1
    /\ BenchmarkPlotter.plot_average_vertex_percentage_total_visits
         (Some (Samples.benchmark_with 2 2 true)) Samples.two_generators
       = Ok ax2
    /\ Forall2 (Forall2 Qeq) (bar_heights ax1) [[100%Q; 100%Q]; [100%Q; 100%Q]]
    /\ Forall2 (Forall2 Qeq) (bar_heights ax2) [[50%Q; 50%Q]; [50%Q; 50%Q]]
    /\ ax1 <> ax2.
Proof.
  eexists. eexists. split; [vm_compute; reflexivity |].
  split; [vm_compute; reflexivity |].
  split; [repeat constructor |]. split; [repeat constructor |].
  intros H. apply (f_equal bar_heights) in H. vm_compute in H. discriminate.
Qed.

(** ** Keys of the plot dictionary *)

Lemma dict_keys_set_fresh {V : Type} k (v : V) d :
  ~ In k (dict_keys d) -> dict_keys (dict_set k v d) = dict_keys d ++ [k].
Proof.
  induction d as [| [k' v'] d IH]; simpl; intros H; [reflexivity |].
  destruct (String.eqb_spec k k') as [-> | Hne]; [tauto |].
  simpl. f_equal. apply IH. tauto.
Qed.

Lemma NoDup_app_cons_fresh {A : Type} (l : list A) x rest :
  List.NoDup (l ++ x :: rest) -> ~ In x l /\ List.NoDup ((l ++ [x]) ++ rest).
Proof.
  intros H. split.
  - apply NoDup_remove_2 in H. rewrite in_app_iff in H. tauto.
  - now rewrite <- app_assoc.
Qed.

Lemma general_plots_keys cls g fns plots plots' :
  BenchmarkPlotter.general_plots cls g fns plots = Ok plots' ->
  List.NoDup (dict_keys plots ++ map fst fns) ->
  dict_keys plots' = dict_keys plots ++ map fst fns.
Proof.
  revert plots. induction fns as [| [name f] fns IH]; simpl; intros plots H Hnd.
  - injection H as <-. now rewrite app_nil_r.
  - apply bind_Ok_inv in H as (current & _ & H).
    apply NoDup_app_cons_fresh in Hnd as [Hfresh Hnd].
    apply IH in H; rewrite dict_keys_set_fresh in * by assumption;
      [| assumption].
    now rewrite H, <- app_assoc.
Qed.

Lemma test_execution_plots_keys cls b g fns plots plots' :
  BenchmarkPlotter.test_execution_plots cls b g fns plots = Ok plots' ->
  List.NoDup (dict_keys plots ++ map fst fns) ->
  dict_keys plots' = dict_keys plots ++ map fst fns.
Proof.
  revert plots. induction fns as [| [name f] fns IH]; simpl; intros plots H Hnd.
  - injection H as <-. now rewrite app_nil_r.
  - apply bind_Ok_inv in H as (current & _ & H).
    apply NoDup_app_cons_fresh in Hnd as [Hfresh Hnd].
    apply IH in H; rewrite dict_keys_set_fresh in * by assumption;
      [| assumption].
    now rewrite H, <- app_assoc.
Qed.

Lemma per_coverage_plots_of_keys cls g name f covs plots plots' :
  BenchmarkPlotter.per_coverage_plots_of cls g name f covs plots = Ok plots' ->
  List.NoDup
    (dict_keys plots ++ map (BenchmarkPlotter.per_coverage_key name) covs) ->
  dict_keys plots'
  = dict_keys plots ++ map (BenchmarkPlotter.per_coverage_key name) covs.
Proof.
  revert plots. induction covs as [| c covs IH]; simpl; intros plots H Hnd.
  - injection H as <-. now rewrite app_nil_r.
  - apply bind_Ok_inv in H as (current & _ & H).
    apply NoDup_app_cons_fresh in Hnd as [Hfresh Hnd].
    apply IH in H; rewrite dict_keys_set_fresh in * by assumption;
      [| assumption].
    now rewrite H, <- app_assoc.
Qed.

Lemma per_coverage_plots_keys cls g fns covs plots plots' :
  BenchmarkPlotter.per_coverage_plots cls g fns covs plots = Ok plots' ->
  List.NoDup (dict_keys plots
         ++ flat_map (fun name => map (BenchmarkPlotter.per_coverage_key name)
                                    covs) (map fst fns)) ->
  dict_keys plots'
  = dict_keys plots
    ++ flat_map (fun name => map (BenchmarkPlotter.per_coverage_key name) covs)
         (map fst fns).
Proof.
  revert plots. induction fns as [| [name f] fns IH]; simpl; intros plots H Hnd.
  - injection H as <-. now rewrite app_nil_r.
  - apply bind_Ok_inv in H as (plots1 & H1 & H).
    rewrite app_assoc in Hnd.
    apply per_coverage_plots_of_keys in H1;
      [| now apply NoDup_app_remove_r in Hnd].
    apply IH in H; rewrite H1 in *; [| assumption].
    now rewrite H, <- app_assoc.
Qed.

(** *** The images stored under the histogram keys *)

Lemma dict_set_fresh_app {V : Type} k (v : V) d :
  ~ In k (dict_keys d) -> dict_set k v d = d ++ [(k, v)].
Proof.
  induction d as [| [k' v'] d IH]; simpl; intros H; [reflexivity |].
  destruct (String.eqb_spec k k') as [-> | Hne]; [tauto |].
  f_equal. apply IH. tauto.
Qed.

Lemma dict_get_of_In {V : Type} k (v : V) d :
  List.NoDup (dict_keys d) -> In (k, v) d -> dict_get k d = Some v.
Proof.
  induction d as [| [k' v'] d IH]; simpl; intros Hnd Hin; [tauto |].
  inversion Hnd as [| ? ? Hfresh Hnd']; subst.
  destruct Hin as [[= -> ->] | Hin].
  - now rewrite String.eqb_refl.
  - destruct (String.eqb_spec k k') as [-> | Hne]; [| auto].
    exfalso. apply Hfresh. unfold dict_keys.
    now apply (in_map fst) in Hin.
Qed.

Lemma per_coverage_plots_of_entries cls g name f covs plots plots' :
  BenchmarkPlotter.per_coverage_plots_of cls g name f covs plots = Ok plots' ->
  List.NoDup
    (dict_keys plots ++ map (BenchmarkPlotter.per_coverage_key name) covs) ->
  (forall k v, In (k, v) plots -> In (k, v) plots')
  /\ (forall c,
         In c covs ->
         exists current,
           f cls g c = Ok current
           /\ In (BenchmarkPlotter.per_coverage_key name c,
                  BenchmarkPlotter.save_plot_bytesio current) plots').
Proof.
  revert plots. induction covs as [| c covs IH]; simpl; intros plots H Hnd.
  - injection H as <-. split; [auto | intros c []].
  - apply bind_Ok_inv in H as (current & Hcurrent & H).
    apply NoDup_app_cons_fresh in Hnd as [Hfresh Hnd].
    rewrite <- dict_keys_set_fresh
      with (v := BenchmarkPlotter.save_plot_bytesio current)
      in Hnd by assumption.
    destruct (IH _ H Hnd) as [Hold Hnew].
    rewrite dict_set_fresh_app in Hold by assumption.
    split.
    + intros k v Hin. apply Hold, in_or_app. now left.
    + intros c' [<- | Hin]; [| now apply Hnew].
      exists current. split; [assumption |].
      apply Hold, in_or_app. right. now left.
Qed.

Lemma per_coverage_plots_entries cls g fns covs plots plots' :
  BenchmarkPlotter.per_coverage_plots cls g fns covs plots = Ok plots' ->
  List.NoDup
    (dict_keys plots
     ++ flat_map (fun name => map (BenchmarkPlotter.per_coverage_key name)
                                covs) (map fst fns)) ->
  (forall k v, In (k, v) plots -> In (k, v) plots')
  /\ (forall name f c,
         In (name, f) fns -> In c covs ->
         exists current,
           f cls g c = Ok current
           /\ In (BenchmarkPlotter.per_coverage_key name c,
                  BenchmarkPlotter.save_plot_bytesio current) plots').
Proof.
  revert plots. induction fns as [| [name f] fns IH]; simpl; intros plots H Hnd.
  - injection H as <-. split; [auto | intros ? ? ? []].
  - apply bind_Ok_inv in H as (plots1 & H1 & H).
    rewrite app_assoc in Hnd.
    pose proof (NoDup_app_remove_r _ _ Hnd) as Hnd1.
    destruct (per_coverage_plots_of_entries _ _ _ _ _ _ _ H1 Hnd1)
      as [Hold1 Hnew1].
    apply per_coverage_plots_of_keys in H1; [| assumption].
    rewrite <- H1 in Hnd.
    destruct (IH _ H Hnd) as [Hold Hnew].
    split; [auto |].
    intros name' f' c [[= <- <-] | Hin] Hc.
    + destruct (Hnew1 c Hc) as (current & Hcurrent & Hentry). eauto.
    + eauto.
Qed.

(** *** The inserted keys are pairwise distinct *)

Lemma catalogue_names_NoDup :
  List.NoDup (map fst BenchmarkPlotter.get_plot_functions
              ++ map fst BenchmarkPlotter.get_test_execution_plot_functions).
Proof.
  apply NoDup_ListNoDup. apply (bool_decide_unpack _). vm_compute.
  reflexivity.
Qed.

Lemma string_app_inv_head a x y : a +:+ x = a +:+ y -> x = y.
Proof. induction a; simpl; [auto | intros [= H]; auto]. Qed.

Lemma string_app_inv_tail c x y :
  x +:+ String c EmptyString = y +:+ String c EmptyString -> x = y.
Proof.
  revert y. induction x as [| a x IH]; intros [| b y]; simpl; intros H.
  - reflexivity.
  - injection H as -> H. destruct y; discriminate.
  - injection H as -> H. destruct x; discriminate.
  - injection H as -> H. f_equal. auto.
Qed.

(** Decimal printing of integers is injective. *)
Lemma py_str_inj a b : py_str a = py_str b -> a = b.
Proof.
  unfold py_str. intros H. apply DecimalZ.to_int_inj.
  assert (Hread : forall z,
             NilZero.int_of_string (NilZero.string_of_int (Z.to_int z))
             = Some (Z.to_int z)).
  { intros z. apply NilZero.isi; destruct z; simpl; try discriminate;
      intros [= E]; revert E; apply Unsigned.to_uint_nonnil. }
  pose proof (Hread a) as Ha. rewrite H, Hread in Ha. congruence.
Qed.

Lemma per_coverage_key_inj name1 name2 c1 c2 :
  In name1 (map fst BenchmarkPlotter.get_per_coverage_plot_functions) ->
  In name2 (map fst BenchmarkPlotter.get_per_coverage_plot_functions) ->
  BenchmarkPlotter.per_coverage_key name1 c1
  = BenchmarkPlotter.per_coverage_key name2 c2 ->
  name1 = name2 /\ c1 = c2.
Proof.
  unfold BenchmarkPlotter.per_coverage_key.
  remember (py_str c1) as s1 eqn:E1. remember (py_str c2) as s2 eqn:E2.
  simpl. intros H1 H2 H.
  assert (Hsame : name1 = name2).
  { destruct H1 as [<- | [<- | [<- | [<- | []]]]];
      destruct H2 as [<- | [<- | [<- | [<- | []]]]];
      first [reflexivity | simpl in H; discriminate H]. }
  split; [exact Hsame |]. subst name2.
  apply string_app_inv_head in H. apply string_app_inv_head in H.
  apply string_app_inv_tail in H. subst. now apply py_str_inj.
Qed.

Lemma per_coverage_key_not_catalogue name c :
  In name (map fst BenchmarkPlotter.get_per_coverage_plot_functions) ->
  ~ In (BenchmarkPlotter.per_coverage_key name c)
      (map fst BenchmarkPlotter.get_plot_functions
       ++ map fst BenchmarkPlotter.get_test_execution_plot_functions).
Proof.
  unfold BenchmarkPlotter.per_coverage_key.
  remember (py_str c) as s eqn:E. simpl. intros Hname Hin.
  destruct Hname as [<- | [<- | [<- | [<- | []]]]];
    simpl in Hin;
    repeat (destruct Hin as [Hin | Hin]; [discriminate Hin |]);
    exact Hin.
Qed.

Lemma per_coverage_keys_NoDup (names : list string) (covs : list Z) :
  (forall name, In name names ->
     In name (map fst BenchmarkPlotter.get_per_coverage_plot_functions)) ->
  List.NoDup names -> List.NoDup covs ->
  List.NoDup
    (flat_map (fun name => map (BenchmarkPlotter.per_coverage_key name) covs)
       names).
Proof.
  intros Hnames Hnd Hcovs. induction Hnd as [| name names Hfresh Hnd IH].
  - constructor.
  - simpl. apply List.NoDup_app.
    + apply Finite.Injective_map_NoDup_in; [| assumption].
      intros c1 c2 _ _ H.
      apply per_coverage_key_inj in H as [_ H];
        try (apply Hnames; simpl; auto). exact H.
    + apply IH. intros n Hn. apply Hnames. simpl; auto.
    + intros k Hk Hk'. apply in_map_iff in Hk as (c & <- & _).
      apply in_flat_map in Hk' as (name' & Hname' & Hk').
      apply in_map_iff in Hk' as (c' & Hk' & _).
      apply per_coverage_key_inj in Hk' as [-> _];
        try (apply Hnames; simpl; auto).
      contradiction.
Qed.

(** ** Coverage values *)

Lemma insert_sorted_perm x l : Permutation (insert_sorted x l) (x :: l).
Proof.
  induction l as [| y l IH]; simpl; [reflexivity |].
  destruct (x <=? y)%Z; [reflexivity |].
  rewrite IH. apply perm_swap.
Qed.

Lemma list_sort_perm l : Permutation (list_sort l) l.
Proof.
  induction l as [| x l IH]; simpl; [reflexivity |].
  rewrite insert_sorted_perm. now constructor.
Qed.

Lemma insert_sorted_sorted x l :
  StronglySorted Z.le l -> StronglySorted Z.le (insert_sorted x l).
Proof.
  induction 1 as [| y l Hl IH Hy]; simpl.
  - repeat constructor.
  - destruct (Z.leb_spec x y) as [Hxy | Hxy].
    + constructor; [constructor; assumption |].
      constructor; [assumption |].
      eapply List.Forall_impl; [| exact Hy]. intros z Hz. simpl in Hz. lia.
    + constructor; [assumption |].
      rewrite List.Forall_forall in *. intros z Hz.
      apply (Permutation_in _ (insert_sorted_perm x l)) in Hz.
      destruct Hz as [<- | Hz]; [lia | auto].
Qed.

Lemma list_sort_sorted l : StronglySorted Z.le (list_sort l).
Proof.
  induction l as [| x l IH]; simpl; [constructor |].
  now apply insert_sorted_sorted.
Qed.

Lemma sorted_NoDup_strict l :
  StronglySorted Z.le l -> List.NoDup l -> StronglySorted Z.lt l.
Proof.
  induction 1 as [| x l Hl IH Hx]; intros Hnd; [constructor |].
  inversion Hnd as [| ? ? Hfresh Hnd']; subst.
  constructor; [auto |].
  rewrite List.Forall_forall in *. intros y Hy.
  specialize (Hx y Hy). simpl in Hx.
  assert (x <> y) by (intros ->; contradiction). lia.
Qed.

Section Collect.
Local Abbreviation add_coverage :=
  (fun (coverage_values : list Z) (generator : BenchmarkGenerator) =>
     if negb (existsb (Z.eqb (stop_coverage generator)) coverage_values)
     then coverage_values ++ [stop_coverage generator]
     else coverage_values).

Lemma existsb_Zeqb c l : existsb (Z.eqb c) l = true <-> In c l.
Proof.
  rewrite existsb_exists. split.
  - intros (y & Hy & E). apply Z.eqb_eq in E. now subst.
  - intros H. exists c. split; [assumption | apply Z.eqb_refl].
Qed.

Lemma add_coverages_spec gens acc :
  List.NoDup acc ->
  List.NoDup (fold_left add_coverage gens acc)
  /\ forall c,
      In c (fold_left add_coverage gens acc) <->
      In c acc \/ exists gen, In gen gens /\ stop_coverage gen = c.
Proof.
  revert acc. induction gens as [| gen gens IH]; simpl; intros acc Hnd.
  - split; [assumption |]. intros c. split; [auto |].
    intros [H | (gen & [] & _)]. exact H.
  - destruct (existsb (Z.eqb (stop_coverage gen)) acc) eqn:E; simpl.
    + apply existsb_Zeqb in E.
      destruct (IH acc Hnd) as [H1 H2]. split; [assumption |].
      intros c. rewrite H2. split.
      * intros [H | (gen' & Hin & Hc)]; eauto.
      * intros [H | (gen' & [<- | Hin] & Hc)]; subst; eauto.
    + assert (Hfresh : ~ In (stop_coverage gen) acc).
      { intros H. apply existsb_Zeqb in H. congruence. }
      destruct (IH (acc ++ [stop_coverage gen])) as [H1 H2].
      { apply List.NoDup_app; [assumption | repeat constructor; simpl; tauto |].
        intros a Ha [<- | []]. contradiction. }
      split; [assumption |].
      intros c. rewrite H2, in_app_iff. simpl. split.
      * intros [[H | [<- | []]] | (gen' & Hin & Hc)]; eauto.
      * intros [H | (gen' & [<- | Hin] & Hc)]; subst; eauto.
Qed.

Lemma collect_coverage_values_spec (g : grouped) :
  List.NoDup (BenchmarkPlotter.collect_coverage_values g)
  /\ forall c,
      In c (BenchmarkPlotter.collect_coverage_values g) <->
      exists name gens gen,
        In (name, gens) g /\ In gen gens /\ stop_coverage gen = c.
Proof.
  unfold BenchmarkPlotter.collect_coverage_values.
  assert (H : forall acc,
             List.NoDup acc ->
             let r :=
               fold_left
                 (fun coverage_values '(_, generators) =>
                    fold_left add_coverage generators coverage_values)
                 g acc in
             List.NoDup r
             /\ forall c,
                 In c r <->
                 In c acc
                 \/ exists name gens gen,
                     In (name, gens) g /\ In gen gens
                     /\ stop_coverage gen = c).
  { induction g as [| [name gens] g IH]; simpl; intros acc Hnd.
    - split; [assumption |]. intros c. split; [auto |].
      intros [H | (? & ? & ? & [] & _)]. exact H.
    - destruct (add_coverages_spec gens acc Hnd) as [H1 H2].
      destruct (IH _ H1) as [H3 H4]. split; [assumption |].
      intros c. rewrite H4, H2. split.
      + intros [[H | (gen & Hin & Hc)] | (n & gs & gen & Hin & Hgen & Hc)].
        * auto.
        * right. exists name, gens, gen. auto.
        * right. exists n, gs, gen. auto.
      + intros [H | (n & gs & gen & [[= <- <-] | Hin] & Hgen & Hc)].
        * auto.
        * left. right. eauto.
        * right. exists n, gs, gen. auto. }
  destruct (H [] (List.NoDup_nil _)) as [H1 H2]. split; [exact H1 |].
  intros c. rewrite H2. simpl. tauto.
Qed.
End Collect.

Lemma coverage_values_sorted (g : grouped) :
  let coverage_values :=
    list_sort (BenchmarkPlotter.collect_coverage_values g) in
  StronglySorted Z.lt coverage_values
  /\ forall c,
      In c coverage_values <->
      exists name gens gen,
        In (name, gens) g /\ In gen gens /\ stop_coverage gen = c.
Proof.
  cbv zeta. destruct (collect_coverage_values_spec g) as [Hnd Hin]. split.
  - apply sorted_NoDup_strict; [apply list_sort_sorted |].
    eapply Permutation_NoDup; [| exact Hnd].
    symmetry. apply list_sort_perm.
  - intros c. rewrite <- Hin. split; apply Permutation_in.
    + apply list_sort_perm.
    + symmetry. apply list_sort_perm.
Qed.

(** ** [create_plots] returns on renderable inputs *)

Lemma plot_lines_total ax (g : grouped) (h : BenchmarkGenerator -> Q) :
  g <> [] ->
  exists ax',
    BenchmarkPlotter._plot_lines ax g (fun generator => Ok (h generator))
    = Ok ax'.
Proof.
  intros Hg. unfold BenchmarkPlotter._plot_lines.
  assert (Hloop : forall groups a,
             exists a',
               BenchmarkPlotter._plot_lines_loop
                 (fun generator => Ok (h generator)) groups a = Ok a').
  { induction groups as [| [name gens] rest IH]; simpl; intros a; [eauto |].
    rewrite (comprehension_map _ h) by reflexivity. simpl. apply IH. }
  destruct (Hloop g ax) as (ax1 & ->). simpl.
  destruct g as [| [name gens] g]; [congruence |]. simpl. eauto.
Qed.

Lemma inject_Z_nonzero z : z <> 0%Z -> ~ (inject_Z z == 0)%Q.
Proof. intros Hz H. unfold Qeq in H. simpl in H. lia. Qed.

Ltac chart_total :=
  lazymatch goal with
  | |- exists ax, ?f _ _ = Ok ax => unfold f
  end;
  first
    [ apply plot_lines_total; assumption
    | apply plot_bars_total; [assumption | assumption |];
      let name := fresh "name" in
      let gens := fresh "gens" in
      let gen := fresh "gen" in
      intros name gens gen ? ?;
      first
        [ eexists; reflexivity
        | eexists; apply py_truediv_nonzero; eauto
        | simpl; rewrite py_truediv_nonzero
            by (apply inject_Z_nonzero; assumption);
          simpl; eexists; reflexivity ] ].

Lemma general_charts_total (b : Benchmark) (g : grouped) :
  g <> [] ->
  (forall name gens, In (name, gens) g -> gens <> []) ->
  (forall name gens gen,
      In (name, gens) g -> In gen gens ->
      ~ (average_generation_time gen == 0)%Q) ->
  vertices (model (report b)) <> 0%Z ->
  edges (model (report b)) <> 0%Z ->
  forall name f,
    In (name, f) BenchmarkPlotter.get_plot_functions ->
    exists ax, f (Some b) g = Ok ax.
Proof.
  intros Hg Hbuckets Htime Hv He name f Hin. simpl in Hin.
  repeat (destruct Hin as [Hin | Hin];
          [injection Hin as <- <-; chart_total |]).
  destruct Hin.
Qed.

Lemma general_plots_total cls g fns plots :
  (forall name f, In (name, f) fns -> exists ax, f cls g = Ok ax) ->
  exists plots', BenchmarkPlotter.general_plots cls g fns plots = Ok plots'.
Proof.
  revert plots. induction fns as [| [name f] fns IH]; simpl; intros plots H.
  - eauto.
  - destruct (H name f) as (ax & ->); [auto |]. simpl. apply IH.
    intros name' f' Hin. apply (H name' f'). auto.
Qed.

Lemma dict_mem_In {V : Type} k (d : list (string * V)) :
  dict_mem k d = true <-> In k (dict_keys d).
Proof. apply name_in_In. Qed.

Lemma dict_set_nonempty {V : Type} k (v : V) d : dict_set k v d <> [].
Proof.
  destruct d as [| [k' v'] d]; simpl; [discriminate |].
  destruct (String.eqb k k'); discriminate.
Qed.

Lemma dict_append_nonempty k x d :
  d <> [] -> BenchmarkPlotter.dict_append k x d <> [].
Proof.
  intros Hd. unfold BenchmarkPlotter.dict_append.
  destruct (dict_get k d); [apply dict_set_nonempty | assumption].
Qed.

Lemma group_run_groups_nonempty (b : Benchmark) (g : grouped) :
  (exists run_group,
      In run_group (run_groups_sorted b)
      /\ In (algorithm run_group) (dict_keys g)) ->
  BenchmarkPlotter.group_run_groups b g <> [].
Proof.
  unfold BenchmarkPlotter.group_run_groups.
  generalize (@nil (string * list RunGroup)) at 1.
  intros acc (rg & Hin & Hkey). revert acc.
  assert (Hkeep : forall rgs acc,
             acc <> [] ->
             fold_left
               (fun grouped_run_groups run_group =>
                  if negb (dict_mem (algorithm run_group) g)
                  then grouped_run_groups
                  else
                    let grouped_run_groups0 :=
                      if negb (dict_mem (algorithm run_group)
                                 grouped_run_groups)
                      then dict_set (algorithm run_group) []
                             grouped_run_groups
                      else grouped_run_groups in
                    BenchmarkPlotter.dict_append (algorithm run_group)
                      run_group grouped_run_groups0) rgs acc <> []).
  { induction rgs as [| r rgs IH]; simpl; intros acc Hacc; [assumption |].
    apply IH. destruct (dict_mem (algorithm r) g); simpl; [| assumption].
    apply dict_append_nonempty.
    destruct (dict_mem (algorithm r) acc); simpl;
      [assumption | apply dict_set_nonempty]. }
  induction (run_groups_sorted b) as [| r rgs IH]; simpl; intros acc.
  - destruct Hin.
  - destruct Hin as [-> | Hin]; [| now apply IH].
    apply Hkeep. apply dict_mem_In in Hkey. rewrite Hkey. simpl.
    apply dict_append_nonempty.
    destruct (dict_mem (algorithm rg) acc) eqn:E; simpl.
    + intros ->. discriminate.
    + apply dict_set_nonempty.
Qed.

Lemma dict_set_In {V : Type} k (v : V) d k' v' :
  In (k', v') (dict_set k v d) -> (k' = k /\ v' = v) \/ In (k', v') d.
Proof.
  induction d as [| [k0 v0] d IH]; simpl.
  - intros [[= <- <-] | []]. auto.
  - destruct (String.eqb k k0).
    + intros [[= <- <-] | H]; auto.
    + intros [H | H]; [auto |]. destruct (IH H); auto.
Qed.

Lemma dict_get_last {V : Type} k (v : V) d :
  ~ In k (dict_keys d) -> dict_get k (d ++ [(k, v)]) = Some v.
Proof.
  induction d as [| [k' v'] d IH]; simpl; intros H.
  - now rewrite String.eqb_refl.
  - destruct (String.eqb_spec k k') as [-> | Hne]; [tauto |].
    apply IH. tauto.
Qed.

Lemma dict_set_last {V : Type} k (v v0 : V) d :
  ~ In k (dict_keys d) -> dict_set k v (d ++ [(k, v0)]) = d ++ [(k, v)].
Proof.
  induction d as [| [k' v'] d IH]; simpl; intros H.
  - now rewrite String.eqb_refl.
  - destruct (String.eqb_spec k k') as [-> | Hne]; [tauto |].
    f_equal. apply IH. tauto.
Qed.

(** No bucket of [group_run_groups] is empty. *)
Lemma group_run_groups_bucket_nonempty (b : Benchmark) (g : grouped) alg rgs :
  In (alg, rgs) (BenchmarkPlotter.group_run_groups b g) -> rgs <> [].
Proof.
  unfold BenchmarkPlotter.group_run_groups.
  assert (Hinv : forall l acc,
             (forall k v, In (k, v) acc -> v <> []) ->
             forall k v,
               In (k, v)
                 (fold_left
                    (fun grouped_run_groups run_group =>
                       if negb (dict_mem (algorithm run_group) g)
                       then grouped_run_groups
                       else
                         let grouped_run_groups0 :=
                           if negb (dict_mem (algorithm run_group)
                                      grouped_run_groups)
                           then dict_set (algorithm run_group) []
                                  grouped_run_groups
                           else grouped_run_groups in
                         BenchmarkPlotter.dict_append (algorithm run_group)
                           run_group grouped_run_groups0) l acc) ->
               v <> []).
  { induction l as [| r l IH]; simpl; intros acc Hacc; [exact Hacc |].
    apply IH. destruct (dict_mem (algorithm r) g); simpl; [| exact Hacc].
    unfold BenchmarkPlotter.dict_append.
    destruct (dict_mem (algorithm r) acc) eqn:Hmem; simpl.
    - destruct (dict_get (algorithm r) acc) as [bucket |]; [| exact Hacc].
      intros k v Hin. apply dict_set_In in Hin as [[_ ->] | Hin]; [| eauto].
      now destruct bucket.
    - assert (Hfresh : ~ In (algorithm r) (dict_keys acc)).
      { intros H. apply dict_mem_In in H. congruence. }
      rewrite (dict_set_fresh_app _ _ _ Hfresh), (dict_get_last _ _ _ Hfresh),
        (dict_set_last _ _ _ _ Hfresh).
      intros k v Hin. apply in_app_or in Hin as [Hin | [[= _ <-] | []]];
        [eauto | discriminate]. }
  apply Hinv. intros k v [].
Qed.

Lemma plot_bars_tests_total ax (b : Benchmark) (g : grouped)
  (h : RunGroup -> Q) :
  g <> [] ->
  BenchmarkPlotter.group_run_groups b g <> [] ->
  exists ax',
    BenchmarkPlotter._plot_bars_tests ax b g (fun run_group => Ok (h run_group))
      true = Ok ax'.
Proof.
  intros Hg Hgroups. unfold BenchmarkPlotter._plot_bars_tests.
  rewrite py_truediv_nonzero by now apply group_count_nonzero. simpl.
  assert (Hloop : forall bw groups i a,
             (forall alg rgs, In (alg, rgs) groups -> rgs <> []) ->
             exists a',
               BenchmarkPlotter._plot_bars_tests_loop
                 (fun run_group => Ok (h run_group)) true bw i groups a
               = Ok a').
  { induction groups as [| [alg rgs] rest IH]; simpl; intros i a Hne;
      [eauto |].
    rewrite (comprehension_map _ h) by reflexivity. simpl.
    rewrite plot_trend_line_nonempty.
    - simpl. apply IH. intros alg' rgs' Hin. apply (Hne alg'). auto.
    - assert (rgs <> []) by (apply (Hne alg); auto). now destruct rgs. }
  destruct (Hloop (6 / inject_Z (Z.of_nat (length g)))%Q
              (BenchmarkPlotter.group_run_groups b g) 0%nat ax) as (ax1 & ->).
  { intros alg rgs. apply group_run_groups_bucket_nonempty. }
  simpl. destruct (BenchmarkPlotter.group_run_groups b g) as [| [alg rgs] r];
    [congruence |]. simpl. eauto.
Qed.

Lemma test_execution_plots_total cls (b : Benchmark) (g : grouped) plots :
  g <> [] ->
  BenchmarkPlotter.group_run_groups b g <> [] ->
  exists plots',
    BenchmarkPlotter.test_execution_plots cls b g
      BenchmarkPlotter.get_test_execution_plot_functions plots = Ok plots'.
Proof.
  intros Hg Hgroups. simpl.
  unfold BenchmarkPlotter.plot_average_test_execution_time,
    BenchmarkPlotter.plot_minimum_test_execution_time,
    BenchmarkPlotter.plot_maximum_test_execution_time.
  repeat match goal with
         | |- context [BenchmarkPlotter._plot_bars_tests ?a b g
                         (fun run_group => Ok (?h run_group)) true] =>
             let ax' := fresh "ax" in
             let E := fresh "E" in
             destruct (plot_bars_tests_total a b g h Hg Hgroups)
               as (ax' & E);
             rewrite E; simpl
         end.
  eauto.
Qed.

Lemma insert_by_value_desc_perm x l :
  Permutation (insert_by_value_desc x l) (x :: l).
Proof.
  induction l as [| y l IH]; simpl; [reflexivity |].
  destruct (Qle_bool (snd y) (snd x)); [reflexivity |].
  rewrite IH. apply perm_swap.
Qed.

Lemma sorted_by_value_desc_perm l : Permutation (sorted_by_value_desc l) l.
Proof.
  induction l as [| x l IH]; simpl; [reflexivity |].
  rewrite insert_by_value_desc_perm. now constructor.
Qed.

Lemma plot_hist_Ok x weights bins label ax ax1 :
  plot_hist x weights bins label ax = Ok ax1 ->
  bins <> 0%nat /\ ax1 = draw (Hist x weights bins label) ax.
Proof.
  destruct bins; simpl; [discriminate |]. intros [= <-]. now split.
Qed.

Lemma plot_histogram_generator_total property_lambda c name ax gen :
  ((stop_coverage gen =? c)%Z = true -> property_lambda gen <> []) ->
  exists ax1,
    BenchmarkPlotter._plot_histogram_generator property_lambda c name ax gen
    = Ok ax1.
Proof.
  intros H. unfold BenchmarkPlotter._plot_histogram_generator.
  destruct (stop_coverage gen =? c)%Z; simpl; [| eauto].
  rewrite length_map,
    (Permutation_length (sorted_by_value_desc_perm (property_lambda gen))).
  destruct (property_lambda gen) as [| item items] eqn:E.
  - now destruct H.
  - simpl. eauto.
Qed.

Lemma plot_histogram_total ax (g : grouped) property_lambda c :
  (forall name gens gen,
      In (name, gens) g -> In gen gens -> (stop_coverage gen =? c)%Z = true ->
      property_lambda gen <> []) ->
  exists ax',
    BenchmarkPlotter._plot_histogram ax g property_lambda c = Ok ax'.
Proof.
  intros H. unfold BenchmarkPlotter._plot_histogram.
  assert (Hinner : forall name gens a,
             (forall gen, In gen gens -> (stop_coverage gen =? c)%Z = true ->
                          property_lambda gen <> []) ->
             exists a',
               BenchmarkPlotter._plot_histogram_generators property_lambda c
                 name gens a = Ok a').
  { intros name gens. induction gens as [| gen gens IH]; simpl; intros a Hg;
      [eauto |].
    destruct (plot_histogram_generator_total property_lambda c name a gen)
      as (a1 & ->); [apply Hg; auto |].
    simpl. apply IH. intros gen' Hin. apply Hg. auto. }
  assert (Houter : forall groups a,
             (forall name gens gen,
                 In (name, gens) groups -> In gen gens ->
                 (stop_coverage gen =? c)%Z = true ->
                 property_lambda gen <> []) ->
             exists a',
               BenchmarkPlotter._plot_histogram_groups property_lambda c
                 groups a = Ok a').
  { induction groups as [| [name gens] groups IH]; simpl; intros a Hg;
      [eauto |].
    destruct (Hinner name gens a) as (a1 & ->).
    { intros gen Hin. apply (Hg name gens gen); auto. }
    simpl. apply IH. intros n gs gen H1 H2. apply (Hg n gs gen); auto. }
  destruct (Houter g ax H) as (ax1 & ->). simpl. eauto.
Qed.

Lemma per_coverage_plots_total cls (g : grouped) covs plots :
  (forall name gens gen,
      In (name, gens) g -> In gen gens ->
      total_vertex_visits_individual gen <> []
      /\ total_edge_visits_individual gen <> []
      /\ average_vertex_visits_individual gen <> []
      /\ average_edge_visits_individual gen <> []) ->
  exists plots',
    BenchmarkPlotter.per_coverage_plots cls g
      BenchmarkPlotter.get_per_coverage_plot_functions covs plots = Ok plots'.
Proof.
  intros Hvisits.
  assert (Hof : forall name f,
             (forall c, exists ax, f cls g c = Ok ax) ->
             forall cs ps,
             exists ps',
               BenchmarkPlotter.per_coverage_plots_of cls g name f cs ps
               = Ok ps').
  { intros name f Hf. induction cs as [| c cs IH]; simpl; intros ps; [eauto |].
    destruct (Hf c) as (ax & ->). simpl. apply IH. }
  assert (Hcharts : forall name f,
             In (name, f) BenchmarkPlotter.get_per_coverage_plot_functions ->
             forall c, exists ax, f cls g c = Ok ax).
  { intros name f Hin c. simpl in Hin.
    repeat (destruct Hin as [Hin | Hin];
            [injection Hin as <- <-;
             lazymatch goal with
             | |- exists ax, ?h _ _ _ = Ok ax => unfold h
             end;
             apply plot_histogram_total;
             intros n gs gen H1 H2 _; apply (Hvisits n gs gen H1 H2) |]).
    destruct Hin. }
  revert Hcharts.
  generalize BenchmarkPlotter.get_per_coverage_plot_functions as fns.
  intros fns. revert plots.
  induction fns as [| [name f] fns IH]; simpl; intros plots Hcharts; [eauto |].
  destruct (Hof name f (Hcharts name f (or_introl eq_refl)) covs plots)
    as (ps & ->).
  simpl. apply IH. intros n h Hin. apply (Hcharts n h). auto.
Qed.

Lemma create_plots_total (b : Benchmark) (g : grouped) show w :
  renderable b g ->
  exists plots, snd (BenchmarkPlotter.create_plots b g show w) = Ok plots.
Proof.
  intros (Hg & Hbuckets & Htime & Hvisits & Hv & He & Hruns).
  unfold BenchmarkPlotter.create_plots. cbn [snd plotter_benchmark
    set_plotter_benchmark].
  destruct (general_plots_total (Some b) g BenchmarkPlotter.get_plot_functions
              [] (general_charts_total b g Hg Hbuckets Htime Hv He))
    as (plots1 & ->).
  cbn [bind].
  destruct (forallb successful_runs (run_groups b)) eqn:Hall.
  - destruct (test_execution_plots_total (Some b) b g plots1 Hg
                (group_run_groups_nonempty b g (Hruns eq_refl)))
      as (plots2 & ->).
    cbn [bind]. now apply per_coverage_plots_total.
  - cbn [bind]. now apply per_coverage_plots_total.
Qed.

Lemma per_coverage_names_NoDup :
  List.NoDup (map fst BenchmarkPlotter.get_per_coverage_plot_functions).
Proof.
  apply NoDup_ListNoDup. apply (bool_decide_unpack _). vm_compute.
  reflexivity.
Qed.

Lemma inserted_keys_NoDup (fixed : list string) (covs : list Z) :
  List.NoDup fixed ->
  incl fixed
    (map fst BenchmarkPlotter.get_plot_functions
     ++ map fst BenchmarkPlotter.get_test_execution_plot_functions) ->
  List.NoDup covs ->
  List.NoDup
    (fixed
     ++ flat_map (fun name => map (BenchmarkPlotter.per_coverage_key name) covs)
          (map fst BenchmarkPlotter.get_per_coverage_plot_functions)).
Proof.
  intros Hfixed Hincl Hcovs. apply List.NoDup_app.
  - assumption.
  - apply per_coverage_keys_NoDup; auto using per_coverage_names_NoDup.
  - intros k Hk Hk'. apply in_flat_map in Hk' as (name & Hname & Hk').
    apply in_map_iff in Hk' as (c & <- & _).
    apply (per_coverage_key_not_catalogue name c Hname). auto.
Qed.

(** The keys of the mapping returned by [create_plots], in order. *)
Lemma create_plots_keys (b : Benchmark) (g : grouped) show w plots :
  snd (BenchmarkPlotter.create_plots b g show w) = Ok plots ->
  dict_keys plots
  = (map fst BenchmarkPlotter.get_plot_functions
     ++ (if forallb successful_runs (run_groups b)
         then map fst BenchmarkPlotter.get_test_execution_plot_functions
         else []))
    ++ flat_map
         (fun name =>
            map (BenchmarkPlotter.per_coverage_key name)
              (list_sort (BenchmarkPlotter.collect_coverage_values g)))
         (map fst BenchmarkPlotter.get_per_coverage_plot_functions).
Proof.
  unfold BenchmarkPlotter.create_plots.
  cbn [snd plotter_benchmark set_plotter_benchmark]. intros H.
  apply bind_Ok_inv in H as (plots1 & H1 & H).
  apply bind_Ok_inv in H as (plots2 & H2 & H).
  pose proof catalogue_names_NoDup as Hcat.
  apply general_plots_keys in H1;
    [| now apply NoDup_app_remove_r in Hcat].
  simpl dict_keys in H1 at 2. rewrite app_nil_l in H1.
  assert (Hcovs : List.NoDup
                    (list_sort (BenchmarkPlotter.collect_coverage_values g))).
  { eapply Permutation_NoDup; [symmetry; apply list_sort_perm |].
    apply collect_coverage_values_spec. }
  destruct (forallb successful_runs (run_groups b)).
  - apply test_execution_plots_keys in H2; rewrite H1 in *; [| exact Hcat].
    apply per_coverage_plots_keys in H; rewrite H2 in *; [exact H |].
    apply inserted_keys_NoDup; [exact Hcat | apply incl_refl | exact Hcovs].
  - injection H2 as <-.
    apply per_coverage_plots_keys in H; rewrite H1 in *.
    + now rewrite app_nil_r.
    + apply inserted_keys_NoDup; [| | exact Hcovs].
      * now apply NoDup_app_remove_r in Hcat.
      * apply incl_appl, incl_refl.
Qed.

(** Under each histogram key the returned mapping holds the image of the
    figure the chart function drew for that coverage value. *)
Lemma create_plots_histograms (b : Benchmark) (g : grouped) show w plots :
  snd (BenchmarkPlotter.create_plots b g show w) = Ok plots ->
  forall name f c,
    In (name, f) BenchmarkPlotter.get_per_coverage_plot_functions ->
    In c (list_sort (BenchmarkPlotter.collect_coverage_values g)) ->
    exists current,
      f (Some b) g c = Ok current
      /\ dict_get (BenchmarkPlotter.per_coverage_key name c) plots
         = Some (BenchmarkPlotter.save_plot_bytesio current).
Proof.
  intros Hplots name f c Hf Hc.
  pose proof (create_plots_keys _ _ _ _ _ Hplots) as Hkeys.
  assert (Hcovs : List.NoDup
                    (list_sort (BenchmarkPlotter.collect_coverage_values g))).
  { eapply Permutation_NoDup; [symmetry; apply list_sort_perm |].
    apply collect_coverage_values_spec. }
  pose proof catalogue_names_NoDup as Hcat.
  assert (Hnd : List.NoDup (dict_keys plots)).
  { rewrite Hkeys. apply inserted_keys_NoDup; [| | exact Hcovs];
      destruct (forallb successful_runs (run_groups b));
      rewrite ?app_nil_r;
      [ exact Hcat | now apply NoDup_app_remove_r in Hcat
      | apply incl_refl | apply incl_appl, incl_refl ]. }
  revert Hplots. unfold BenchmarkPlotter.create_plots.
  cbn [snd plotter_benchmark set_plotter_benchmark]. intros H.
  apply bind_Ok_inv in H as (plots1 & H1 & H).
  apply bind_Ok_inv in H as (plots2 & H2 & H).
  assert (Hnd2 : List.NoDup
                   (dict_keys plots2
                    ++ flat_map
                         (fun name =>
                            map (BenchmarkPlotter.per_coverage_key name)
                              (list_sort
                                 (BenchmarkPlotter.collect_coverage_values g)))
                         (map fst
                            BenchmarkPlotter.get_per_coverage_plot_functions))).
  { apply general_plots_keys in H1;
      [| now apply NoDup_app_remove_r in Hcat].
    simpl dict_keys in H1 at 2. rewrite app_nil_l in H1.
    destruct (forallb successful_runs (run_groups b)).
    - apply test_execution_plots_keys in H2; rewrite H1 in *;
        [| exact Hcat].
      rewrite H2. apply inserted_keys_NoDup;
        [exact Hcat | apply incl_refl | exact Hcovs].
    - injection H2 as <-. rewrite H1. apply inserted_keys_NoDup;
        [now apply NoDup_app_remove_r in Hcat
        | apply incl_appl, incl_refl | exact Hcovs]. }
  destruct (per_coverage_plots_entries _ _ _ _ _ _ H Hnd2) as [_ Hnew].
  destruct (Hnew name f c Hf Hc) as (current & Hcurrent & Hentry).
  exists current. split; [exact Hcurrent |].
  now apply dict_get_of_In.
Qed.

Lemma renderable_sample :
  renderable Samples.sample_benchmark Samples.two_generators.
Proof.
  split; [discriminate |]. split; [exact sample_buckets_nonempty |].
  split; [| split; [| split; [discriminate | split; [discriminate |]]]].
  - intros name gens gen H1 H2. simpl in H1.
    destruct H1 as [[= <- <-] | [[= <- <-] | []]];
      simpl in H2; destruct H2 as [<- | [<- | []]]; vm_compute; discriminate.
  - intros name gens gen H1 H2. simpl in H1.
    destruct H1 as [[= <- <-] | [[= <- <-] | []]];
      simpl in H2; destruct H2 as [<- | [<- | []]];
      repeat split; discriminate.
  - intros _. exists (Samples.run_group "Random" 50 true). simpl. auto.
Qed.

(** ** The produced plot mapping *)





(** C5 (as the code behaves).  [create_plots] returns a mapping on every
    renderable input, and whenever it returns one:
    - the coverage values it iterates are strictly ascending and are
      exactly the stop-coverage values occurring in the grouped mapping;
    - the keys of the mapping are the general chart names, then the
      test-execution chart names if every run group succeeded, then, for
      each histogram chart in catalogue order and each coverage value in
      ascending order, the chart name followed by " - <coverage>%";
    - no key occurs twice, so each histogram chart is there exactly once
      per distinct coverage value;
    - under the key of a histogram chart and a coverage value the mapping
      holds the saved image of the figure that chart function draws for
      the grouped mapping and that coverage value. *)
Theorem per_coverage_charts_once_per_value
  (b : Benchmark) (g : grouped) (show : bool) (w : world) :
  (renderable b g ->
   exists plots, snd (BenchmarkPlotter.create_plots b g show w) = Ok plots)
  /\ (forall plots,
         snd (BenchmarkPlotter.create_plots b g show w) = Ok plots ->
         exists coverage_values,
           StronglySorted Z.lt coverage_values
           /\ (forall c,
                  In c coverage_values <->
                  exists name gens gen,
                    In (name, gens) g /\ In gen gens
                    /\ stop_coverage gen = c)
           /\ dict_keys plots
              = (map fst BenchmarkPlotter.get_plot_functions
                 ++ (if forallb successful_runs (run_groups b)
                     then map fst
                            BenchmarkPlotter.get_test_execution_plot_functions
                     else []))
                ++ flat_map
                     (fun chart =>
                        map (fun c => chart +:+ " - " +:+ py_str c +:+ "%")
                          coverage_values)
                     ["Histogram Total Visited Vertices";
                      "Histogram Total Visited Edges";
                      "Histogram Average Visited Vertices";
                      "Histogram Average Visited Edges"]
           /\ List.NoDup (dict_keys plots)
           /\ (forall chart plot_function c,
                  In (chart, plot_function)
                    BenchmarkPlotter.get_per_coverage_plot_functions ->
                  In c coverage_values ->
                  exists current,
                    plot_function (Some b) g c = Ok current
                    /\ dict_get (chart +:+ " - " +:+ py_str c +:+ "%") plots
                       = Some (BenchmarkPlotter.save_plot_bytesio current))).
Proof.
  split; [apply create_plots_total |].
  intros plots Hplots. pose proof (create_plots_keys _ _ _ _ _ Hplots) as H.
  exists (list_sort (BenchmarkPlotter.collect_coverage_values g)).
  destruct (coverage_values_sorted g) as [Hsorted Hin].
  split; [exact Hsorted |]. split; [exact Hin |]. split; [exact H |].
  split; [| exact (create_plots_histograms _ _ _ _ _ Hplots)].
  rewrite H. apply inserted_keys_NoDup.
  - pose proof catalogue_names_NoDup as Hcat.
    destruct (forallb successful_runs (run_groups b)); [exact Hcat |].
    rewrite app_nil_r. now apply NoDup_app_remove_r in Hcat.
  - destruct (forallb successful_runs (run_groups b)); [apply incl_refl |].
    rewrite app_nil_r. apply incl_appl, incl_refl.
  - eapply Permutation_NoDup; [symmetry; apply list_sort_perm |].
    apply collect_coverage_values_spec.
Qed.

(** On the sample benchmark the histogram keys are those of the coverage
    values 50 and 100, in that order, for each of the four charts, and the
    image under "Histogram Total Visited Edges - 100%" shows the two
    histograms of the buckets at stop-coverage 100. *)
Lemma per_coverage_charts_once_per_value_witness :
  exists plots,
    snd (BenchmarkPlotter.create_plots Samples.sample_benchmark
           Samples.two_generators false Samples.empty_world) = Ok plots
    /\ skipn 19 (dict_keys plots)
       = ["Histogram Total Visited Vertices - 50%";
          "Histogram Total Visited Vertices - 100%";
          "Histogram Total Visited Edges - 50%";
          "Histogram Total Visited Edges - 100%";
          "Histogram Average Visited Vertices - 50%";
          "Histogram Average Visited Vertices - 100%";
          "Histogram Average Visited Edges - 50%";
          "Histogram Average Visited Edges - 100%"]
    /\ option_map (fun saved => histograms (figure saved))
         (dict_get "Histogram Total Visited Edges - 100%" plots)
       = Some [(["e1"; "e2"], [2%Z; 0%Z], 2%nat, "Random");
               (["e1"; "e2"], [2%Z; 0%Z], 2%nat, "Weighted")].
Proof.
  destruct (proj1 (per_coverage_charts_once_per_value
                     Samples.sample_benchmark Samples.two_generators false
                     Samples.empty_world) renderable_sample)
    as (plots & Hplots).
  destruct (proj2 (per_coverage_charts_once_per_value
                     Samples.sample_benchmark Samples.two_generators false
                     Samples.empty_world) plots Hplots)
    as (coverage_values & _ & Hcovs & Hkeys & _ & Himages).
  exists plots. split; [exact Hplots |].
  destruct (Himages "Histogram Total Visited Edges"
              BenchmarkPlotter.plot_histogram_total_visited_edges 100%Z)
    as (current & Hcurrent & Hget).
  { simpl. auto. }
  { apply Hcovs.
    exists "Random", [Samples.bucket 50 15 30; Samples.bucket 100 20 40],
      (Samples.bucket 100 20 40).
    simpl. auto. }
  split.
  - vm_compute in Hplots. injection Hplots as <-. reflexivity.
  - change ("Histogram Total Visited Edges" +:+ " - " +:+ py_str 100 +:+ "%")
      with "Histogram Total Visited Edges - 100%" in Hget.
    rewrite Hget. vm_compute in Hcurrent. injection Hcurrent as <-.
    reflexivity.
Defined.

(** C5 as stated fails: in the grouped mapping whose only bucket, at
    stop-coverage 50, has empty visit mappings, the stop-coverage value 50
    occurs, and [create_plots] on the sample benchmark produces no
    histogram chart for it: drawing the first histogram with zero bins
    ends the call in [ValueError]. *)
Lemma per_coverage_charts_missing_without_visits :
  (exists name gens gen,
      In (name, gens)
        [("Random", [Samples.bucket_without_visits 50 15 30])]
      /\ In gen gens /\ stop_coverage gen = 50%Z)
  /\ snd (BenchmarkPlotter.create_plots Samples.sample_benchmark
            [("Random", [Samples.bucket_without_visits 50 15 30])]
            false Samples.empty_world)
     = Raise (ValueError "`bins` must be positive, when an integer").
Proof.
  split.
  - exists "Random", [Samples.bucket_without_visits 50 15 30],
      (Samples.bucket_without_visits 50 15 30).
    simpl. auto.
  - vm_compute. reflexivity.
Qed.

(* ================================================================== *)
(** * Part III: further properties of the embedded code               *)
(* ================================================================== *)

(** ** The run loader: a test-results file that exists *)

(** X1.  The test-results file is optional only in that it may be absent:
    once the path and report files are loaded, a test-results file that
    exists is read and parsed like the other two.  Parseable content becomes
    the run's [test_results]; unparseable content raises the decoder's
    error; a directory of that name raises [IsADirectoryError]. *)
Theorem from_files_existing_test_results
  (json_parse : string -> option json) (fs : gmap path node)
  (path_file report_file test_results_file : path) sp sr jp jr :
  fs !! path_file = Some (File sp) -> json_parse sp = Some jp ->
  fs !! report_file = Some (File sr) -> json_parse sr = Some jr ->
  let from_files :=
    BenchmarkRun.from_files json_parse fs path_file report_file
      test_results_file in
  (forall st jt,
      fs !! test_results_file = Some (File st) -> json_parse st = Some jt ->
      from_files =
        Ok {| BenchmarkRun.path := jp; BenchmarkRun.report := jr;
              BenchmarkRun.test_results := jt |})
  /\ (forall st,
        fs !! test_results_file = Some (File st) -> json_parse st = None ->
        from_files = Raise JSONDecodeError)
  /\ (fs !! test_results_file = Some Dir ->
      from_files = Raise (IsADirectoryError test_results_file)).
Proof.
  intros Hp Hjp Hr Hjr. cbv zeta. unfold_loader.
  rewrite Hp; simpl; rewrite Hjp; simpl.
  rewrite Hr; simpl; rewrite Hjr; simpl.
  split; [| split].
  - intros st jt Ht Hjt. rewrite Ht; simpl. now rewrite Hjt.
  - intros st Ht Hjt. rewrite Ht; simpl. now rewrite Hjt.
  - intros Ht. now rewrite Ht.
Qed.

(** The sample run directory with a [test_results.json] that is not JSON:
    loading the run fails. *)
Lemma from_files_existing_test_results_witness :
  BenchmarkRun.from_files Samples.parse_literal
    (<[ ["run"; "test_results.json"] := File "oops" ]> Samples.run_directory)
    ["run"; "path.json"] ["run"; "report.json"] ["run"; "test_results.json"]
  = Raise JSONDecodeError.
Proof.
  refine (proj1 (proj2 (from_files_existing_test_results Samples.parse_literal
                          (<[ ["run"; "test_results.json"] := File "oops" ]>
                             Samples.run_directory)
                          ["run"; "path.json"] ["run"; "report.json"]
                          ["run"; "test_results.json"]
                          "[]" "{}" (JArr []) (JObj []) _ _ _ _)) "oops" _ _);
    vm_compute; reflexivity.
Defined.

(** ** The report factory: what the HTML and PDF paths do *)

Lemma make_parents_only_adds_dirs target done todo fs fs' :
  make_parents target done todo fs = Ok fs' ->
  forall q, fs' !! q = fs !! q \/ (fs !! q = None /\ fs' !! q = Some Dir).
Proof.
  revert done fs. induction todo as [| c todo IH]; simpl; intros done fs H q.
  - injection H as <-. now left.
  - destruct (fs !! (done ++ [c])) as [[content |] |] eqn:E.
    + discriminate.
    + eapply IH; eauto.
    + destruct (IH _ _ H q) as [Hq | [Hq1 Hq2]].
      * destruct (decide (done ++ [c] = q)) as [<- | Hne].
        -- rewrite lookup_insert_eq in Hq. right. now split.
        -- rewrite lookup_insert_ne in Hq by assumption. now left.
      * destruct (decide (done ++ [c] = q)) as [<- | Hne].
        -- rewrite lookup_insert_eq in Hq1. discriminate.
        -- rewrite lookup_insert_ne in Hq1 by assumption. right. now split.
Qed.

Lemma make_parents_dirs target done todo fs fs' :
  make_parents target done todo fs = Ok fs' ->
  forall k, (0 < k <= length todo)%nat ->
            fs' !! (done ++ firstn k todo) = Some Dir.
Proof.
  revert done fs. induction todo as [| c todo IH]; simpl; intros done fs H k Hk.
  - lia.
  - destruct k as [| k]; [lia |]. simpl.
    replace (done ++ c :: firstn k todo) with ((done ++ [c]) ++ firstn k todo)
      by now rewrite <- app_assoc.
    destruct (fs !! (done ++ [c])) as [[content |] |] eqn:E;
      try discriminate.
    + destruct k as [| k].
      * simpl. rewrite app_nil_r.
        destruct (make_parents_only_adds_dirs _ _ _ _ _ H (done ++ [c]))
          as [Hq | [Hq _]]; congruence.
      * apply (IH _ _ H). lia.
    + destruct k as [| k].
      * simpl. rewrite app_nil_r.
        destruct (make_parents_only_adds_dirs _ _ _ _ _ H (done ++ [c]))
          as [Hq | [Hq _]].
        -- now rewrite Hq, lookup_insert_eq.
        -- rewrite lookup_insert_eq in Hq. discriminate.
      * apply (IH _ _ H). lia.
Qed.

Lemma make_parents_all_dirs (target done : path) (todo : list string)
  (fs : gmap path node) :
  (forall k, (0 < k <= length todo)%nat ->
             fs !! (done ++ firstn k todo) = Some Dir) ->
  make_parents target done todo fs = Ok fs.
Proof.
  revert done. induction todo as [| c todo IH]; simpl; intros done H.
  - reflexivity.
  - assert (H1 : fs !! (done ++ [c]) = Some Dir)
      by (apply (H 1%nat); simpl; lia).
    rewrite H1. apply IH.
    intros k Hk. rewrite <- app_assoc. apply (H (S k)). simpl. lia.
Qed.

Lemma mkdir_effect p exist_ok w w' r :
  mkdir p exist_ok w = (w', r) ->
  plotter_benchmark w' = plotter_benchmark w
  /\ stdout w' = stdout w /\ stdin w' = stdin w
  /\ forall q,
      files w' !! q = files w !! q
      \/ (files w !! q = None /\ files w' !! q = Some Dir).
Proof.
  unfold mkdir. destruct (refused p); [intros [= <- _]; auto |].
  unfold make_directory.
  destruct (make_parents p [] (removelast p) (files w)) as [fs | e] eqn:E.
  - pose proof (make_parents_only_adds_dirs _ _ _ _ _ E) as Hfs.
    destruct p as [| c p'].
    + destruct exist_ok; intros [= <- _]; auto.
    + destruct (fs !! (c :: p')) as [[content |] |] eqn:Hp.
      * intros [= <- _]. auto.
      * destruct exist_ok; intros [= <- _]; simpl; auto.
      * intros [= <- _]. simpl. repeat split. intros q.
        destruct (decide (c :: p' = q)) as [<- | Hne].
        -- rewrite lookup_insert_eq. right. split; [| reflexivity].
           destruct (Hfs (c :: p')) as [Hq | [Hq _]]; congruence.
        -- rewrite lookup_insert_ne by assumption. apply Hfs.
  - intros [= <- _]. auto.
Qed.

Lemma mkdir_rerun (p : path) (w w1 : world) :
  p <> [] ->
  mkdir p false w = (w1, Ok tt) ->
  files w1 !! p = Some Dir
  /\ mkdir p false w1 = (w1, Raise (FileExistsError p)).
Proof.
  intros Hp. destruct p as [| c p']; [congruence |].
  unfold mkdir. destruct (refused (c :: p')); [discriminate |].
  unfold make_directory. set (parent := removelast (c :: p')).
  destruct (make_parents (c :: p') [] parent (files w)) as [fs | e] eqn:E;
    [| discriminate].
  destruct (fs !! (c :: p')) as [[content |] |] eqn:Hlook; try discriminate.
  intros [= <-]. cbn [files set_files]. rewrite lookup_insert_eq.
  split; [reflexivity |].
  rewrite make_parents_all_dirs.
  - now rewrite lookup_insert_eq.
  - intros k Hk. cbn [app].
    destruct (decide (c :: p' = firstn k parent)) as [<- | Hne].
    + apply lookup_insert_eq.
    + rewrite lookup_insert_ne by assumption.
      apply (make_parents_dirs _ _ _ _ _ E k Hk).
Qed.

Section FactoryPaths.
Variable statistics : Type.
Variable create_statistics : grouped -> statistics.
Variable dumps_report : Report -> result string.
Variable dumps_statistics : statistics -> result string.
Variable getvalue : image -> string.
Variable page_pdf : gmap path node -> path -> string.
Variable seedir : gmap path node -> path -> string.

Local Abbreviation create_report :=
  (ReportFactory.create_report statistics create_statistics dumps_report
     dumps_statistics getvalue page_pdf seedir).
Local Abbreviation create_html_report :=
  (ReportFactory.create_html_report statistics create_statistics getvalue).
Local Abbreviation create_pdf_report :=
  (ReportFactory.create_pdf_report statistics create_statistics getvalue
     page_pdf seedir).

(** X2.  The HTML report makes the same one-argument call to
    [create_plots] as the raw-data report: [create_html_report], and
    [create_report] for any type whose lower case is "html", raise that
    call's [TypeError] and return the world as it was; no [index.html] and
    no image is written. *)
Theorem create_html_report_raises_type_error
  (self : ReportFactory.t) (benchmark : Benchmark) (output : path)
  (whitelist blacklist : option (list string)) (w : world) :
  create_html_report self benchmark output whitelist blacklist w
  = (w, Raise BenchmarkPlotter.missing_grouped_generators)
  /\ (lower (ReportFactory.report_type self) = "html" ->
      create_report self benchmark output whitelist blacklist w
      = (w, Raise BenchmarkPlotter.missing_grouped_generators)).
Proof.
  split; [reflexivity |].
  intros H. unfold ReportFactory.create_report. rewrite H. reflexivity.
Qed.

Lemma pdf_report_steps self benchmark output whitelist blacklist w :
  create_pdf_report self benchmark output whitelist blacklist w
  = match mkdir (path_join output "temp") false w with
    | (w1, Ok _) => (w1, Raise BenchmarkPlotter.missing_grouped_generators)
    | (w1, Raise e) => (w1, Raise e)
    end.
Proof.
  unfold ReportFactory.create_pdf_report. unfold io_bind at 1.
  destruct (mkdir (path_join output "temp") false w) as [w1 [[] | e]];
    reflexivity.
Qed.

(** X3.  The PDF report never gets as far as the browser: for every
    input it raises, either the error that creating [<output>/temp]
    raises from the same world, or, when that directory could be created,
    the [TypeError] of the HTML report it runs.  It prints nothing and
    reads nothing from the terminal, and the only change it can make to
    the file system is to create directories where nothing was: every path
    either keeps its node or was absent and is now a directory. *)
Theorem create_pdf_report_only_makes_directories
  (self : ReportFactory.t) (benchmark : Benchmark) (output : path)
  (whitelist blacklist : option (list string)) (w : world) :
  let end_ :=
    create_pdf_report self benchmark output whitelist blacklist w in
  ((snd (mkdir (path_join output "temp") false w) = Ok tt
    /\ snd end_ = Raise BenchmarkPlotter.missing_grouped_generators)
   \/ (exists e,
         snd (mkdir (path_join output "temp") false w) = Raise e
         /\ snd end_ = Raise e))
  /\ stdout (fst end_) = stdout w
  /\ stdin (fst end_) = stdin w
  /\ forall q,
      files (fst end_) !! q = files w !! q
      \/ (files w !! q = None /\ files (fst end_) !! q = Some Dir).
Proof.
  cbv zeta. rewrite pdf_report_steps.
  destruct (mkdir (path_join output "temp") false w) as [w1 [[] | e]] eqn:E.
  - apply mkdir_effect in E as (_ & Hout & Hin & Hfiles). simpl. auto.
  - apply mkdir_effect in E as (_ & Hout & Hin & Hfiles). simpl.
    split; [right; exists e; auto | auto].
Qed.

(** X4.  A PDF report run that got past creating [<output>/temp] leaves
    that directory behind, and a second run from the world it left raises
    [FileExistsError] for it and changes nothing. *)
Theorem create_pdf_report_not_rerunnable
  (self : ReportFactory.t) (benchmark : Benchmark) (output : path)
  (whitelist blacklist : option (list string)) (w : world) :
  let run := create_pdf_report self benchmark output whitelist blacklist in
  snd (run w) = Raise BenchmarkPlotter.missing_grouped_generators ->
  files (fst (run w)) !! path_join output "temp" = Some Dir
  /\ run (fst (run w))
     = (fst (run w), Raise (FileExistsError (path_join output "temp"))).
Proof.
  cbv zeta. rewrite pdf_report_steps.
  destruct (mkdir (path_join output "temp") false w) as [w1 [[] | e]] eqn:E.
  - intros _. simpl fst.
    apply mkdir_rerun in E as [Hdir Hagain];
      [| unfold path_join; destruct output; discriminate].
    split; [exact Hdir |]. rewrite pdf_report_steps, Hagain. reflexivity.
  - simpl. intros [= ->].
    apply mkdir_raises in E. destruct E as [E | [E | [E | E]]]; discriminate.
Qed.
End FactoryPaths.

(** Report type "Html" on the sample benchmark. *)
Lemma create_html_report_raises_type_error_witness :
  ReportFactory.create_report unit (fun _ => tt) Samples.dumps_anything
    Samples.dumps_anything Samples.no_bytes Samples.no_listing
    Samples.no_listing {| ReportFactory.report_type := "Html" |}
    Samples.sample_benchmark ["output"] None None Samples.empty_world
  = (Samples.empty_world, Raise BenchmarkPlotter.missing_grouped_generators).
Proof.
  apply (proj2 (create_html_report_raises_type_error unit (fun _ => tt)
                  Samples.dumps_anything Samples.dumps_anything
                  Samples.no_bytes Samples.no_listing Samples.no_listing
                  {| ReportFactory.report_type := "Html" |}
                  Samples.sample_benchmark ["output"] None None
                  Samples.empty_world)).
  reflexivity.
Defined.

(** From the empty file system the first PDF run creates [output/temp];
    the second run stops at it. *)
Lemma create_pdf_report_not_rerunnable_witness :
  let run :=
    ReportFactory.create_pdf_report unit (fun _ => tt) Samples.no_bytes
      Samples.no_listing Samples.no_listing
      {| ReportFactory.report_type := "pdf" |} Samples.sample_benchmark
      ["output"] None None in
  files (fst (run Samples.empty_world)) !! ["output"; "temp"] = Some Dir
  /\ run (fst (run Samples.empty_world))
     = (fst (run Samples.empty_world),
        Raise (FileExistsError ["output"; "temp"])).
Proof.
  apply (create_pdf_report_not_rerunnable unit (fun _ => tt) Samples.no_bytes
           Samples.no_listing Samples.no_listing
           {| ReportFactory.report_type := "pdf" |} Samples.sample_benchmark
           ["output"] None None Samples.empty_world).
  vm_compute. reflexivity.
Defined.

(** ** Charts on degenerate inputs *)

(** X5.  With an empty grouped mapping no bar chart can be drawn: every
    general chart except the line chart "Coverage vs Time", and every
    test-execution chart, raises [ZeroDivisionError] (the bar width is 6
    divided by the number of generator names); "Coverage vs Time" raises
    [StopIteration] (there is no first generator to take the ticks from);
    the histograms are drawn, empty.  [create_plots] therefore raises
    [ZeroDivisionError] on an empty mapping, whatever the benchmark. *)
Theorem charts_of_empty_mapping :
  (forall name f,
      In (name, f) BenchmarkPlotter.get_plot_functions ->
      name <> "Coverage vs Time" ->
      forall cls, f cls [] = Raise ZeroDivisionError)
  /\ (forall cls,
        BenchmarkPlotter.plot_coverage_vs_time cls [] = Raise StopIteration)
  /\ (forall name f,
        In (name, f) BenchmarkPlotter.get_test_execution_plot_functions ->
        forall cls benchmark, f cls benchmark [] = Raise ZeroDivisionError)
  /\ (forall name f,
        In (name, f) BenchmarkPlotter.get_per_coverage_plot_functions ->
        forall cls coverage_value,
        exists ax, f cls [] coverage_value = Ok ax /\ artists ax = [])
  /\ (forall benchmark show w,
        snd (BenchmarkPlotter.create_plots benchmark [] show w)
        = Raise ZeroDivisionError).
Proof.
  split; [| split; [| split; [| split]]].
  - intros name f Hin Hline cls. simpl in Hin.
    repeat (destruct Hin as [Hin | Hin];
            [injection Hin as <- <-; first [reflexivity | congruence] |]).
    destruct Hin.
  - reflexivity.
  - intros name f Hin cls b. simpl in Hin.
    repeat (destruct Hin as [Hin | Hin];
            [injection Hin as <- <-; reflexivity |]).
    destruct Hin.
  - intros name f Hin cls c. simpl in Hin.
    repeat (destruct Hin as [Hin | Hin];
            [injection Hin as <- <-; eexists; split; reflexivity |]).
    destruct Hin.
  - reflexivity.
Qed.

(** "Total Time" on the empty mapping. *)
Lemma charts_of_empty_mapping_witness :
  BenchmarkPlotter.plot_total_time None [] = Raise ZeroDivisionError.
Proof.
  apply (proj1 charts_of_empty_mapping "Total Time"
           BenchmarkPlotter.plot_total_time).
  - simpl. auto.
  - discriminate.
Defined.

Lemma group_run_groups_none (b : Benchmark) (g : grouped) :
  (forall run_group,
      In run_group (run_groups_sorted b) ->
      ~ In (algorithm run_group) (dict_keys g)) ->
  BenchmarkPlotter.group_run_groups b g = [].
Proof.
  unfold BenchmarkPlotter.group_run_groups.
  induction (run_groups_sorted b) as [| r rgs IH]; simpl; intros H.
  - reflexivity.
  - assert (Hr : dict_mem (algorithm r) g = false).
    { destruct (dict_mem (algorithm r) g) eqn:E; [| reflexivity].
      apply dict_mem_In in E. exfalso. apply (H r); auto. }
    rewrite Hr. simpl. apply IH. intros rg Hin. apply H. auto.
Qed.

(** X6.  The test-execution charts take their ticks from the first
    algorithm that has run groups among the generator names.  When the
    grouped mapping is non-empty but no run group of the benchmark belongs
    to one of its generator names (in particular when the benchmark has no
    run groups at all), a test-execution chart raises [StopIteration]; and
    since [all([])] holds, [create_plots] raises [StopIteration] on such a
    benchmark whenever every run group succeeded and the general charts
    could be drawn: every generator name has a bucket, no bucket has a
    zero average generation time, and the model has vertices and edges. *)
Theorem test_execution_charts_need_a_run_group
  (b : Benchmark) (g : grouped) :
  g <> [] ->
  (forall run_group,
      In run_group (run_groups_sorted b) ->
      ~ In (algorithm run_group) (dict_keys g)) ->
  (forall ax value_lambda add_trend_line,
      BenchmarkPlotter._plot_bars_tests ax b g value_lambda add_trend_line
      = Raise StopIteration)
  /\ ((forall name gens, In (name, gens) g -> gens <> []) ->
      (forall name gens gen,
          In (name, gens) g -> In gen gens ->
          ~ (average_generation_time gen == 0)%Q) ->
      vertices (model (report b)) <> 0%Z ->
      edges (model (report b)) <> 0%Z ->
      forallb successful_runs (run_groups b) = true ->
      forall show w,
        snd (BenchmarkPlotter.create_plots b g show w) = Raise StopIteration).
Proof.
  intros Hg Hnone.
  assert (Htests : forall ax value_lambda add_trend_line,
             BenchmarkPlotter._plot_bars_tests ax b g value_lambda
               add_trend_line = Raise StopIteration).
  { intros ax vl t. unfold BenchmarkPlotter._plot_bars_tests.
    rewrite py_truediv_nonzero by now apply group_count_nonzero.
    rewrite (group_run_groups_none b g Hnone). reflexivity. }
  split; [exact Htests |].
  intros Hbuckets Htime Hv He Hall show w.
  unfold BenchmarkPlotter.create_plots.
  cbn [snd plotter_benchmark set_plotter_benchmark].
  destruct (general_plots_total (Some b) g BenchmarkPlotter.get_plot_functions
              [] (general_charts_total b g Hg Hbuckets Htime Hv He))
    as (plots1 & ->).
  cbn [bind]. rewrite Hall. simpl.
  unfold BenchmarkPlotter.plot_average_test_execution_time.
  rewrite Htests. reflexivity.
Qed.

(** The two sample generators with a benchmark that has no run groups. *)
Lemma test_execution_charts_need_a_run_group_witness :
  snd (BenchmarkPlotter.create_plots
         {| name := "no runs";
            report := report Samples.sample_benchmark;
            run_groups := []; run_groups_sorted := [] |}
         Samples.two_generators false Samples.empty_world)
  = Raise StopIteration.
Proof.
  apply (proj2 (test_execution_charts_need_a_run_group
                  {| name := "no runs";
                     report := report Samples.sample_benchmark;
                     run_groups := []; run_groups_sorted := [] |}
                  Samples.two_generators ltac:(discriminate)
                  ltac:(intros ? [])));
    [ exact sample_buckets_nonempty
    | exact (proj1 (proj2 (proj2 renderable_sample)))
    | discriminate | discriminate | reflexivity ].
Defined.

(** ** Bucketing the run groups *)

Lemma dict_get_set_eq {V : Type} k (v : V) d :
  dict_get k (dict_set k v d) = Some v.
Proof.
  induction d as [| [k' v'] d IH]; simpl.
  - now rewrite String.eqb_refl.
  - destruct (String.eqb k k') eqn:E; simpl.
    + now rewrite String.eqb_refl.
    + now rewrite E.
Qed.

Lemma dict_get_set_ne {V : Type} k k' (v : V) d :
  k <> k' -> dict_get k' (dict_set k v d) = dict_get k' d.
Proof.
  intros Hne. induction d as [| [k0 v0] d IH]; simpl.
  - destruct (String.eqb_spec k' k); [congruence | reflexivity].
  - destruct (String.eqb_spec k k0) as [<- | Hk]; simpl.
    + destruct (String.eqb_spec k' k); [congruence | reflexivity].
    + now rewrite IH.
Qed.

Lemma dict_mem_get {V : Type} k (d : list (string * V)) :
  dict_mem k d = match dict_get k d with Some _ => true | None => false end.
Proof.
  unfold dict_mem. induction d as [| [k' v'] d IH]; simpl; [reflexivity |].
  destruct (String.eqb k k'); [reflexivity | exact IH].
Qed.

Lemma filter_snoc {A : Type} (P : A -> bool) l x :
  List.filter P (l ++ [x]) = List.filter P l ++ (if P x then [x] else []).
Proof. rewrite List.filter_app. simpl. now destruct (P x). Qed.

Section Buckets.
Variable g : grouped.

(** The run groups of [l] that belong to algorithm [alg], provided [alg]
    is one of the generator names. *)
Let chosen (alg : string) (l : list RunGroup) : list RunGroup :=
  List.filter
    (fun run_group => String.eqb (algorithm run_group) alg && dict_mem alg g)
    l.

Let as_bucket (l : list RunGroup) : option (list RunGroup) :=
  match l with [] => None | _ => Some l end.

Lemma group_run_groups_step (seen rest : list RunGroup)
  (acc : list (string * list RunGroup)) :
  (forall alg, dict_get alg acc = as_bucket (chosen alg seen)) ->
  forall alg,
    dict_get alg
      (fold_left
         (fun grouped_run_groups run_group =>
            if negb (dict_mem (algorithm run_group) g)
            then grouped_run_groups
            else
              let grouped_run_groups0 :=
                if negb (dict_mem (algorithm run_group) grouped_run_groups)
                then dict_set (algorithm run_group) [] grouped_run_groups
                else grouped_run_groups in
              BenchmarkPlotter.dict_append (algorithm run_group) run_group
                grouped_run_groups0) rest acc)
    = as_bucket (chosen alg (seen ++ rest)).
Proof.
  revert seen acc. induction rest as [| r rest IH]; intros seen acc Hinv alg.
  - simpl. rewrite app_nil_r. apply Hinv.
  - simpl fold_left.
    replace (seen ++ r :: rest) with ((seen ++ [r]) ++ rest)
      by now rewrite <- app_assoc.
    apply IH. clear alg IH. intros alg. unfold chosen.
    rewrite filter_snoc. fold (chosen alg seen).
    destruct (dict_mem (algorithm r) g) eqn:Hg; simpl negb; cbv iota.
    + unfold BenchmarkPlotter.dict_append.
      pose proof (Hinv (algorithm r)) as Hr.
      rewrite (dict_mem_get (algorithm r) acc).
      destruct (dict_get (algorithm r) acc) as [l |] eqn:Hget; simpl negb;
        cbv iota zeta.
      * rewrite Hget.
        destruct (String.eqb_spec (algorithm r) alg) as [<- | Hne].
        -- rewrite dict_get_set_eq, Hg. simpl.
           destruct (chosen (algorithm r) seen) as [| x xs] eqn:Hc;
             simpl in Hr; [discriminate |].
           injection Hr as ->. reflexivity.
        -- rewrite dict_get_set_ne by assumption. simpl.
           rewrite app_nil_r. apply Hinv.
      * rewrite dict_get_set_eq.
        destruct (String.eqb_spec (algorithm r) alg) as [<- | Hne].
        -- rewrite dict_get_set_eq, Hg. simpl.
           destruct (chosen (algorithm r) seen) as [| x xs] eqn:Hc;
             simpl in Hr; [reflexivity | discriminate].
        -- rewrite !dict_get_set_ne by assumption. simpl.
           rewrite app_nil_r. apply Hinv.
    + destruct (String.eqb_spec (algorithm r) alg) as [<- | Hne]; simpl.
      * rewrite Hg. simpl. rewrite app_nil_r. apply Hinv.
      * rewrite app_nil_r. apply Hinv.
Qed.
End Buckets.

(** X7.  The buckets that [_plot_bars_tests] builds: under an algorithm
    name that is a generator name and has run groups, the bucket holds
    exactly the benchmark's run groups of that algorithm, in the order of
    [run_groups_sorted]; every other name has no bucket.  No bucket is
    empty and no run group of a filtered-out algorithm is kept. *)
Theorem group_run_groups_buckets (b : Benchmark) (g : grouped) (alg : string) :
  dict_get alg (BenchmarkPlotter.group_run_groups b g)
  = if dict_mem alg g
    then match List.filter
                 (fun run_group => String.eqb (algorithm run_group) alg)
                 (run_groups_sorted b) with
         | [] => None
         | bucket => Some bucket
         end
    else None.
Proof.
  unfold BenchmarkPlotter.group_run_groups.
  rewrite (group_run_groups_step g [] (run_groups_sorted b) [])
    by reflexivity.
  simpl app. destruct (dict_mem alg g).
  - rewrite (filter_ext _
               (fun run_group => String.eqb (algorithm run_group) alg))
      by (intros rg; apply andb_true_r).
    now destruct (List.filter _ (run_groups_sorted b)).
  - rewrite (filter_ext _ (fun _ => false))
      by (intros rg; apply andb_false_r).
    now induction (run_groups_sorted b).
Qed.

(** ** The layout of a bar chart *)

Lemma bar_series_draw a ax :
  bar_series (draw a ax)
  = bar_series ax
    ++ match a with Bar x h l w => [(x, h, l, w)] | _ => [] end.
Proof.
  unfold bar_series, draw. simpl. rewrite flat_map_app. simpl.
  now rewrite app_nil_r.
Qed.

Lemma plot_bars_loop_series value_lambda add_trend_line bar_width i
  (groups : grouped) ax ax' :
  BenchmarkPlotter._plot_bars_loop value_lambda add_trend_line bar_width i
    groups ax = Ok ax' ->
  exists series,
    bar_series ax' = bar_series ax ++ series
    /\ length series = length groups
    /\ forall j name gens,
        nth_error groups j = Some (name, gens) ->
        exists ys,
          comprehension value_lambda gens = Ok ys
          /\ nth_error series j
             = Some (bar_positions bar_width (i + j) gens, ys, name,
                     bar_width).
Proof.
  revert i ax. induction groups as [| [name gens] rest IH]; intros i ax H.
  - simpl in H. injection H as <-. exists []. rewrite app_nil_r.
    repeat split. intros [| j] ? ? [=].
  - apply plot_bars_loop_step in H as (ys & Hys & _ & H).
    apply IH in H as (series & Hs & Hlen & Hnth).
    assert (Hs' : bar_series ax'
                  = bar_series ax
                    ++ (bar_positions bar_width i gens, ys, name, bar_width)
                       :: series).
    { rewrite Hs. destruct add_trend_line;
        rewrite ?bar_series_draw; simpl; rewrite ?app_nil_r;
        now rewrite <- app_assoc. }
    eexists. split; [exact Hs' |]. split; [simpl; now rewrite Hlen |].
    intros [| j] name' gens' Hj; simpl in Hj.
    + injection Hj as <- <-. exists ys. rewrite Nat.add_0_r. auto.
    + destruct (Hnth j name' gens' Hj) as (ys' & H1 & H2).
      exists ys'. simpl. rewrite H2.
      replace (i + S j)%nat with (S i + j)%nat by lia. auto.
Qed.

Lemma bar_width_positive (n : nat) :
  (0 < n)%nat -> (0 < 6 / inject_Z (Z.of_nat n))%Q.
Proof.
  intros Hn. apply Qlt_shift_div_l.
  - unfold Qlt. simpl. lia.
  - lra.
Qed.

(** X8.  What a bar chart looks like when it is drawn.  With [n] generator
    names the bar width is 6/n (positive); the chart gets one bar series
    per generator name, in mapping order, labelled with the name, of that
    width, with the bars of the series drawn [j]-th at stop-coverage plus
    [j] bar widths and the values of [value_lambda] as heights; the x ticks
    are the stop-coverage values of the first generator name's buckets
    only. *)
Theorem bar_chart_layout
  (ax : axes) (g : grouped) (value_lambda : BenchmarkGenerator -> result Q)
  (add_trend_line : bool) (ax' : axes) :
  BenchmarkPlotter._plot_bars ax g value_lambda add_trend_line = Ok ax' ->
  let n := length g in
  let bar_width := (6 / inject_Z (Z.of_nat n))%Q in
  (0 < bar_width)%Q
  /\ (exists series,
         bar_series ax' = bar_series ax ++ series
         /\ length series = n
         /\ forall j name gens,
             nth_error g j = Some (name, gens) ->
             exists ys,
               comprehension value_lambda gens = Ok ys
               /\ nth_error series j
                  = Some (bar_positions bar_width j gens, ys, name,
                          bar_width))
  /\ (exists name gens rest,
         g = (name, gens) :: rest
         /\ xticks ax' = Some (map stop_coverage gens)).
Proof.
  intros H. cbv zeta.
  assert (Hn : (0 < length g)%nat).
  { apply plot_bars_Ok in H as [Hg _]. destruct g; [congruence | simpl; lia]. }
  pose proof (bar_width_positive _ Hn) as Hbw.
  split; [exact Hbw |]. split.
  - unfold BenchmarkPlotter._plot_bars in H.
    apply bind_Ok_inv in H as (bw & Hdiv & H).
    apply py_truediv_Ok in Hdiv as [-> _].
    apply bind_Ok_inv in H as (ax1 & Hloop & H).
    apply bind_Ok_inv in H as (first & _ & H). injection H as <-.
    apply plot_bars_loop_series in Hloop as (series & Hs & Hlen & Hnth).
    exists series. split; [exact Hs |]. split; [exact Hlen | exact Hnth].
  - unfold BenchmarkPlotter._plot_bars in H.
    apply bind_Ok_inv in H as (bw & _ & H).
    apply bind_Ok_inv in H as (ax1 & _ & H).
    apply bind_Ok_inv in H as (first & Hfirst & H). injection H as <-.
    destruct g as [| [name gens] rest]; [discriminate |].
    injection Hfirst as <-. exists name, gens, rest. split; reflexivity.
Qed.

(** The bars of the "Total Time" chart of the two sample generators. *)
Lemma bar_chart_layout_witness :
  exists ax',
    BenchmarkPlotter.plot_total_time None Samples.two_generators = Ok ax'
    /\ xticks ax' = Some [50%Z; 100%Z]
    /\ length (bar_series ax') = 2%nat.
Proof.
  destruct (BenchmarkPlotter.plot_total_time None Samples.two_generators)
    as [ax' | e] eqn:E; [| vm_compute in E; discriminate].
  destruct (bar_chart_layout _ _ _ _ _ E)
    as (_ & (series & Hs & Hlen & _) & (name & gens & rest & Hg & Ht)).
  exists ax'. split; [reflexivity |]. split.
  - rewrite Ht. injection Hg as <- <- <-. reflexivity.
  - rewrite Hs. simpl. exact Hlen.
Defined.

(** ** Histograms *)

Lemma insert_by_value_desc_sorted x l :
  StronglySorted (fun a b : string * Q => (snd b <= snd a)%Q) l ->
  StronglySorted (fun a b : string * Q => (snd b <= snd a)%Q)
    (insert_by_value_desc x l).
Proof.
  induction 1 as [| y l Hl IH Hy]; simpl.
  - repeat constructor.
  - destruct (Qle_bool (snd y) (snd x)) eqn:E.
    + apply Qle_bool_iff in E.
      constructor; [constructor; assumption |].
      constructor; [assumption |].
      eapply List.Forall_impl; [| exact Hy].
      intros z Hz. simpl in Hz. eapply Qle_trans; eauto.
    + assert (Hxy : (snd x <= snd y)%Q).
      { apply Qlt_le_weak, Qnot_le_lt. intros H.
        apply Qle_bool_iff in H. congruence. }
      constructor; [assumption |].
      rewrite List.Forall_forall in *. intros z Hz.
      apply (Permutation_in _ (insert_by_value_desc_perm x l)) in Hz.
      destruct Hz as [<- | Hz]; auto.
Qed.

Lemma insert_by_value_desc_stable v x l :
  List.filter (fun item : string * Q => Qeq_bool (snd item) v)
    (insert_by_value_desc x l)
  = List.filter (fun item : string * Q => Qeq_bool (snd item) v) (x :: l).
Proof.
  induction l as [| y l IH]; [reflexivity |].
  simpl insert_by_value_desc.
  destruct (Qle_bool (snd y) (snd x)) eqn:E; [reflexivity |].
  cbn [List.filter] in *. rewrite IH.
  destruct (Qeq_bool (snd x) v) eqn:Hx; [| reflexivity].
  destruct (Qeq_bool (snd y) v) eqn:Hy; [| reflexivity].
  exfalso. apply Qeq_bool_iff in Hx, Hy.
  assert (H : Qle_bool (snd y) (snd x) = true).
  { apply Qle_bool_iff. rewrite Hx, Hy. apply Qle_refl. }
  congruence.
Qed.

(** X9.  The order in which a histogram lists the identifiers of a visit
    mapping ([sorted(..., key=lambda x: x[1], reverse=True)]): the same
    items, by descending visit count, and items with equal counts keep the
    order they had in the mapping. *)
Theorem visits_sorted_by_descending_count (items : list (string * Q)) :
  Permutation (sorted_by_value_desc items) items
  /\ StronglySorted (fun a b : string * Q => (snd b <= snd a)%Q)
       (sorted_by_value_desc items)
  /\ forall v,
      List.filter (fun item : string * Q => Qeq_bool (snd item) v)
        (sorted_by_value_desc items)
      = List.filter (fun item : string * Q => Qeq_bool (snd item) v) items.
Proof.
  split; [apply sorted_by_value_desc_perm |]. split.
  - induction items as [| x l IH]; simpl; [constructor |].
    now apply insert_by_value_desc_sorted.
  - intros v. induction items as [| x l IH]; [reflexivity |].
    simpl sorted_by_value_desc. rewrite insert_by_value_desc_stable.
    cbn [List.filter]. now rewrite IH.
Qed.

Lemma histograms_draw a ax :
  histograms (draw a ax)
  = histograms ax
    ++ match a with Hist x w b l => [(x, w, b, l)] | _ => [] end.
Proof.
  unfold histograms, draw. simpl. rewrite flat_map_app. simpl.
  now rewrite app_nil_r.
Qed.

Lemma no_matching_bucket {B : Type} (f : string -> BenchmarkGenerator -> B)
  (g : grouped) (coverage_value : Z) :
  (forall name gens gen,
      In (name, gens) g -> In gen gens ->
      stop_coverage gen <> coverage_value) ->
  flat_map
    (fun group =>
       map (f (fst group))
         (List.filter (fun gen => (stop_coverage gen =? coverage_value)%Z)
            (snd group))) g
  = [].
Proof.
  induction g as [| [name gens] g IH]; intros Hnone; [reflexivity |].
  simpl. rewrite IH by (intros n gs gen H1 H2; apply (Hnone n gs gen);
                        simpl; auto).
  rewrite app_nil_r.
  assert (Hgens : forall gen, In gen gens ->
                              stop_coverage gen <> coverage_value)
    by (intros gen Hgen; apply (Hnone name gens gen); simpl; auto).
  clear Hnone IH. induction gens as [| gen gens IHg]; [reflexivity |].
  simpl. rewrite (proj2 (Z.eqb_neq _ _) (Hgens gen (or_introl eq_refl))).
  apply IHg. intros gen' Hgen'. apply Hgens. simpl; auto.
Qed.

Lemma plot_histogram_generators_Ok property_lambda c name gens a a' :
  BenchmarkPlotter._plot_histogram_generators property_lambda c name gens a
  = Ok a' ->
  histograms a'
  = histograms a
    ++ map (histogram_of property_lambda name)
         (List.filter (fun gen => (stop_coverage gen =? c)%Z) gens)
  /\ forall gen,
      In gen gens -> stop_coverage gen = c -> property_lambda gen <> [].
Proof.
  revert a. induction gens as [| gen gens IH]; simpl; intros a H.
  - injection H as <-. rewrite app_nil_r. split; [reflexivity | intros ? []].
  - apply bind_Ok_inv in H as (a1 & H1 & H).
    apply IH in H as [Hh Hne].
    unfold BenchmarkPlotter._plot_histogram_generator in H1.
    destruct (stop_coverage gen =? c)%Z eqn:E; simpl in H1.
    + apply plot_hist_Ok in H1 as [Hbins ->].
      rewrite length_map,
        (Permutation_length (sorted_by_value_desc_perm (property_lambda gen)))
        in *.
      split.
      * rewrite Hh, histograms_draw, <- app_assoc. reflexivity.
      * intros gen' [<- | Hin] Hc; [| now apply Hne].
        intros Hnil. rewrite Hnil in Hbins. now apply Hbins.
    + injection H1 as <-. split; [exact Hh |].
      intros gen' [<- | Hin] Hc; [| now apply Hne].
      apply Z.eqb_neq in E. contradiction.
Qed.

Lemma plot_histogram_groups_Ok property_lambda c (groups : grouped) a a' :
  BenchmarkPlotter._plot_histogram_groups property_lambda c groups a = Ok a' ->
  histograms a'
  = histograms a
    ++ flat_map
         (fun group =>
            map (histogram_of property_lambda (fst group))
              (List.filter (fun gen => (stop_coverage gen =? c)%Z)
                 (snd group))) groups
  /\ forall name gens gen,
      In (name, gens) groups -> In gen gens -> stop_coverage gen = c ->
      property_lambda gen <> [].
Proof.
  revert a. induction groups as [| [name gens] groups IH]; simpl; intros a H.
  - injection H as <-. rewrite app_nil_r.
    split; [reflexivity | intros ? ? ? []].
  - apply bind_Ok_inv in H as (a1 & H1 & H).
    apply plot_histogram_generators_Ok in H1 as [Hh1 Hne1].
    apply IH in H as [Hh Hne].
    split; [now rewrite Hh, Hh1, <- app_assoc |].
    intros name' gens' gen [[= <- <-] | Hin] Hgen Hc; eauto.
Qed.

Lemma plot_histogram_groups_Raise property_lambda c (groups : grouped) a e :
  BenchmarkPlotter._plot_histogram_groups property_lambda c groups a
  = Raise e ->
  e = ValueError "`bins` must be positive, when an integer".
Proof.
  assert (Hinner : forall name gens a0,
             BenchmarkPlotter._plot_histogram_generators property_lambda c
               name gens a0 = Raise e ->
             e = ValueError "`bins` must be positive, when an integer").
  { intros name gens. induction gens as [| gen gens IH]; simpl; intros a0 H;
      [discriminate |].
    apply bind_Raise_inv in H as [H | (a1 & _ & H)]; [| eauto].
    unfold BenchmarkPlotter._plot_histogram_generator in H.
    destruct (stop_coverage gen =? c)%Z; simpl in H; [| discriminate].
    unfold plot_hist in H.
    destruct (length _) in H; [congruence | discriminate]. }
  revert a. induction groups as [| [name gens] groups IH]; simpl; intros a H;
    [discriminate |].
  apply bind_Raise_inv in H as [H | (a1 & _ & H)]; eauto.
Qed.

(** X10.  A per-coverage histogram chart that is drawn holds one histogram
    for each bucket whose stop-coverage equals the requested coverage
    value, and nothing for the other buckets: in mapping order, labelled
    with the generator name, with one bin per identifier of the visit
    mapping, the identifiers by descending visit count and the counts
    truncated to integers as weights; it has no x ticks and is
    post-processed.  The chart is drawn exactly when every bucket at the
    requested coverage value has a non-empty visit mapping: one with an
    empty mapping asks for zero bins and the chart raises [ValueError].
    A coverage value that no bucket has gives a chart without
    histograms. *)
Theorem histogram_per_matching_bucket
  (ax : axes) (g : grouped)
  (property_lambda : BenchmarkGenerator -> list (string * Q))
  (coverage_value : Z) :
  let chart :=
    BenchmarkPlotter._plot_histogram ax g property_lambda coverage_value in
  (forall ax',
      chart = Ok ax' ->
      histograms ax'
      = histograms ax
        ++ flat_map
             (fun group =>
                map (histogram_of property_lambda (fst group))
                  (List.filter
                     (fun gen => (stop_coverage gen =? coverage_value)%Z)
                     (snd group))) g
      /\ xticks ax' = Some []
      /\ post_processed ax')
  /\ ((exists ax', chart = Ok ax') <->
      (forall name gens gen,
          In (name, gens) g -> In gen gens ->
          stop_coverage gen = coverage_value ->
          property_lambda gen <> []))
  /\ ((exists name gens gen,
          In (name, gens) g /\ In gen gens
          /\ stop_coverage gen = coverage_value
          /\ property_lambda gen = []) ->
      chart = Raise (ValueError "`bins` must be positive, when an integer"))
  /\ ((forall name gens gen,
          In (name, gens) g -> In gen gens ->
          stop_coverage gen <> coverage_value) ->
      exists ax', chart = Ok ax' /\ histograms ax' = histograms ax).
Proof.
  cbv zeta.
  assert (Hok : forall ax',
             BenchmarkPlotter._plot_histogram ax g property_lambda
               coverage_value = Ok ax' ->
             (histograms ax'
              = histograms ax
                ++ flat_map
                     (fun group =>
                        map (histogram_of property_lambda (fst group))
                          (List.filter
                             (fun gen =>
                                (stop_coverage gen =? coverage_value)%Z)
                             (snd group))) g
              /\ xticks ax' = Some []
              /\ post_processed ax')
             /\ forall name gens gen,
                 In (name, gens) g -> In gen gens ->
                 stop_coverage gen = coverage_value ->
                 property_lambda gen <> []).
  { intros ax' H. unfold BenchmarkPlotter._plot_histogram in H.
    apply bind_Ok_inv in H as (ax1 & H1 & H). injection H as <-.
    apply plot_histogram_groups_Ok in H1 as [Hh Hne].
    split; [| exact Hne].
    split; [exact Hh |]. split; [reflexivity | repeat split]. }
  assert (Htotal : (forall name gens gen,
                       In (name, gens) g -> In gen gens ->
                       stop_coverage gen = coverage_value ->
                       property_lambda gen <> []) ->
                   exists ax',
                     BenchmarkPlotter._plot_histogram ax g property_lambda
                       coverage_value = Ok ax').
  { intros Hne. apply plot_histogram_total.
    intros name gens gen H1 H2 Hc. apply Z.eqb_eq in Hc. eauto. }
  split; [intros ax' H; apply (Hok ax' H) |].
  split; [split; [intros (ax' & H); apply (Hok ax' H) | exact Htotal] |].
  split.
  - intros (name & gens & gen & H1 & H2 & Hc & Hnil).
    destruct (BenchmarkPlotter._plot_histogram ax g property_lambda
                coverage_value) as [ax' | e] eqn:E.
    + destruct (Hok ax' eq_refl) as [_ Hne].
      now destruct (Hne name gens gen H1 H2 Hc).
    + unfold BenchmarkPlotter._plot_histogram in E.
      apply bind_Raise_inv in E as [E | (ax1 & _ & E)]; [| discriminate].
      apply plot_histogram_groups_Raise in E. now subst.
  - intros Hnone.
    destruct Htotal as (ax' & E).
    { intros name gens gen H1 H2 Hc. now destruct (Hnone name gens gen). }
    exists ax'. split; [exact E |].
    destruct (Hok ax' E) as [(Hh & _) _].
    rewrite Hh, no_matching_bucket by exact Hnone. apply app_nil_r.
Qed.

(** A coverage value of 75, which no sample bucket has: the chart is drawn
    and stays without histograms. *)
Lemma histogram_per_matching_bucket_witness :
  exists ax',
    BenchmarkPlotter._plot_histogram subplots Samples.two_generators
      total_vertex_visits_individual 75 = Ok ax'
    /\ histograms ax' = [].
Proof.
  apply (proj2 (proj2 (proj2 (histogram_per_matching_bucket subplots
                                Samples.two_generators
                                total_vertex_visits_individual 75)))).
  intros name gens gen H1 H2. simpl in H1.
  destruct H1 as [[= <- <-] | [[= <- <-] | []]];
    simpl in H2; destruct H2 as [<- | [<- | []]]; discriminate.
Defined.

(** ** Every saved chart is post-processed *)

Lemma plot_bars_post ax (g : grouped) value_lambda add_trend_line ax' :
  BenchmarkPlotter._plot_bars ax g value_lambda add_trend_line = Ok ax' ->
  post_processed ax'.
Proof.
  unfold BenchmarkPlotter._plot_bars. intros H.
  apply bind_Ok_inv in H as (bw & _ & H).
  apply bind_Ok_inv in H as (ax1 & _ & H).
  apply bind_Ok_inv in H as (first & _ & H). injection H as <-.
  repeat split.
Qed.

Lemma plot_bars_tests_post ax b (g : grouped) value_lambda add_trend_line ax' :
  BenchmarkPlotter._plot_bars_tests ax b g value_lambda add_trend_line
  = Ok ax' ->
  post_processed ax'.
Proof.
  unfold BenchmarkPlotter._plot_bars_tests. intros H.
  apply bind_Ok_inv in H as (bw & _ & H).
  apply bind_Ok_inv in H as (ax1 & _ & H).
  apply bind_Ok_inv in H as (first & _ & H). injection H as <-.
  repeat split.
Qed.

Lemma plot_lines_post ax (g : grouped) value_lambda ax' :
  BenchmarkPlotter._plot_lines ax g value_lambda = Ok ax' ->
  post_processed ax'.
Proof.
  unfold BenchmarkPlotter._plot_lines. intros H.
  apply bind_Ok_inv in H as (ax1 & _ & H).
  apply bind_Ok_inv in H as (first & _ & H). injection H as <-.
  repeat split.
Qed.

Lemma plot_histogram_post ax (g : grouped) property_lambda c ax' :
  BenchmarkPlotter._plot_histogram ax g property_lambda c = Ok ax' ->
  post_processed ax'.
Proof.
  unfold BenchmarkPlotter._plot_histogram. intros H.
  apply bind_Ok_inv in H as (ax1 & _ & H). injection H as <-.
  repeat split.
Qed.

Ltac head_of t :=
  lazymatch t with
  | ?f _ => head_of f
  | _ => t
  end.

Ltac chart_post H :=
  lazymatch type of H with
  | ?call = Ok _ => let f := head_of call in unfold f in H
  end;
  first
    [ apply plot_bars_post in H; exact H
    | apply plot_lines_post in H; exact H
    | apply plot_bars_tests_post in H; exact H
    | apply plot_histogram_post in H; exact H ].

(** X11.  Whatever [create_plots] returns, every image in the mapping is
    a PNG saved at 300 dpi of a figure that went through
    [_post_process_plot]: legend shown, x tick labels rotated by 45 degrees,
    tight layout. *)
Theorem every_saved_chart_is_post_processed
  (b : Benchmark) (g : grouped) (show : bool) (w : world)
  (plots : BenchmarkPlotter.plot_dict) :
  snd (BenchmarkPlotter.create_plots b g show w) = Ok plots ->
  forall key img,
    In (key, img) plots ->
    post_processed (figure img) /\ format img = "png" /\ dpi img = 300%Z.
Proof.
  set (good := fun img : image =>
                 post_processed (figure img) /\ format img = "png"
                 /\ dpi img = 300%Z).
  set (all_good := fun d : BenchmarkPlotter.plot_dict =>
                     forall key img, In (key, img) d -> good img).
  assert (Hset : forall d k ax,
             all_good d -> post_processed ax ->
             all_good (dict_set k (BenchmarkPlotter.save_plot_bytesio ax) d)).
  { intros d k ax Hd Hax key img Hin.
    apply dict_set_In in Hin as [[_ ->] | Hin]; [| eauto].
    repeat split; apply Hax. }
  assert (Hgeneral : forall cls fns d d',
             (forall name f, In (name, f) fns ->
                forall ax, f cls g = Ok ax -> post_processed ax) ->
             all_good d ->
             BenchmarkPlotter.general_plots cls g fns d = Ok d' ->
             all_good d').
  { intros cls fns. induction fns as [| [name f] fns IH]; simpl;
      intros d d' Hf Hd H.
    - now injection H as <-.
    - apply bind_Ok_inv in H as (ax & Hax & H).
      eapply IH; [| | exact H]; [intros; eapply Hf; eauto |].
      apply Hset; [assumption |]. eapply Hf; eauto. }
  assert (Htests : forall cls fns d d',
             (forall name f, In (name, f) fns ->
                forall ax, f cls b g = Ok ax -> post_processed ax) ->
             all_good d ->
             BenchmarkPlotter.test_execution_plots cls b g fns d = Ok d' ->
             all_good d').
  { intros cls fns. induction fns as [| [name f] fns IH]; simpl;
      intros d d' Hf Hd H.
    - now injection H as <-.
    - apply bind_Ok_inv in H as (ax & Hax & H).
      eapply IH; [| | exact H]; [intros; eapply Hf; eauto |].
      apply Hset; [assumption |]. eapply Hf; eauto. }
  assert (Hof : forall cls name f covs d d',
             (forall c ax, f cls g c = Ok ax -> post_processed ax) ->
             all_good d ->
             BenchmarkPlotter.per_coverage_plots_of cls g name f covs d
             = Ok d' ->
             all_good d').
  { intros cls name f covs. induction covs as [| c covs IH]; simpl;
      intros d d' Hf Hd H.
    - now injection H as <-.
    - apply bind_Ok_inv in H as (ax & Hax & H).
      eapply IH; [exact Hf | | exact H].
      apply Hset; [assumption |]. eapply Hf; eauto. }
  assert (Hper : forall cls fns covs d d',
             (forall name f, In (name, f) fns ->
                forall c ax, f cls g c = Ok ax -> post_processed ax) ->
             all_good d ->
             BenchmarkPlotter.per_coverage_plots cls g fns covs d = Ok d' ->
             all_good d').
  { intros cls fns covs. induction fns as [| [name f] fns IH]; simpl;
      intros d d' Hf Hd H.
    - now injection H as <-.
    - apply bind_Ok_inv in H as (d1 & H1 & H).
      eapply IH; [| | exact H]; [intros; eapply Hf; eauto |].
      eapply Hof; [| exact Hd | exact H1]. intros c ax. eapply Hf; eauto. }
  unfold BenchmarkPlotter.create_plots.
  cbn [snd plotter_benchmark set_plotter_benchmark]. intros H.
  apply bind_Ok_inv in H as (plots1 & H1 & H).
  apply bind_Ok_inv in H as (plots2 & H2 & H).
  assert (G1 : all_good plots1).
  { eapply Hgeneral; [| | exact H1]; [| intros ? ? []].
    intros name f Hin ax Hax. simpl in Hin.
    repeat (destruct Hin as [Hin | Hin];
            [injection Hin as <- <-; chart_post Hax |]).
    destruct Hin. }
  assert (G2 : all_good plots2).
  { destruct (forallb successful_runs (run_groups b)).
    - eapply Htests; [| exact G1 | exact H2].
      intros name f Hin ax Hax. simpl in Hin.
      repeat (destruct Hin as [Hin | Hin];
              [injection Hin as <- <-; chart_post Hax |]).
      destruct Hin.
    - now injection H2 as <-. }
  eapply Hper; [| exact G2 | exact H].
  intros name f Hin c ax Hax. simpl in Hin.
  repeat (destruct Hin as [Hin | Hin];
          [injection Hin as <- <-; chart_post Hax |]).
  destruct Hin.
Qed.

(** The charts of the sample benchmark. *)
Lemma every_saved_chart_is_post_processed_witness :
  exists plots,
    snd (BenchmarkPlotter.create_plots Samples.sample_benchmark
           Samples.two_generators false Samples.empty_world) = Ok plots
    /\ forall key img,
        In (key, img) plots ->
        post_processed (figure img) /\ format img = "png"
        /\ dpi img = 300%Z.
Proof.
  destruct (create_plots_total Samples.sample_benchmark Samples.two_generators
              false Samples.empty_world renderable_sample) as (plots & H).
  exists plots. split; [exact H |].
  exact (every_saved_chart_is_post_processed _ _ _ _ _ H).
Defined.

(** ** The coverage-percentage charts *)

Section Percentage.
Variable visits : BenchmarkGenerator -> list (string * Q).
Variable total : Model -> Z.
Variable cls : option Benchmark.

Local Abbreviation percentage :=
  (fun generator : BenchmarkGenerator =>
     let visited := BenchmarkPlotter.count_nonzero (visits generator) in
     let! stored := BenchmarkPlotter.benchmark cls in
     let! ratio :=
       py_truediv (inject_Z visited) (inject_Z (total (model (report stored))))
     in
     Ok (ratio * 100)%Q).

Lemma percentage_chart_raises ax (g : grouped) e :
  g <> [] ->
  (forall name gens, In (name, gens) g -> gens <> []) ->
  (forall gen, percentage gen = Raise e) ->
  BenchmarkPlotter._plot_bars ax g percentage true = Raise e.
Proof.
  intros Hg Hbuckets Hraise.
  assert (Hbucket : exists name gens gen, In (name, gens) g /\ In gen gens).
  { destruct g as [| [name gens] g]; [congruence |].
    assert (Hgens : gens <> []) by (apply (Hbuckets name); simpl; auto).
    destruct gens as [| gen gens]; [congruence |].
    exists name, (gen :: gens), gen. simpl. auto. }
  destruct Hbucket as (name & gens & gen & H1 & H2).
  destruct (BenchmarkPlotter._plot_bars ax g percentage true)
    as [ax' | e'] eqn:Hc.
  - exfalso.
    apply plot_bars_Ok in Hc as (_ & hs & fits & _ & _ & Hall & _).
    destruct (Forall2_In_l _ _ _ _ Hall H1) as (ys & _ & Hys).
    apply comprehension_Ok in Hys. simpl in Hys.
    destruct (Forall2_In_l _ _ _ _ Hys H2) as (y & _ & Hy).
    rewrite Hraise in Hy. discriminate.
  - f_equal.
    apply plot_bars_Raise in Hc
      as [[-> _] | [(name' & gens' & gen' & _ & _ & Hgen')
                   | (_ & (name' & Hempty) & _)]].
    + destruct H1.
    + rewrite Hraise in Hgen'. congruence.
    + now destruct (Hbuckets name' [] Hempty).
Qed.

Lemma percentage_chart_heights ax (g : grouped) (b : Benchmark) :
  cls = Some b -> total (model (report b)) <> 0%Z -> g <> [] ->
  (forall name gens, In (name, gens) g -> gens <> []) ->
  exists ax',
    BenchmarkPlotter._plot_bars ax g percentage true = Ok ax'
    /\ bar_heights ax'
       = bar_heights ax
         ++ map (fun group =>
                   map (fun gen =>
                          (inject_Z (BenchmarkPlotter.count_nonzero
                                       (visits gen))
                           / inject_Z (total (model (report b))) * 100)%Q)
                     (snd group)) g.
Proof.
  intros Hcls Htotal Hg Hbuckets.
  assert (Hvalue : forall gen,
             percentage gen
             = Ok (inject_Z (BenchmarkPlotter.count_nonzero (visits gen))
                   / inject_Z (total (model (report b))) * 100)%Q).
  { intros gen. rewrite Hcls. simpl.
    now rewrite py_truediv_nonzero by now apply inject_Z_nonzero. }
  destruct (plot_bars_total ax g percentage true Hg Hbuckets)
    as (ax' & Hax).
  { intros name gens gen _ _. rewrite Hvalue. eauto. }
  exists ax'. split; [exact Hax |].
  apply plot_bars_Ok in Hax as (_ & hs & fits & Hh & _ & Hall & _).
  rewrite Hh. f_equal.
  eapply series_heights_map; [| exact Hall].
  intros name gens gen _ _. apply Hvalue.
Qed.
End Percentage.

(** X12.  "Average Vertex Visits %" and "Average Edge Visits %" on a
    non-empty mapping in which every generator name has at least one
    bucket:
    - while [BenchmarkPlotter.benchmark] has never been stored, they raise
      [AttributeError];
    - when the stored benchmark's model has 0 vertices (resp. edges), they
      raise [ZeroDivisionError];
    - otherwise each bar is the number of identifiers with a non-zero
      average visit count, divided by the model's vertex (resp. edge) count,
      times 100. *)
Theorem coverage_percentage_charts (g : grouped) :
  g <> [] ->
  (forall name gens, In (name, gens) g -> gens <> []) ->
  (exists e,
      BenchmarkPlotter.benchmark None = Raise e
      /\ BenchmarkPlotter.plot_average_vertex_percentage_total_visits None g
         = Raise e
      /\ BenchmarkPlotter.plot_average_edge_percentage_total_visits None g
         = Raise e)
  /\ (forall b,
         (vertices (model (report b)) = 0%Z ->
          BenchmarkPlotter.plot_average_vertex_percentage_total_visits
            (Some b) g = Raise ZeroDivisionError)
         /\ (edges (model (report b)) = 0%Z ->
             BenchmarkPlotter.plot_average_edge_percentage_total_visits
               (Some b) g = Raise ZeroDivisionError)
         /\ (vertices (model (report b)) <> 0%Z ->
             exists ax,
               BenchmarkPlotter.plot_average_vertex_percentage_total_visits
                 (Some b) g = Ok ax
               /\ bar_heights ax
                  = map (fun group =>
                           map (fun gen =>
                                  (inject_Z
                                     (BenchmarkPlotter.count_nonzero
                                        (average_vertex_visits_individual gen))
                                   / inject_Z (vertices (model (report b)))
                                   * 100)%Q) (snd group)) g)
         /\ (edges (model (report b)) <> 0%Z ->
             exists ax,
               BenchmarkPlotter.plot_average_edge_percentage_total_visits
                 (Some b) g = Ok ax
               /\ bar_heights ax
                  = map (fun group =>
                           map (fun gen =>
                                  (inject_Z
                                     (BenchmarkPlotter.count_nonzero
                                        (average_edge_visits_individual gen))
                                   / inject_Z (edges (model (report b)))
                                   * 100)%Q) (snd group)) g)).
Proof.
  intros Hg Hbuckets.
  split.
  - eexists. split; [reflexivity |].
    split; apply percentage_chart_raises; auto.
  - intros b. split; [| split; [| split]].
    + intros Hzero.
      apply (percentage_chart_raises average_vertex_visits_individual
               vertices (Some b)); [exact Hg | exact Hbuckets |].
      intros gen. simpl. rewrite Hzero. reflexivity.
    + intros Hzero.
      apply (percentage_chart_raises average_edge_visits_individual
               edges (Some b)); [exact Hg | exact Hbuckets |].
      intros gen. simpl. rewrite Hzero. reflexivity.
    + intros Hnz.
      unfold BenchmarkPlotter.plot_average_vertex_percentage_total_visits.
      match goal with
      | |- exists ax, BenchmarkPlotter._plot_bars ?a g _ true = _ /\ _ =>
          destruct (percentage_chart_heights average_vertex_visits_individual
                      vertices (Some b) a g b eq_refl Hnz Hg Hbuckets)
            as (ax' & H1 & H2)
      end.
      exists ax'. split; [exact H1 | exact H2].
    + intros Hnz.
      unfold BenchmarkPlotter.plot_average_edge_percentage_total_visits.
      match goal with
      | |- exists ax, BenchmarkPlotter._plot_bars ?a g _ true = _ /\ _ =>
          destruct (percentage_chart_heights average_edge_visits_individual
                      edges (Some b) a g b eq_refl Hnz Hg Hbuckets)
            as (ax' & H1 & H2)
      end.
      exists ax'. split; [exact H1 | exact H2].
Qed.

(** The two sample generators under a benchmark whose model has no
    vertices. *)
Lemma coverage_percentage_charts_witness :
  BenchmarkPlotter.plot_average_vertex_percentage_total_visits
    (Some (Samples.benchmark_with 0 2 true)) Samples.two_generators
  = Raise ZeroDivisionError.
Proof.
  apply (proj2 (coverage_percentage_charts Samples.two_generators
                  ltac:(discriminate) sample_buckets_nonempty)
           (Samples.benchmark_with 0 2 true)).
  reflexivity.
Defined.

(** ** The line chart *)

Lemma line_series_draw a ax :
  line_series (draw a ax)
  = line_series ax ++ match a with Line x y l => [(x, y, l)] | _ => [] end.
Proof.
  unfold line_series, draw. simpl. rewrite flat_map_app. simpl.
  now rewrite app_nil_r.
Qed.

Lemma plot_lines_loop_series (h : BenchmarkGenerator -> Q)
  (groups : grouped) ax :
  exists ax',
    BenchmarkPlotter._plot_lines_loop (fun generator => Ok (h generator))
      groups ax = Ok ax'
    /\ line_series ax'
       = line_series ax
         ++ map (fun group =>
                   (map (fun gen => inject_Z (stop_coverage gen)) (snd group),
                    map h (snd group), fst group)) groups
    /\ bar_series ax' = bar_series ax
    /\ trend_fits ax' = trend_fits ax.
Proof.
  revert ax. induction groups as [| [name gens] rest IH]; intros ax; simpl.
  - exists ax. now rewrite app_nil_r.
  - rewrite (comprehension_map _ h) by reflexivity. simpl.
    destruct (IH (draw (Line (map (fun gen => inject_Z (stop_coverage gen))
                                gens) (map h gens) name) ax))
      as (ax' & -> & Hl & Hb & Ht).
    exists ax'. split; [reflexivity |].
    rewrite Hl, Hb, Ht, line_series_draw, bar_series_draw, trend_fits_draw.
    simpl. rewrite !app_nil_r, <- app_assoc. auto.
Qed.

(** X13.  "Coverage vs Time" on a non-empty mapping is drawn, and holds
    one line per generator name, in mapping order and labelled with the
    name, through the points (stop-coverage, total generation time) of its
    buckets: unlike the bars, the lines sit at the stop-coverage values
    themselves.  It has no bars and no trend lines, and its x ticks are
    the stop-coverage values of the first generator name's buckets. *)
Theorem coverage_vs_time_lines (cls : option Benchmark) (g : grouped) :
  g <> [] ->
  exists ax,
    BenchmarkPlotter.plot_coverage_vs_time cls g = Ok ax
    /\ line_series ax
       = map (fun group =>
                (map (fun gen => inject_Z (stop_coverage gen)) (snd group),
                 map total_generation_time (snd group), fst group)) g
    /\ bar_series ax = []
    /\ trend_fits ax = []
    /\ xticks ax = option_map (fun group => map stop_coverage (snd group))
                     (hd_error g).
Proof.
  intros Hg. unfold BenchmarkPlotter.plot_coverage_vs_time,
    BenchmarkPlotter._plot_lines.
  match goal with
  | |- context [BenchmarkPlotter._plot_lines_loop _ g ?a] =>
      destruct (plot_lines_loop_series total_generation_time g a)
        as (ax1 & -> & Hl & Hb & Ht)
  end.
  simpl. destruct g as [| [name gens] rest]; [congruence |]. simpl.
  eexists. split; [reflexivity |].
  split; [exact Hl |]. split; [exact Hb |]. split; [exact Ht | reflexivity].
Qed.

(** The line chart of the two sample generators. *)
Lemma coverage_vs_time_lines_witness :
  exists ax,
    BenchmarkPlotter.plot_coverage_vs_time None Samples.two_generators = Ok ax
    /\ line_series ax
       = [([inject_Z 50; inject_Z 100], [(2 * 15)%Q; (2 * 20)%Q], "Random");
          ([inject_Z 50; inject_Z 100], [(2 * 10)%Q; (2 * 25)%Q], "Weighted")].
Proof.
  destruct (coverage_vs_time_lines None Samples.two_generators
              ltac:(discriminate)) as (ax & H & Hl & _).
  exists ax. split; [exact H | exact Hl].
Defined.
